(** * Invoice extraction and fraud analysis: a shallow embedding

    Embedding of [processors/document_processor.py] and
    [processors/invoice_analyzer.py], and of the checks that
    [ui/fraud_detector_ui.py] makes before it calls the analyzer.

    Conventions of the embedding.
    - A Python [str] is a Rocq [string]; a character is a code point below
      256 (the Latin-1 range), so [\d], [\s], [str.lower], [str.strip] and
      [str.splitlines] are the restrictions of Python's Unicode versions to
      that range.
    - A Python [float] or [int] is a rational number [Q]: every number the
      code builds is a short decimal literal and is only compared, never
      computed with.
    - A Python [dict] is an association list in insertion order.  A line
      item is the dict over the keys [description], [quantity] and
      [unit_price], each missing, [None] or bound (to a string for the
      first, to a number for the other two); a line item that holds
      another kind of object under a key (a string for a number, say) is
      outside the embedding.  An invoice binds its keys to [None],
      booleans, numbers, strings, lists of line items, lists of scored
      rows and lists of strings.
    - The data frame of the analyzer is its columns, row by row: the two
      number columns, and the [description] column cell by cell (a text,
      [None], or the [nan] that fills the place of a missing key); a row
      written back as a dict has every column of the frame as a key.
    - An exception is a result of its own: [None] where the source catches
      it without looking at it, [Raise e] where its text is used or where
      it leaves the method.
    - Libraries outside the repository (OCR, PDF reading, MarkItDown, the
      chat client, [json.loads], the isolation forest, number formatting)
      are parameters: fields of a record, or Section variables.
      [json.loads] has three outcomes: an object, [json.JSONDecodeError],
      or another exception.
    - Regular expressions are run by a backtracking matcher that lists the
      ways to match in the order [re] tries them; the patterns of the
      source are terms of its pattern type.

    The file has the definitions first (strings, patterns, values, the two
    processors, sample inputs), then the facts. *)

From Stdlib Require Import String Ascii List Bool Arith ZArith QArith Lia.
From Stdlib Require DecimalString.
Import ListNotations.

Local Open Scope string_scope.
Local Open Scope list_scope.

(* ================================================================== *)
(** ** Python strings *)
(* ================================================================== *)

Module PyStr.

Definition code (c : ascii) : nat := nat_of_ascii c.

(** [str.isdigit] / regex [\d] below code point 256. *)
Definition is_digit (c : ascii) : bool :=
  (48 <=? code c)%nat && (code c <=? 57)%nat.

(** [str.isspace] / regex [\s] below code point 256. *)
Definition is_space (c : ascii) : bool :=
  let n := code c in
  ((9 <=? n)%nat && (n <=? 13)%nat) || ((28 <=? n)%nat && (n <=? 32)%nat)
  || (n =? 133)%nat || (n =? 160)%nat.

Definition is_upper (c : ascii) : bool :=
  (65 <=? code c)%nat && (code c <=? 90)%nat.

(** Line boundaries of [str.splitlines] other than ["\r\n"]. *)
Definition is_linebreak (c : ascii) : bool :=
  let n := code c in
  ((10 <=? n)%nat && (n <=? 13)%nat) || ((28 <=? n)%nat && (n <=? 30)%nat)
  || (n =? 133)%nat.

Definition lower_char (c : ascii) : ascii :=
  let n := code c in
  if is_upper c then ascii_of_nat (n + 32)
  else if (192 <=? n)%nat && (n <=? 222)%nat && negb (n =? 215)%nat
       then ascii_of_nat (n + 32)
       else c.

Fixpoint lower (s : string) : string :=
  match s with
  | EmptyString => EmptyString
  | String c s' => String (lower_char c) (lower s')
  end.

Fixpoint rev_onto (s acc : string) : string :=
  match s with
  | EmptyString => acc
  | String c s' => rev_onto s' (String c acc)
  end.

Definition rev (s : string) : string := rev_onto s EmptyString.

Fixpoint lstrip (s : string) : string :=
  match s with
  | EmptyString => EmptyString
  | String c s' => if is_space c then lstrip s' else s
  end.

Definition rstrip (s : string) : string := rev (lstrip (rev s)).

Definition strip (s : string) : string := rstrip (lstrip s).

Definition is_empty (s : string) : bool :=
  match s with EmptyString => true | _ => false end.

Fixpoint drop (n : nat) (s : string) : string :=
  match n, s with
  | S n', String _ s' => drop n' s'
  | _, _ => s
  end.

(** [sub in s] *)
Fixpoint contains (sub s : string) : bool :=
  prefix sub s ||
  match s with
  | EmptyString => false
  | String _ s' => contains sub s'
  end.

(** [s.splitlines()], [cur] holding the current line backwards. *)
Fixpoint splitlines_from (cur s : string) : list string :=
  match s with
  | EmptyString => if is_empty cur then [] else [rev cur]
  | String c s' =>
      if (code c =? 13)%nat then
        match s' with
        | String c' s'' =>
            if (code c' =? 10)%nat then rev cur :: splitlines_from EmptyString s''
            else rev cur :: splitlines_from EmptyString s'
        | EmptyString => rev cur :: splitlines_from EmptyString s'
        end
      else if is_linebreak c then rev cur :: splitlines_from EmptyString s'
      else splitlines_from (String c cur) s'
  end.

Definition splitlines (s : string) : list string :=
  splitlines_from EmptyString s.

(** [s.replace(a, b)] for single characters. *)
Fixpoint replace_char (a b : ascii) (s : string) : string :=
  match s with
  | EmptyString => EmptyString
  | String c s' =>
      String (if Ascii.eqb c a then b else c) (replace_char a b s')
  end.

(** [sep.join(l)] *)
Fixpoint join (sep : string) (l : list string) : string :=
  match l with
  | [] => EmptyString
  | [x] => x
  | x :: rest => (x ++ sep ++ join sep rest)%string
  end.

(** [s.split(c, 1)[1]]: what follows the first [c]; [None] is the
    [IndexError] of a string without [c]. *)
Fixpoint after_first (c : ascii) (s : string) : option string :=
  match s with
  | EmptyString => None
  | String a s' => if Ascii.eqb a c then Some s' else after_first c s'
  end.

(** [s.split(c)[-1]]: what follows the last [c], the whole string when
    there is none. *)
Fixpoint after_last (c : ascii) (s : string) : string :=
  match s with
  | EmptyString => EmptyString
  | String a s' =>
      if Ascii.eqb a c then after_last c s'
      else if contains (String c EmptyString) s' then after_last c s'
           else s
  end.

Fixpoint forallb_str (p : ascii -> bool) (s : string) : bool :=
  match s with
  | EmptyString => true
  | String c s' => p c && forallb_str p s'
  end.

End PyStr.

(* ================================================================== *)
(** ** Regular expressions, with the backtracking order of [re] *)
(* ================================================================== *)

Module Re.
Import PyStr.

(** The fragment of the pattern language the source uses.  Quantifiers
    other than [?] are only ever applied to a character class there. *)
Inductive re : Type :=
| Eps
| Cls (p : ascii -> bool)                 (* one character of a class *)
| Lit (l : string)                        (* a literal *)
| Seq (a b : re)
| Alt (a b : re)                          (* a|b *)
| Opt (a : re)                            (* a? greedy *)
| Rep (p : ascii -> bool) (lo : nat) (hi : option nat) (greedy : bool)
                                          (* c{lo,hi}, c*, c+, c*? ... *)
| Grp (n : nat) (a : re)                  (* capturing group number n *)
| Bol                                     (* ^ *)
| Eol.                                    (* $ *)

Definition caps := list (nat * string).

(** A way to match at the current position: text consumed, groups
    captured, text left. *)
Definition way : Type := string * caps * string.

(** Every split of [s] into a prefix of at most [n] characters of class
    [p] and the rest, shortest prefix first. *)
Fixpoint splits (p : ascii -> bool) (n : nat) (s : string)
  : list (string * string) :=
  (EmptyString, s) ::
  match n, s with
  | S n', String c s' =>
      if p c then map (fun wr => (String c (fst wr), snd wr)) (splits p n' s')
      else []
  | _, _ => []
  end.

Definition rep_ways (p : ascii -> bool) (lo : nat) (hi : option nat)
  (greedy : bool) (s : string) : list way :=
  let bound := match hi with Some h => h | None => String.length s end in
  let ok := filter (fun wr => (lo <=? String.length (fst wr))%nat)
                   (splits p bound s) in
  map (fun wr => (fst wr, [], snd wr)) (if greedy then List.rev ok else ok).

Definition at_eol (s : string) : bool :=
  match s with
  | EmptyString => true
  | String c EmptyString => (code c =? 10)%nat
  | _ => false
  end.

(** All the ways [r] matches at the head of [s], in the order a
    backtracking matcher tries them; [bos] tells whether the position is
    the beginning of the subject. *)
Fixpoint ways (r : re) (bos : bool) (s : string) : list way :=
  match r with
  | Eps => [(EmptyString, [], s)]
  | Cls p =>
      match s with
      | String c s' => if p c then [(String c EmptyString, [], s')] else []
      | EmptyString => []
      end
  | Lit l => if prefix l s then [(l, [], drop (String.length l) s)] else []
  | Seq a b =>
      flat_map
        (fun w1 =>
           match w1 with
           | (t1, g1, s1) =>
               map (fun w2 =>
                      match w2 with
                      | (t2, g2, s2) => ((t1 ++ t2)%string, g1 ++ g2, s2)
                      end)
                   (ways b (bos && is_empty t1) s1)
           end)
        (ways a bos s)
  | Alt a b => ways a bos s ++ ways b bos s
  | Opt a => ways a bos s ++ [(EmptyString, [], s)]
  | Rep p lo hi greedy => rep_ways p lo hi greedy s
  | Grp n a =>
      map (fun w => match w with (t, g, s') => (t, (n, t) :: g, s') end)
          (ways a bos s)
  | Bol => if bos then [(EmptyString, [], s)] else []
  | Eol => if at_eol s then [(EmptyString, [], s)] else []
  end.

(** A match object: [group(0)], the numbered groups, and the text after
    the match. *)
Record mobj : Type := MObj { whole : string; groups : caps; rest : string }.

Definition first_way (r : re) (bos : bool) (s : string) : option mobj :=
  match ways r bos s with
  | (t, g, s') :: _ => Some (MObj t g s')
  | [] => None
  end.

(** [m.group(n)] for a group that took part in the match. *)
Fixpoint group_in (n : nat) (g : caps) : option string :=
  match g with
  | [] => None
  | (k, t) :: g' => if (k =? n)%nat then Some t else group_in n g'
  end.

Definition group (n : nat) (m : mobj) : option string :=
  match n with
  | O => Some (whole m)
  | _ => group_in n (groups m)
  end.

(** [re.match(r, s)] *)
Definition match_ (r : re) (s : string) : option mobj := first_way r true s.

(** [re.search(r, s)]: the first position with a match. *)
Fixpoint search_at (r : re) (bos : bool) (s : string) : option mobj :=
  match first_way r bos s with
  | Some m => Some m
  | None =>
      match s with
      | EmptyString => None
      | String _ s' => search_at r false s'
      end
  end.

Definition search (r : re) (s : string) : option mobj := search_at r true s.

(** [re.finditer(r, s)] for a pattern that matches no empty string;
    [skip] characters of the last match are still to be passed over. *)
Fixpoint finditer_at (r : re) (skip : nat) (bos : bool) (s : string)
  : list mobj :=
  match skip with
  | S k =>
      match s with
      | EmptyString => []
      | String _ s' => finditer_at r k false s'
      end
  | O =>
      match first_way r bos s with
      | Some m =>
          m :: match s with
               | EmptyString => []
               | String _ s' =>
                   finditer_at r (Nat.pred (String.length (whole m))) false s'
               end
      | None =>
          match s with
          | EmptyString => []
          | String _ s' => finditer_at r 0 false s'
          end
      end
  end.

Definition finditer (r : re) (s : string) : list mobj :=
  finditer_at r 0 true s.

(** [re.sub(r, '', s)] for a pattern that matches no empty string. *)
Fixpoint sub_empty_at (r : re) (skip : nat) (bos : bool) (s : string)
  : string :=
  match skip with
  | S k =>
      match s with
      | EmptyString => EmptyString
      | String _ s' => sub_empty_at r k false s'
      end
  | O =>
      match s with
      | EmptyString => EmptyString
      | String c s' =>
          match first_way r bos s with
          | Some m =>
              sub_empty_at r (Nat.pred (String.length (whole m))) false s'
          | None => String c (sub_empty_at r 0 false s')
          end
      end
  end.

Definition sub_empty (r : re) (s : string) : string :=
  sub_empty_at r 0 true s.

(** What a way of matching [r] looks like: [parses r t g] holds when
    [t] is in the language of [r] and [g] are the groups it captures, in
    order.  Every element of [ways r] is of this kind. *)
Fixpoint parses (r : re) (t : string) (g : caps) : Prop :=
  match r with
  | Eps | Bol | Eol => t = EmptyString /\ g = []
  | Cls p => (exists c, t = String c EmptyString /\ p c = true) /\ g = []
  | Lit l => t = l /\ g = []
  | Seq a b =>
      exists t1 t2 g1 g2,
        t = (t1 ++ t2)%string /\ g = g1 ++ g2
        /\ parses a t1 g1 /\ parses b t2 g2
  | Alt a b => parses a t g \/ parses b t g
  | Opt a => parses a t g \/ (t = EmptyString /\ g = [])
  | Rep p lo hi _ =>
      forallb_str p t = true
      /\ (lo <= String.length t)%nat
      /\ match hi with
         | Some h => (String.length t <= h)%nat
         | None => True
         end
      /\ g = []
  | Grp n a => exists g', parses a t g' /\ g = (n, t) :: g'
  end.

(** The longest prefix of [s] in the class [p], and what follows it. *)
Fixpoint take_while (p : ascii -> bool) (s : string) : string :=
  match s with
  | EmptyString => EmptyString
  | String c s' => if p c then String c (take_while p s') else EmptyString
  end.

Fixpoint drop_while (p : ascii -> bool) (s : string) : string :=
  match s with
  | EmptyString => EmptyString
  | String c s' => if p c then drop_while p s' else s
  end.

(** The first run of digits of [s], as long as it goes. *)
Fixpoint first_digit_run (s : string) : option string :=
  match s with
  | EmptyString => None
  | String c s' =>
      if is_digit c then Some (take_while is_digit s)
      else first_digit_run s'
  end.

(** Character classes of the source's patterns. *)
Definition any_char (_ : ascii) : bool := true.                (* [\s\S] *)
Definition dot (c : ascii) : bool := negb (code c =? 10)%nat.   (* . *)
Definition chr_is (a : ascii) (c : ascii) : bool := Ascii.eqb c a.
Definition one_of (l : string) (c : ascii) : bool :=
  contains (String c EmptyString) l.
Definition not_quote (c : ascii) : bool := negb (code c =? 34)%nat.
Definition digit_or_hyphen (c : ascii) : bool :=
  is_digit c || (code c =? 45)%nat.                              (* [\d-] *)
Definition upper_or_digit (c : ascii) : bool :=
  is_upper c || is_digit c.                                      (* [A-Z0-9] *)

Definition star p := Rep p 0 None true.
Definition plus p := Rep p 1 None true.
Definition exactly p n := Rep p n (Some n) true.
Definition between p lo hi := Rep p lo (Some hi) true.

Fixpoint seq (l : list re) : re :=
  match l with
  | [] => Eps
  | [r] => r
  | r :: l' => Seq r (seq l')
  end.

End Re.

(* ================================================================== *)
(** ** Python values and dicts *)
(* ================================================================== *)

Module Py.
Import PyStr.

(** A key of a dict of known shape: missing, bound to [None], or bound
    to a value. *)
Inductive field (A : Type) : Type :=
| Absent
| Null
| Val (a : A).
Arguments Absent {A}.
Arguments Null {A}.
Arguments Val {A} a.

(** A line item: the dict with (some of) the keys [description],
    [quantity] and [unit_price]; all three absent is the empty dict. *)
Record line_item : Type := Item {
  description : field string;
  quantity : field Q;
  unit_price : field Q
}.

Definition empty_item : line_item := Item Absent Absent Absent.

Definition is_absent {A} (f : field A) : bool :=
  match f with Absent => true | _ => false end.

(** Truth value of a line item: a dict is true when it has a key. *)
Definition item_truthy (it : line_item) : bool :=
  negb (is_absent (description it) && is_absent (quantity it)
        && is_absent (unit_price it)).

(** A cell of the [description] column of the analyzer's data frame:
    the [nan] that fills the place of a missing key, [None], or a
    text. *)
Inductive cell : Type :=
| NaN
| NoneCell
| Text (s : string).

(** A row of the analyzer's data frame written back as a dict
    ([to_dict(orient='records')]): every column of the frame is a key
    of the row.  [row_description] is [None] when the frame has no
    [description] column; [unit_price] and [quantity] are numbers, rows
    being written back only when [dropna()] dropped none; [anomaly_score]
    and [is_anomaly] are the two columns the analyzer adds. *)
Record scored_item : Type := Scored {
  row_description : option cell;
  row_quantity : Q;
  row_unit_price : Q;
  anomaly_score : Q;
  is_anomaly : Z
}.

(** A row read as a line item: [item['description']] as an f-string
    formats it ([nan] is written <q>nan<q>), and the two numbers. *)
Definition row_item (row : scored_item) : line_item :=
  Item (match row_description row with
        | None => Absent
        | Some NaN => Val "nan"
        | Some NoneCell => Null
        | Some (Text s) => Val s
        end)
       (Val (row_quantity row)) (Val (row_unit_price row)).

Inductive value : Type :=
| VNone
| VBool (b : bool)
| VNum (q : Q)
| VStr (s : string)
| VItems (l : list line_item)
| VScored (l : list scored_item)
| VStrs (l : list string).

Definition dict : Type := list (string * value).

(** [k in d] *)
Fixpoint dict_has (k : string) (d : dict) : bool :=
  match d with
  | [] => false
  | (k', _) :: d' => String.eqb k' k || dict_has k d'
  end.

(** [d.get(k)]; [d[k]] raises [KeyError] where this is [None]. *)
Fixpoint dict_get (k : string) (d : dict) : option value :=
  match d with
  | [] => None
  | (k', v) :: d' => if String.eqb k' k then Some v else dict_get k d'
  end.

(** [d[k] = v]: a bound key keeps its place, a new one goes last. *)
Fixpoint dict_set (k : string) (v : value) (d : dict) : dict :=
  match d with
  | [] => [(k, v)]
  | (k', v') :: d' =>
      if String.eqb k' k then (k, v) :: d' else (k', v') :: dict_set k v d'
  end.

(** Truth value of a Python object. *)
Definition truthy (v : value) : bool :=
  match v with
  | VNone => false
  | VBool b => b
  | VNum q => negb (Qeq_bool q 0)
  | VStr s => negb (is_empty s)
  | VItems l => match l with [] => false | _ => true end
  | VScored l => match l with [] => false | _ => true end
  | VStrs l => match l with [] => false | _ => true end
  end.

(** Value of a string of decimal digits. *)
Fixpoint digits_val (acc : Z) (s : string) : Z :=
  match s with
  | EmptyString => acc
  | String c s' => digits_val (10 * acc + Z.of_nat (code c - 48)) s'
  end.

Fixpoint pow10 (n : nat) : positive :=
  match n with
  | O => 1%positive
  | S n' => (10 * pow10 n')%positive
  end.

Fixpoint split_dot (s : string) : string * option string :=
  match s with
  | EmptyString => (EmptyString, None)
  | String c s' =>
      if Ascii.eqb c "."%char then (EmptyString, Some s')
      else let r := split_dot s' in (String c (fst r), snd r)
  end.

(** [float(s)] on the decimal literals [d+], [d+.], [d+.d+] and [.d+];
    [None] stands for [ValueError] (the source passes nothing else:
    signs, exponents, [inf], [nan] and padding are not modelled).  The
    number is the exact value of the literal: Python rounds it to the
    nearest double, the same number up to that rounding for the short
    literals of the heuristic extractor (at most three digits, then two),
    and a rounded one, or [inf], for the long digit runs that the
    fallback can meet. *)
Definition py_float (s : string) : option Q :=
  match split_dot s with
  | (i, None) =>
      if negb (is_empty i) && forallb_str is_digit i
      then Some (inject_Z (digits_val 0 i)) else None
  | (i, Some f) =>
      if forallb_str is_digit i && forallb_str is_digit f
         && negb (is_empty i && is_empty f)
      then Some (Qmake (digits_val (digits_val 0 i) f)
                       (pow10 (String.length f)))
      else None
  end.

(** A call that returns a value, or raises an exception with the text
    [str(e)]. *)
Inductive outcome (A : Type) : Type :=
| Ok (a : A)
| Raise (e : string).
Arguments Ok {A} a.
Arguments Raise {A} e.

End Py.

(* ================================================================== *)
(** ** processors/document_processor.py: the heuristic extractor *)
(* ================================================================== *)

Module DocumentProcessor.
Import PyStr Re Py.

(** A computation that may raise: [None] is a raised exception. *)
Definition raising (A : Type) : Type := option A.

Definition bind {A B} (m : raising A) (k : A -> raising B) : raising B :=
  match m with
  | Some a => k a
  | None => None
  end.

Local Notation "x <- m ;; k" := (bind m (fun x => k))
  (at level 61, m at next level, right associativity).

Definition sep_date : ascii -> bool := one_of "./-".
Definition sep_dec : ascii -> bool := one_of ".,".

(** [\d+] *)
Definition digits_re : re := plus is_digit.

(** [(\d{1,2}[./-]\d{1,2}[./-]\d{4}|\d{4}[./-]\d{1,2}[./-]\d{1,2})] *)
Definition date_re : re :=
  Grp 1 (Alt (seq [between is_digit 1 2; Cls sep_date; between is_digit 1 2;
                   Cls sep_date; exactly is_digit 4])
             (seq [exactly is_digit 4; Cls sep_date; between is_digit 1 2;
                   Cls sep_date; between is_digit 1 2])).

(** [[\d-]+] *)
Definition tax_re : re := plus digit_or_hyphen.

(** [[A-Z]{2}\d{2}[A-Z0-9]{10,30}] *)
Definition iban_re : re :=
  seq [exactly is_upper 2; exactly is_digit 2; between upper_or_digit 10 30].

(** [\d{1,3}[.,]\d{2}] *)
Definition dec_re : re :=
  seq [between is_digit 1 3; Cls sep_dec; exactly is_digit 2].

(** [\$?\s?(\d{1,3}(?:[.,]\d{2})?)] *)
Definition total_re : re :=
  seq [Opt (Cls (chr_is "$")); Opt (Cls is_space);
       Grp 1 (Seq (between is_digit 1 3)
                  (Opt (Seq (Cls sep_dec) (exactly is_digit 2))))].

(** [^\d+\.\s] *)
Definition item_start_re : re :=
  seq [Bol; plus is_digit; Cls (chr_is "."); Cls is_space].

(** [^\d+\.\s(.+?)\s(\d{1,3}[.,]\d{2})$] *)
Definition item_strict_re : re :=
  seq [Bol; plus is_digit; Cls (chr_is "."); Cls is_space;
       Grp 1 (Rep dot 1 None false); Cls is_space; Grp 2 dec_re; Eol].

(** [(\d{1,3}[.,]\d{2})] *)
Definition qty_re : re := Grp 1 dec_re.

(** [^\d{1,3}[.,]\d{2}$] *)
Definition price_line_re : re := seq [Bol; dec_re; Eol].

Definition is_some {A} (o : option A) : bool :=
  match o with Some _ => true | None => false end.

(** [m.group(n)] as a Python object: [None] for a group left out. *)
Definition group_value (n : nat) (m : mobj) : value :=
  match group n m with
  | Some s => VStr s
  | None => VNone
  end.

(** [float(m.group(n).replace(",", "."))] *)
Definition group_float (n : nat) (m : mobj) : raising Q :=
  s <- group n m ;; py_float (replace_char "," "." s).

(** The closure [get_next_nonempty(i)]; [following] is [lines[i+1:]]. *)
Fixpoint get_next_nonempty (following : list string) : string :=
  match following with
  | [] => EmptyString
  | l :: rest =>
      if negb (is_empty (strip l)) then strip l else get_next_nonempty rest
  end.

Definition date_stop_keywords : list string :=
  ["tax id"; "iban"; "client"; "total"; "description"; "qty"; "summary";
   "items"].

(** The forward scan for an invoice date over [lines[i+1:]]. *)
Fixpoint scan_date (following : list string) : option mobj :=
  match following with
  | [] => None
  | l :: rest =>
      let future_line := strip l in
      if existsb (fun keyword => contains keyword (lower future_line))
                 date_stop_keywords
      then scan_date rest
      else match search date_re future_line with
           | Some m => Some m
           | None => scan_date rest
           end
  end.

(** The probe for a total over [lines[i+1 : min(i+4, len(lines))]]. *)
Fixpoint probe_total (window : list string) : option mobj :=
  match window with
  | [] => None
  | future_line :: rest =>
      match search total_re future_line with
      | Some m => Some m
      | None => probe_total rest
      end
  end.

(** One iteration of the field loop on [line = lines[i]] with
    [following = lines[i+1:]]. *)
Definition field_step (line : string) (following : list string)
  (invoice : dict) : raising dict :=
  let line_clean := lower (strip line) in
  let combined_text := (line ++ " " ++ get_next_nonempty following)%string in
  if contains "invoice no" line_clean || contains "invoice number" line_clean
  then
    match search digits_re combined_text with
    | Some m => Some (dict_set "invoice_number" (group_value 0 m) invoice)
    | None => Some invoice
    end
  else if contains "supplier" line_clean || contains "seller" line_clean
  then Some (dict_set "supplier_name" (VStr (get_next_nonempty following))
                      invoice)
  else if contains "invoice date" (lower combined_text)
          || contains "date of issue" (lower combined_text)
          || contains "issue date" (lower combined_text)
          || contains "date:" (lower combined_text)
  then
    let date_match :=
      match search date_re combined_text with
      | Some m => Some m
      | None => scan_date following
      end in
    match date_match with
    | Some m => Some (dict_set "invoice_date" (group_value 1 m) invoice)
    | None => Some invoice
    end
  else if contains "service period" line_clean
  then
    match search date_re (strip combined_text) with
    | Some m => Some (dict_set "service_date" (group_value 1 m) invoice)
    | None => Some invoice
    end
  else if contains "due date" line_clean
  then
    match search date_re (strip combined_text) with
    | Some m => Some (dict_set "due_date" (group_value 1 m) invoice)
    | None => Some invoice
    end
  else if contains "tax id" line_clean && negb (dict_has "tax_id" invoice)
  then
    match search tax_re combined_text with
    | Some m => Some (dict_set "tax_id" (group_value 0 m) invoice)
    | None => Some invoice
    end
  else if contains "bank account" line_clean || contains "iban" line_clean
  then
    match search iban_re combined_text with
    | Some m => Some (dict_set "bank_account" (group_value 0 m) invoice)
    | None => Some invoice
    end
  else if contains "total amount" line_clean || contains "total" line_clean
  then
    let total_match :=
      match search total_re line with
      | Some m => Some m
      | None => probe_total (firstn 3 following)
      end in
    match total_match with
    | Some m =>
        q <- group_float 1 m ;;
        Some (dict_set "total_amount" (VNum q) invoice)
    | None => Some invoice
    end
  else Some invoice.

(** The first loop, [for i, line in enumerate(lines)]. *)
Fixpoint field_loop (lines : list string) (invoice : dict) : raising dict :=
  match lines with
  | [] => Some invoice
  | line :: following =>
      invoice' <- field_step line following invoice ;;
      field_loop following invoice'
  end.

(** Local variables of the line-item loop ([quantities] is never used). *)
Record item_state : Type := ItemState {
  line_items : list line_item;
  current_item : line_item;
  net_prices : list Q;
  collecting_prices : bool
}.

Definition continuation_stop_keywords : list string :=
  ["summary"; "vat"; "net price"; "gross"; "client"; "$"].

(** The item a numbered line opens. *)
Definition open_item (line : string) : raising line_item :=
  match match_ item_strict_re line with
  | Some m =>
      g1 <- group 1 m ;;
      qty <- group_float 2 m ;;
      Some (Item (Val (strip g1)) (Val qty) Null)
  | None =>
      tail <- after_first "." line ;;
      let desc := strip tail in
      qty <- match search qty_re desc with
             | Some qty_match => group_float 1 qty_match
             | None => Some 1%Q
             end ;;
      Some (Item (Val (strip (sub_empty qty_re desc))) (Val qty) Null)
  end.

(** [current_item['description'] += " " + text] *)
Definition append_description (it : line_item) (text : string)
  : raising line_item :=
  match description it with
  | Val d => Some (Item (Val (d ++ " " ++ text)%string)
                        (quantity it) (unit_price it))
  | _ => None
  end.

(** One iteration of the line-item loop; [last] is
    [i == len(lines) - 1]. *)
Definition item_step (raw_line : string) (last : bool) (st : item_state)
  : raising item_state :=
  let line := strip raw_line in
  if is_some (match_ item_start_re line) then
    let closed :=
      if item_truthy (current_item st)
      then line_items st ++ [current_item st] else line_items st in
    it <- open_item line ;;
    Some (ItemState closed it (net_prices st) (collecting_prices st))
  else if item_truthy (current_item st)
          && negb (is_some (search dec_re line))
          && negb (existsb (fun kw => contains kw (lower line))
                           continuation_stop_keywords)
  then
    it <- append_description (current_item st) (strip line) ;;
    Some (ItemState (line_items st) it (net_prices st)
                    (collecting_prices st))
  else if contains "net price" (lower line)
  then Some (ItemState (line_items st) (current_item st) (net_prices st) true)
  else if collecting_prices st && is_some (match_ price_line_re line)
  then
    q <- py_float (replace_char "," "." line) ;;
    Some (ItemState (line_items st) (current_item st) (net_prices st ++ [q])
                    (collecting_prices st))
  else if item_truthy (current_item st)
          && (contains "summary" (lower line) || last)
  then Some (ItemState (line_items st ++ [current_item st]) empty_item
                       (net_prices st) (collecting_prices st))
  else Some st.

(** The second loop, [for i, line in enumerate(lines)]. *)
Fixpoint item_loop (lines : list string) (st : item_state)
  : raising item_state :=
  match lines with
  | [] => Some st
  | line :: following =>
      st' <- item_step line (match following with [] => true | _ => false end)
                       st ;;
      item_loop following st'
  end.

(** [item['unit_price'] = net_prices[idx]] for every [idx] within the
    price list. *)
Fixpoint backfill (items : list line_item) (prices : list Q)
  : list line_item :=
  match items, prices with
  | it :: items', p :: prices' =>
      Item (description it) (quantity it) (Val p) :: backfill items' prices'
  | _, _ => items
  end.

(** The body of the [try] block of [extract_invoice_data]. *)
Definition extract_body (text : string) : raising dict :=
  let lines := splitlines text in
  invoice <- field_loop lines [] ;;
  let invoice := dict_set "line_items" (VItems []) invoice in
  st <- item_loop lines (ItemState [] empty_item [] false) ;;
  let items :=
    if item_truthy (current_item st)
    then line_items st ++ [current_item st] else line_items st in
  Some (dict_set "line_items" (VItems (backfill items (net_prices st)))
                 invoice).

(** [extract_invoice_data(text)]: an exception in the body gives [{}]. *)
Definition extract_invoice_data (text : string) : dict :=
  match extract_body text with
  | Some invoice => invoice
  | None => []
  end.

(** Where a binding of the record can come from after the field loop
    over [lines]: [invoice_number] is group 0 of the search for digits in
    the combined text of a line that names it; [total_amount] is the
    float of group 1 of the search for an amount in a line that names a
    total or in one of the three lines after it; the other keys are not
    described. *)
Inductive written (lines : list string) : string -> value -> Prop :=
| written_number (before : list string) (line : string)
    (following : list string) (m : mobj) :
    lines = before ++ line :: following ->
    contains "invoice no" (lower (strip line))
    || contains "invoice number" (lower (strip line)) = true ->
    search digits_re (line ++ " " ++ get_next_nonempty following) = Some m ->
    written lines "invoice_number" (group_value 0 m)
| written_total (before : list string) (line : string)
    (following : list string) (s : string) (m : mobj) (q : Q) :
    lines = before ++ line :: following ->
    contains "total amount" (lower (strip line))
    || contains "total" (lower (strip line)) = true ->
    In s (line :: firstn 3 following) ->
    search total_re s = Some m ->
    group_float 1 m = Some q ->
    written lines "total_amount" (VNum q)
| written_other (k : string) (v : value) :
    k <> "invoice_number" -> k <> "total_amount" -> written lines k v.

(** What the closure [get_next_nonempty] finds in [following]: the
    first line that is not blank, stripped, and the empty string when
    every line is blank. *)
Inductive next_is : list string -> string -> Prop :=
| next_is_none (blanks : list string) :
    Forall (fun l => strip l = EmptyString) blanks ->
    next_is blanks EmptyString
| next_is_line (blanks : list string) (l : string) (rest : list string) :
    Forall (fun l => strip l = EmptyString) blanks ->
    strip l <> EmptyString ->
    next_is (blanks ++ l :: rest) (strip l).

(** A text without any digit. *)
Definition digit_free (s : string) : bool :=
  forallb_str (fun c => negb (is_digit c)) s.

(** The fraction the amount pattern takes after its digits: a point or
    a comma and two digits when [tail] starts with them, nothing
    otherwise. *)
Definition fraction_at (tail : string) : string :=
  match tail with
  | String c (String d1 (String d2 _)) =>
      if sep_dec c && is_digit d1 && is_digit d2
      then String c (String d1 (String d2 EmptyString))
      else EmptyString
  | _ => EmptyString
  end.

(** The keywords that the branches before the one of the total look
    for in [line_clean], and those that the branch of the invoice date
    looks for in the lowered combined text. *)
Definition keywords_before_total : list string :=
  ["invoice no"; "invoice number"; "supplier"; "seller"; "service period";
   "due date"; "tax id"; "bank account"; "iban"].

Definition date_keywords : list string :=
  ["invoice date"; "date of issue"; "issue date"; "date:"].

(** What [current_item] is throughout the line-item loop: the empty
    dict, or an item with a description. *)
Definition described (it : line_item) : Prop :=
  it = empty_item \/ exists d q p, it = Item (Val d) q p.

(** *** The regex fallback of the AI-assisted extractor *)

Definition dquote : ascii := "034"%char.
Definition newline : string := String "010"%char EmptyString.

(** The JSON key [name] with its quotes. *)
Definition quoted (name : string) : string :=
  String dquote (name ++ String dquote EmptyString).

(** [<q>key<q>\s*:\s*<q>([^<q>]+)<q>]; in the comments of these patterns
    [<q>] is the double quote and [N] is the number pattern [\d+\.?\d*]. *)
Definition string_field_re (key : string) : re :=
  seq [Lit (quoted key); star is_space; Lit ":"; star is_space;
       Cls (chr_is dquote); Grp 1 (plus not_quote); Cls (chr_is dquote)].

(** [\d+\.?\d*] *)
Definition number_re : re :=
  seq [plus is_digit; Opt (Cls (chr_is ".")); star is_digit].

(** [<q>total_amount<q>\s*:\s*(N)] *)
Definition total_field_re : re :=
  seq [Lit (quoted "total_amount"); star is_space; Lit ":"; star is_space;
       Grp 1 number_re].

(** [<q>description<q>\s*:\s*<q>([^<q>]{0,})<q>\s*,\s*<q>quantity<q>\s*:\s*(N)\s*,\s*<q>unit_price<q>\s*:\s*(N)] *)
Definition item_triple_re : re :=
  seq [Lit (quoted "description"); star is_space; Lit ":"; star is_space;
       Cls (chr_is dquote); Grp 1 (star not_quote); Cls (chr_is dquote);
       star is_space; Lit ","; star is_space;
       Lit (quoted "quantity"); star is_space; Lit ":"; star is_space;
       Grp 2 number_re;
       star is_space; Lit ","; star is_space;
       Lit (quoted "unit_price"); star is_space; Lit ":"; star is_space;
       Grp 3 number_re].

(** [```(?:json)?\s*([\s\S]*?)\s*```] *)
Definition fence_re : re :=
  seq [Lit "```"; Opt (Lit "json"); star is_space;
       Grp 1 (Rep any_char 0 None false); star is_space; Lit "```"].

(** One of the five [re.search] / assignment pairs on a quoted string
    field. *)
Definition regex_string_field (key : string) (json_str : string)
  (structured_json : dict) : dict :=
  match search (string_field_re key) json_str with
  | Some m => dict_set key (group_value 1 m) structured_json
  | None => structured_json
  end.

(** [float(m.group(n))] *)
Definition group_number (n : nat) (m : mobj) : raising Q :=
  s <- group n m ;; py_float s.

(** The loop over [re.finditer]: one item per triple. *)
Fixpoint regex_items (matches : list mobj) : raising (list line_item) :=
  match matches with
  | [] => Some []
  | m :: rest =>
      d <- group 1 m ;;
      qty <- group_number 2 m ;;
      price <- group_number 3 m ;;
      items <- regex_items rest ;;
      Some (Item (Val d) (Val qty) (Val price) :: items)
  end.

(** [_extract_with_regex(json_str)]; [None] is an exception leaving the
    method. *)
Definition _extract_with_regex (json_str : string) : raising dict :=
  let structured_json : dict := [] in
  let structured_json :=
    regex_string_field "invoice_number" json_str structured_json in
  let structured_json :=
    regex_string_field "invoice_date" json_str structured_json in
  let structured_json :=
    regex_string_field "supplier_name" json_str structured_json in
  let structured_json :=
    regex_string_field "tax_id" json_str structured_json in
  let structured_json :=
    regex_string_field "bank_account" json_str structured_json in
  structured_json <-
    match search total_field_re json_str with
    | Some m =>
        q <- group_number 1 m ;;
        Some (dict_set "total_amount" (VNum q) structured_json)
    | None => Some structured_json
    end ;;
  let structured_json := dict_set "line_items" (VItems []) structured_json in
  items <- regex_items (finditer item_triple_re json_str) ;;
  Some (dict_set "line_items" (VItems items) structured_json).

(** The keys [_extract_with_regex] looks up as quoted strings. *)
Definition string_keys : list string :=
  ["invoice_number"; "invoice_date"; "supplier_name"; "tax_id";
   "bank_account"].

(** A binding made of what the patterns locate in [json_str]: group 1
    of the first quoted string field of that name, the float of the
    first [total_amount] number, or the list of all the
    description / quantity / unit_price triples. *)
Inductive located (json_str : string) : string -> value -> Prop :=
| located_string (key : string) (m : mobj) :
    In key string_keys ->
    search (string_field_re key) json_str = Some m ->
    located json_str key (group_value 1 m)
| located_total (m : mobj) (q : Q) :
    search total_field_re json_str = Some m ->
    group_number 1 m = Some q ->
    located json_str "total_amount" (VNum q)
| located_items (items : list line_item) :
    regex_items (finditer item_triple_re json_str) = Some items ->
    located json_str "line_items" (VItems items).

(** *** Text acquisition and the AI-assisted extractor *)

Definition obind {A B} (m : outcome A) (k : A -> outcome B) : outcome B :=
  match m with
  | Ok a => k a
  | Raise e => Raise e
  end.

Local Notation "x <~ m ;; k" := (obind m (fun x => k))
  (at level 61, m at next level, right associativity).

(** The uploaded file: its name and its bytes ([getvalue()]). *)
Record upload : Type := Upload { name : string; getvalue : string }.

(** [structured_data]: the object [json.loads] built, or a record of
    the extractors. *)
Inductive data (json : Type) : Type :=
| Parsed (j : json)
| Extracted (d : dict).
Arguments Parsed {json} j.
Arguments Extracted {json} d.

(** What [json.loads] does with a text: it returns the object it built,
    raises [json.JSONDecodeError] on a text that is no JSON document, or
    raises another exception on one it gives up on ([ValueError] for an
    integer literal beyond the digit limit, [RecursionError] for
    brackets nested too deep); [e] is the text of that exception. *)
Inductive loaded (json : Type) : Type :=
| Loaded (j : json)
| JSONDecodeError
| OtherError (e : string).
Arguments Loaded {json} j.
Arguments JSONDecodeError {json}.
Arguments OtherError {json} e.

(** The result dict of the processing methods, one field per key the
    source ever sets; [None] is a key left out. *)
Record result (json : Type) : Type := Result {
  status : string;
  method : option string;
  message : option string;
  raw_text : option string;
  structured_data : option (data json);
  formatted_text : option string;
  ai_extracted_text : option string
}.
Arguments Result {json}.
Arguments status {json}.
Arguments method {json}.
Arguments message {json}.
Arguments raw_text {json}.
Arguments structured_data {json}.
Arguments formatted_text {json}.
Arguments ai_extracted_text {json}.

(** The libraries the processor calls. *)
Record library (image json : Type) : Type := Library {
  (* PIL: Image.open on the uploaded bytes *)
  image_open : string -> outcome image;
  (* pytesseract.image_to_string *)
  image_to_string : image -> outcome string;
  (* fitz.open and page.get_text() of every page *)
  pdf_page_texts : string -> outcome (list string);
  (* pdf2image.convert_from_bytes *)
  convert_from_bytes : string -> outcome (list image);
  (* whether the import of markitdown succeeded *)
  MARKITDOWN_AVAILABLE : bool;
  (* mkdtemp, writing the file there, MarkItDown().convert(...).text_content *)
  markitdown_convert : upload -> outcome string;
  (* shutil.rmtree(temp_dir) *)
  rmtree : outcome unit;
  (* st.session_state.get('deepseek_api_key', '') *)
  deepseek_api_key : string;
  (* the reply of the chat completion to the fixed prompt around a text *)
  chat_completion : string -> string -> outcome string;
  (* json.loads *)
  json_loads : string -> loaded json
}.
Arguments image_open {image json}.
Arguments image_to_string {image json}.
Arguments pdf_page_texts {image json}.
Arguments convert_from_bytes {image json}.
Arguments MARKITDOWN_AVAILABLE {image json}.
Arguments markitdown_convert {image json}.
Arguments rmtree {image json}.
Arguments deepseek_api_key {image json}.
Arguments chat_completion {image json}.
Arguments json_loads {image json}.

Section Processor.

Context {image json : Type}.
Variable lib : library image json.

Definition error_result (meth msg : string) : result json :=
  Result "error" (Some meth) (Some msg) None None None None.

Definition process_image_ocr (uploaded_file : upload) : result json :=
  let body :=
    image <~ image_open lib (getvalue uploaded_file) ;;
    extracted_text <~ image_to_string lib image ;;
    let invoice_data := extract_invoice_data extracted_text in
    Ok (Result "success" (Some "ocr") None (Some extracted_text)
               (Some (Extracted invoice_data)) (Some extracted_text) None) in
  match body with
  | Ok r => r
  | Raise e => error_result "ocr" ("Error processing image: " ++ e)
  end.

Definition process_pdf (uploaded_file : upload) : result json :=
  let body :=
    let file_bytes := getvalue uploaded_file in
    pages <~ pdf_page_texts lib file_bytes ;;
    let extracted_text := join newline pages in
    text_and_method <~
      (if is_empty (strip extracted_text) then
         images <~ convert_from_bytes lib file_bytes ;;
         match images with
         | first :: _ =>
             extracted_text <~ image_to_string lib first ;;
             Ok (extracted_text, "ocr")
         | [] => Raise "list index out of range"
         end
       else Ok (extracted_text, "text_extraction")) ;;
    let extracted_text := fst text_and_method in
    let invoice_data := extract_invoice_data extracted_text in
    Ok (Result "success" (Some (snd text_and_method)) None
               (Some extracted_text) (Some (Extracted invoice_data))
               (Some extracted_text) None) in
  match body with
  | Ok r => r
  | Raise e => error_result "pdf_processing" ("Error processing PDF: " ++ e)
  end.

(** The answer of [_extract_with_ai]: the keys [data] and
    [raw_response]. *)
Record ai_answer : Type := AiAnswer {
  answer_data : data json;
  raw_response : string
}.

(** What [json.loads] is given: the inside of the first fenced block,
    or the whole reply. *)
Definition json_candidate (ai_response : string) : outcome string :=
  match search fence_re ai_response with
  | Some json_match =>
      match group 1 json_match with
      | Some g => Ok (strip g)
      | None => Raise "'NoneType' object has no attribute 'strip'"
      end
  | None => Ok (strip ai_response)
  end.

Definition _extract_with_ai (api_key text_content : string)
  : outcome ai_answer :=
  ai_response <~ chat_completion lib api_key text_content ;;
  json_str <~ json_candidate ai_response ;;
  match json_loads lib json_str with
  | Loaded structured_json =>
      Ok (AiAnswer (Parsed structured_json) ai_response)
  | JSONDecodeError =>
      (* except json.JSONDecodeError *)
      match _extract_with_regex json_str with
      | Some structured_json =>
          Ok (AiAnswer (Extracted structured_json) ai_response)
      | None => Raise "could not convert string to float"
      end
  | OtherError e => Raise e
  end.

Definition process_with_markitdown (uploaded_file : upload) : result json :=
  if negb (MARKITDOWN_AVAILABLE lib) then
    error_result "markitdown"
      "MarkItDown library is not installed. Please install it to use this feature."
  else
    let body :=
      markdown_content <~ markitdown_convert lib uploaded_file ;;
      let api_key := deepseek_api_key lib in
      if is_empty api_key then
        _ <~ rmtree lib ;;
        Ok (Result "warning" (Some "markitdown")
              (Some "DeepSeek API key not provided. Only markdown conversion is available.")
              (Some markdown_content) None None None)
      else
        structured_json <~ _extract_with_ai api_key markdown_content ;;
        _ <~ rmtree lib ;;
        Ok (Result "success" (Some "markitdown") None (Some markdown_content)
                   (Some (answer_data structured_json))
                   (Some markdown_content)
                   (Some (raw_response structured_json))) in
    match body with
    | Ok r => r
    | Raise e =>
        (* rmtree is tried again and its failure is passed over *)
        error_result "markitdown" ("Error processing with MarkItDown: " ++ e)
    end.

Definition image_extensions : list string :=
  ["png"; "jpg"; "jpeg"; "bmp"; "gif"; "tiff"].

(** [process_document(uploaded_file)]; [None] is no file. *)
Definition process_document (uploaded_file : option upload) : result json :=
  match uploaded_file with
  | None => Result "error" None (Some "No file uploaded") None None None None
  | Some f =>
      let file_extension := lower (after_last "." (name f)) in
      if existsb (String.eqb file_extension) image_extensions
      then process_image_ocr f
      else if String.eqb file_extension "pdf" then process_pdf f
      else process_with_markitdown f
  end.

End Processor.

(** The keys the heuristic extractor ever binds. *)
Definition extractor_keys : list string :=
  ["invoice_number"; "supplier_name"; "invoice_date"; "service_date";
   "due_date"; "tax_id"; "bank_account"; "total_amount"; "line_items"].

(** Its keys bound to strings, the invoice number apart. *)
Definition shaped_keys : list string :=
  ["supplier_name"; "invoice_date"; "service_date"; "due_date"; "tax_id";
   "bank_account"].

(** The keys the regex fallback ever binds. *)
Definition fallback_keys : list string :=
  string_keys ++ ["total_amount"; "line_items"].

(** A line that opens an item: [re.match(r'^\d+\.\s', line.strip())]. *)
Definition numbered (line : string) : bool :=
  is_some (match_ item_start_re (strip line)).

(** A line item as the line-item loop builds it: a description, a
    quantity below 1000 and no price yet. *)
Definition opened (it : line_item) : Prop :=
  exists d q, it = Item (Val d) (Val q) Null /\ 0 <= q /\ q < 1000.

(** What the line-item loop keeps true of its state: the closed items
    and the current one are opened items (or the current one is still the
    empty dict), and the collected net prices are below 1000. *)
Definition below_1000 (q : Q) : Prop := 0 <= q /\ q < 1000.

Definition loop_invariant (st : item_state) : Prop :=
  Forall opened (line_items st)
  /\ (current_item st = empty_item \/ opened (current_item st))
  /\ Forall below_1000 (net_prices st).

(** The items the loop has seen so far: the closed ones and the current
    one, if it is not the empty dict. *)
Definition item_count (st : item_state) : nat :=
  List.length (line_items st)
  + (if item_truthy (current_item st) then 1 else 0).

(** A line item of the returned record: as opened, its price [None] or a
    collected net price, below 1000. *)
Definition priced_or_not (it : line_item) : Prop :=
  exists d q,
    description it = Val d /\ quantity it = Val q /\ 0 <= q /\ q < 1000
    /\ (unit_price it = Null
        \/ exists p, unit_price it = Val p /\ 0 <= p /\ p < 1000).

(** The values the field loop binds to its string keys: the next line
    that is not blank, stripped, for the supplier; a whole match of the
    date pattern for the three dates; digits and hyphens for the tax id;
    a whole match of the IBAN pattern, 14 to 34 characters, for the bank
    account. *)
Inductive field_shape : string -> value -> Prop :=
| shape_supplier (s : string) :
    s = EmptyString \/ (exists l, s = strip l /\ s <> EmptyString) ->
    field_shape "supplier_name" (VStr s)
| shape_date (k s : string) :
    In k ["invoice_date"; "service_date"; "due_date"] ->
    parses date_re s [(1%nat, s)] ->
    field_shape k (VStr s)
| shape_tax (s : string) :
    s <> EmptyString -> forallb_str digit_or_hyphen s = true ->
    field_shape "tax_id" (VStr s)
| shape_bank (s : string) :
    parses iban_re s [] ->
    (14 <= String.length s <= 34)%nat ->
    field_shape "bank_account" (VStr s).

(** Any character but the backtick. *)
Definition no_backtick (c : ascii) : bool := negb (code c =? 96)%nat.

(** A line item of the regex fallback: the three keys bound, the
    description free of double quotes, the numbers not negative. *)
Definition full_item (it : line_item) : Prop :=
  exists d q p,
    it = Item (Val d) (Val q) (Val p)
    /\ forallb_str not_quote d = true /\ 0 <= q /\ 0 <= p.

(** The values the regex fallback binds to its keys. *)
Inductive fallback_shape : string -> value -> Prop :=
| fallback_string (k s : string) :
    In k string_keys ->
    s <> EmptyString -> forallb_str not_quote s = true ->
    fallback_shape k (VStr s)
| fallback_total (q : Q) :
    0 <= q -> fallback_shape "total_amount" (VNum q)
| fallback_items (items : list line_item) :
    Forall full_item items -> fallback_shape "line_items" (VItems items).

(** The three shapes of a result dict: an error with its message and
    nothing extracted; the warning of the conversion path, with the
    converted text only; a success with method, text and structured
    data. *)
Definition result_shape {json : Type} (r : result json) : Prop :=
  (status r = "error" /\ message r <> None /\ raw_text r = None
   /\ structured_data r = None /\ formatted_text r = None
   /\ ai_extracted_text r = None)
  \/ (status r = "warning" /\ method r = Some "markitdown"
      /\ message r <> None /\ raw_text r <> None
      /\ structured_data r = None /\ formatted_text r = None
      /\ ai_extracted_text r = None)
  \/ (status r = "success" /\ method r <> None /\ message r = None
      /\ raw_text r <> None /\ formatted_text r = raw_text r
      /\ structured_data r <> None).

End DocumentProcessor.

(* ================================================================== *)
(** ** processors/invoice_analyzer.py *)
(* ================================================================== *)

Module InvoiceAnalyzer.
Import PyStr Re Py.

(** [datetime.date] *)
Record date : Type := Date { year : Z; month : Z; day : Z }.

(** [d1 <= d2] on dates. *)
Definition date_leb (d1 d2 : date) : bool :=
  ((year d1 <? year d2)
   || ((year d1 =? year d2)
       && ((month d1 <? month d2)
           || ((month d1 =? month d2) && (day d1 <=? day d2)))))%Z.

Definition is_leap (y : Z) : bool :=
  ((y mod 4 =? 0) && (negb (y mod 100 =? 0) || (y mod 400 =? 0)))%Z.

Definition days_in_month (y m : Z) : Z :=
  (if m =? 2 then (if is_leap y then 29 else 28)
   else if (m =? 4) || (m =? 6) || (m =? 9) || (m =? 11) then 30
   else 31)%Z.

Definition range_class (lo hi : nat) (c : ascii) : bool :=
  (lo <=? code c)%nat && (code c <=? hi)%nat.

(** The pattern [_strptime] compiles for ["%m/%d/%Y"]:
    [(?P<m>1[0-2]|0[1-9]|[1-9])/(?P<d>3[01]|[12]\d|0[1-9]|[1-9]| [1-9])/(?P<Y>\d\d\d\d)],
    the groups numbered 1, 2 and 3. *)
Definition mdY_re : re :=
  seq [Grp 1 (Alt (Seq (Lit "1") (Cls (range_class 48 50)))
             (Alt (Seq (Lit "0") (Cls (range_class 49 57)))
                  (Cls (range_class 49 57))));
       Lit "/";
       Grp 2 (Alt (Seq (Lit "3") (Cls (range_class 48 49)))
             (Alt (Seq (Cls (range_class 49 50)) (Cls is_digit))
             (Alt (Seq (Lit "0") (Cls (range_class 49 57)))
             (Alt (Cls (range_class 49 57))
                  (Seq (Lit " ") (Cls (range_class 49 57)))))));
       Lit "/";
       Grp 3 (exactly is_digit 4)].

(** [int(s)] on a group of [mdY_re] (digits, or a space and a digit). *)
Definition group_int (n : nat) (m : mobj) : option Z :=
  match group n m with
  | Some s => Some (digits_val 0 (lstrip s))
  | None => None
  end.

(** [datetime.strptime(s, "%m/%d/%Y").date()]; [None] is [ValueError]:
    no match, unconverted data left, or no such day in the calendar. *)
Definition strptime_mdY (s : string) : option date :=
  match match_ mdY_re s with
  | Some m =>
      if negb (is_empty (rest m)) then None
      else
        match group_int 3 m, group_int 1 m, group_int 2 m with
        | Some y, Some mo, Some d =>
            if ((1 <=? y) && (d <=? days_in_month y mo))%Z
            then Some (Date y mo d) else None
        | _, _, _ => None
        end
  | None => None
  end.

(** What the analyzer asks of libraries, in call order. *)
Inductive event : Type :=
| Strptime (v : value)                 (* datetime.strptime(v, "%m/%d/%Y") *)
| Fit (rows : list (Q * Q)).           (* IsolationForest.fit *)

(** The objects the method works on: the caller's invoice dict, mutated
    in place, the local list [issues], and the library calls so far. *)
Record store : Type := Store {
  invoice : dict;
  issues : list string;
  trace : list event
}.

(** The dict the analyzer returns; [a_invoice] is the key [invoice],
    bound to the caller's dict as it is on return. *)
Record analysis : Type := Analysis {
  a_status : string;
  a_message : string;
  a_invoice : option dict
}.

(** A step that reads and writes the store and may raise. *)
Definition step (A : Type) : Type := store -> outcome A * store.

Definition ret {A} (a : A) : step A := fun st => (Ok a, st).
Definition raise {A} (e : string) : step A := fun st => (Raise e, st).
Definition bind {A B} (m : step A) (k : A -> step B) : step B :=
  fun st =>
    match m st with
    | (Ok a, st') => k a st'
    | (Raise e, st') => (Raise e, st')
    end.

Local Notation "x <- m ;; k" := (bind m (fun x => k))
  (at level 61, m at next level, right associativity).
Local Notation "m ;;; k" := (bind m (fun _ => k))
  (at level 61, right associativity).

Definition get_invoice : step dict := fun st => (Ok (invoice st), st).
Definition get_issues : step (list string) := fun st => (Ok (issues st), st).

(** [issues.append(w)] *)
Definition append_issue (w : string) : step unit :=
  fun st => (Ok tt, Store (invoice st) (issues st ++ [w]) (trace st)).

(** [invoice[k] = v] *)
Definition set_invoice (k : string) (v : value) : step unit :=
  fun st => (Ok tt, Store (dict_set k v (invoice st)) (issues st) (trace st)).

Definition log (e : event) : step unit :=
  fun st => (Ok tt, Store (invoice st) (issues st) (trace st ++ [e])).

(** A step only ever adds to the record of library calls. *)
Definition grows {A} (m : step A) : Prop :=
  forall st o st', m st = (o, st') -> exists t, trace st' = trace st ++ t.

Definition required_fields : list string :=
  ["invoice_number"; "supplier_name"; "invoice_date"; "tax_id";
   "bank_account"; "total_amount"].

(** [[field for field in required_fields if field not in invoice]] *)
Definition missing_fields (inv : dict) : list string :=
  filter (fun field => negb (dict_has field inv)) required_fields.

Definition date_outside_warning : string :=
  "Invoice date is outside the contract period.".
Definition date_unparseable_warning : string :=
  "Unable to parse invoice date format.".
Definition anomaly_warning : string :=
  "Potential fraud/anomalies detected via machine learning model.".

(** A warning that is none of the two of the date block. *)
Definition date_free (w : string) : Prop :=
  w <> date_outside_warning /\ w <> date_unparseable_warning.

(** A step only ever appends warnings to [issues], none of them about
    the date. *)
Definition adds {A} (m : step A) : Prop :=
  forall st o st', m st = (o, st') ->
  exists added, issues st' = issues st ++ added /\ Forall date_free added.

(** [datetime.strptime(invoice['invoice_date'], "%m/%d/%Y")]: a value
    that is no string is a [TypeError]. *)
Definition parse_invoice_date (v : value) : option date :=
  match v with
  | VStr s => strptime_mdY s
  | _ => None
  end.

(** The [# Date validation] block. *)
Definition date_validation (contract_start contract_end : option date)
  : step unit :=
  inv <- get_invoice ;;
  match contract_start, contract_end, dict_get "invoice_date" inv with
  | Some cs, Some ce, Some v =>
      log (Strptime v) ;;;
      match parse_invoice_date v with
      | Some invoice_date_obj =>
          if negb (date_leb cs invoice_date_obj
                   && date_leb invoice_date_obj ce)
          then append_issue date_outside_warning
          else ret tt
      | None => append_issue date_unparseable_warning
      end
  | _, _, _ => ret tt
  end.

(** [a > b] on numbers. *)
Definition Qgtb (a b : Q) : bool := negb (Qle_bool a b).

Section Forest.

(** [sklearn.ensemble.IsolationForest(contamination=0.25,
    random_state=42)]: fitting a table of (unit_price, quantity) rows,
    then the score and the label of a row; and Python's formatting of a
    number inside an f-string. *)
Variable fitted : Type.
Variable fit : list (Q * Q) -> outcome fitted.
Variable decision_function : fitted -> Q * Q -> Q.
Variable predict : fitted -> Q * Q -> Z.
Variable format_number : Q -> string.

(** [item['unit_price'] > 100] guarded by the key and its truth value. *)
Definition high_price (item : line_item) : option Q :=
  match unit_price item with
  | Val p => if negb (Qeq_bool p 0) && Qgtb p 100 then Some p else None
  | _ => None
  end.

(** The loop [for item in invoice['line_items']] over line items. *)
Fixpoint price_loop (items : list line_item) : step unit :=
  match items with
  | [] => ret tt
  | item :: rest =>
      match high_price item with
      | Some p =>
          match description item with
          | Absent => raise "'description'"
          | Null =>
              append_issue ("High unit price detected: " ++ format_number p
                            ++ " for None") ;;;
              price_loop rest
          | Val d =>
              append_issue ("High unit price detected: " ++ format_number p
                            ++ " for " ++ d) ;;;
              price_loop rest
          end
      | None => price_loop rest
      end
  end.

(** The same loop over a list of strings: ['unit_price' in item] is a
    substring test, and indexing the string with a key raises. *)
Fixpoint price_loop_strings (items : list string) : step unit :=
  match items with
  | [] => ret tt
  | item :: rest =>
      if contains "unit_price" item
      then raise "string indices must be integers, not 'str'"
      else price_loop_strings rest
  end.

(** ['c' in df_items.columns]: some item has the key. *)
Definition has_column {A} (col : line_item -> field A)
  (items : list line_item) : bool :=
  existsb (fun it => negb (is_absent (col it))) items.

(** [df_items[['unit_price', 'quantity']].dropna()]: the rows with both
    cells filled. *)
Fixpoint numeric_rows (items : list line_item) : list (Q * Q) :=
  match items with
  | [] => []
  | it :: rest =>
      match unit_price it, quantity it with
      | Val p, Val q => (p, q) :: numeric_rows rest
      | _, _ => numeric_rows rest
      end
  end.

Definition nat_to_string (n : nat) : string :=
  DecimalString.NilEmpty.string_of_uint (Nat.to_uint n).

(** [df_items[col] = values]: an array is assigned by position and must
    be as long as the frame. *)
Definition assign_column {A} (items : list line_item) (values : list A)
  : step unit :=
  if (List.length values =? List.length items)%nat then ret tt
  else raise ("Length of values (" ++ nat_to_string (List.length values)
              ++ ") does not match length of index ("
              ++ nat_to_string (List.length items) ++ ")").

(** What a line item holds under [description]; [None] is no such
    key. *)
Definition held_description (it : line_item) : option cell :=
  match description it with
  | Absent => None
  | Null => Some NoneCell
  | Val s => Some (Text s)
  end.

Definition is_text (c : cell) : bool :=
  match c with Text _ => true | _ => false end.

Definition is_nan (c : cell) : bool :=
  match c with NaN => true | _ => false end.

Definition fill_cell (held : option cell) : cell :=
  match held with
  | None => NaN
  | Some c => c
  end.

(** The [description] column of [pd.DataFrame(dicts)], row by row, from
    what each dict holds under the key: no column ([None] in every row)
    when no dict has the key; otherwise a missing key is filled with
    [nan], and a column without any text in which some cell is [nan] is
    a column of floats, where [None] is [nan] as well. *)
Definition description_column (held : list (option cell))
  : list (option cell) :=
  if forallb (fun h => match h with None => true | Some _ => false end) held
  then map (fun _ => None) held
  else
    let filled := map fill_cell held in
    if existsb is_text filled || negb (existsb is_nan filled)
    then map Some filled
    else map (fun _ => Some NaN) filled.

(** [df_items[df_items['is_anomaly'] == -1].to_dict(orient='records')],
    on the columns of the frame: the [description] cells, the rows of
    numbers (all rows, once the two columns were assigned), the scores
    and the labels. *)
Fixpoint anomalous_rows (cells : list (option cell))
  (df_numeric : list (Q * Q)) (scores : list Q) (labels : list Z)
  : list scored_item :=
  match cells, df_numeric, scores, labels with
  | c :: cells', (p, q) :: rows', s :: scores', l :: labels' =>
      if (l =? -1)%Z
      then Scored c q p s l :: anomalous_rows cells' rows' scores' labels'
      else anomalous_rows cells' rows' scores' labels'
  | _, _, _, _ => []
  end.

(** The [# Anomaly detection with machine learning] block, on the frame
    of the dicts [items] that hold [held] under [description]. *)
Definition anomaly_detection_on (held : list (option cell))
  (items : list line_item) : step unit :=
  if has_column unit_price items && has_column quantity items then
    let df_numeric := numeric_rows items in
    match df_numeric with
    | [] => ret tt
    | _ :: _ =>
        log (Fit df_numeric) ;;;
        match fit df_numeric with
        | Raise e => raise e
        | Ok model =>
            let scores := map (decision_function model) df_numeric in
            assign_column items scores ;;;
            let labels := map (predict model) df_numeric in
            assign_column items labels ;;;
            match anomalous_rows (description_column held) df_numeric
                    scores labels with
            | [] => ret tt
            | anomalies =>
                set_invoice "anomalous_items" (VScored anomalies) ;;;
                append_issue anomaly_warning
            end
        end
    end
  else ret tt.

Definition anomaly_detection (items : list line_item) : step unit :=
  anomaly_detection_on (map held_description items) items.

(** The [# Line item analysis] block, by the kind of object bound to
    [line_items]. *)
Definition line_item_analysis : step unit :=
  inv <- get_invoice ;;
  match dict_get "line_items" inv with
  | Some v =>
      if truthy v then
        match v with
        | VItems items => price_loop items ;;; anomaly_detection items
        | VScored rows =>
            price_loop (map row_item rows) ;;;
            anomaly_detection_on (map row_description rows)
              (map row_item rows)
        | VStrs items => price_loop_strings items
        | VStr _ => raise "DataFrame constructor not properly called!"
        | _ => raise "object is not iterable"
        end
      else ret tt
  | None => ret tt
  end.

(** What follows the missing-field check. *)
Definition analysis_proper (contract_start contract_end : option date)
  : step analysis :=
  date_validation contract_start contract_end ;;;
  line_item_analysis ;;;
  found <- get_issues ;;
  match found with
  | _ :: _ =>
      set_invoice "warnings" (VStrs found) ;;;
      inv <- get_invoice ;;
      ret (Analysis "warning" "Analysis completed with warnings" (Some inv))
  | [] =>
      inv <- get_invoice ;;
      ret (Analysis "success" "No issues detected" (Some inv))
  end.

Definition analyze_steps (contract_start contract_end : option date)
  : step analysis :=
  inv <- get_invoice ;;
  match inv with
  | [] => ret (Analysis "error" "Invalid invoice data" None)
  | _ :: _ =>
      match missing_fields inv with
      | (_ :: _) as missing =>
          ret (Analysis "warning"
                 ("Missing required fields: " ++ join ", " missing)
                 (Some inv))
      | [] => analysis_proper contract_start contract_end
      end
  end.

(** [analyze_invoice_for_fraud(invoice, contract_start, contract_end)]:
    what the call returns or raises, and the store it leaves. *)
Definition analyze_invoice_for_fraud (inv : dict)
  (contract_start contract_end : option date) : outcome analysis * store :=
  analyze_steps contract_start contract_end (Store inv [] []).

End Forest.

(** [item[key] > bound] on a row: a missing key is a [KeyError], [None]
    a [TypeError]. *)
Definition number_above (key : string) (f : field Q) (bound : Q)
  : outcome bool :=
  match f with
  | Absent => Raise ("'" ++ key ++ "'")
  | Null =>
      Raise "'>' not supported between instances of 'NoneType' and 'int'"
  | Val q => Ok (Qgtb q bound)
  end.

(** [generate_anomaly_explanation(item)] *)
Definition generate_anomaly_explanation (item : line_item) : outcome string :=
  match number_above "unit_price" (unit_price item) 100 with
  | Raise e => Raise e
  | Ok true =>
      Ok "This item has a high unit price which may be unusual for this type of product."
  | Ok false =>
      match number_above "quantity" (quantity item) 10 with
      | Raise e => Raise e
      | Ok true =>
          Ok "High quantity detected, might be bulk order or mis-entry."
      | Ok false =>
          Ok "Anomaly detection based on unit price and quantity patterns."
      end
  end.

(** A line item with both numbers: a row [dropna()] keeps. *)
Definition complete (it : line_item) : bool :=
  match unit_price it, quantity it with
  | Val _, Val _ => true
  | _, _ => false
  end.

(** The warning of the price loop for one item, when it has one to
    give. *)
Definition high_price_warning (format_number : Q -> string)
  (item : line_item) : option string :=
  match high_price item, description item with
  | Some p, Val d =>
      Some ("High unit price detected: " ++ format_number p ++ " for "
            ++ d)%string
  | Some p, Null =>
      Some ("High unit price detected: " ++ format_number p
            ++ " for None")%string
  | _, _ => None
  end.

Fixpoint high_price_warnings (format_number : Q -> string)
  (items : list line_item) : list string :=
  match items with
  | [] => []
  | item :: rest =>
      match high_price_warning format_number item with
      | Some w => w :: high_price_warnings format_number rest
      | None => high_price_warnings format_number rest
      end
  end.

Definition is_fit (e : event) : Prop :=
  match e with
  | Fit _ => True
  | Strptime _ => False
  end.

(** What a step of the line-item block may do to the store: append
    warnings that are not about the date, record fits of the forest, and
    touch the invoice only when it appends a warning, and then only its
    key [anomalous_items]. *)
Definition framed {A} (m : step A) : Prop :=
  forall st o st', m st = (o, st') ->
  exists added t,
    issues st' = issues st ++ added
    /\ Forall date_free added
    /\ trace st' = trace st ++ t
    /\ Forall is_fit t
    /\ (added = [] -> invoice st' = invoice st)
    /\ (forall k, k <> "anomalous_items" ->
                  dict_get k (invoice st') = dict_get k (invoice st)).

(** The last two returns of the method, on the store the blocks left:
    [invoice['warnings'] = issues] when there are issues. *)
Definition conclude (st : store) : outcome analysis * store :=
  match issues st with
  | [] =>
      (Ok (Analysis "success" "No issues detected" (Some (invoice st))), st)
  | _ :: _ =>
      (Ok (Analysis "warning" "Analysis completed with warnings"
             (Some (dict_set "warnings" (VStrs (issues st)) (invoice st)))),
       Store (dict_set "warnings" (VStrs (issues st)) (invoice st))
             (issues st) (trace st))
  end.

(** A character of a date written as ["%m/%d/%Y"]: a digit, the
    slash, or the space that [strptime] lets pad a day. *)
Definition mdY_char (c : ascii) : bool :=
  is_digit c || (code c =? 47)%nat || (code c =? 32)%nat.

(** The row [dropna()] keeps of a line item with both numbers. *)
Definition numeric_row (it : line_item) : option (Q * Q) :=
  match unit_price it, quantity it with
  | Val p, Val q => Some (p, q)
  | _, _ => None
  end.

(** What a row holds under [description], by the line item [it] it
    was made of, in a frame of the items [all]: the text of the item
    when it has one; [nan] when the item lacks the key that another
    item has, and no such key when no item has it; [None] or [nan] for
    an item whose description is [None]. *)
Definition in_column (all : list line_item) (c : option cell)
  (it : line_item) : Prop :=
  (forall s, description it = Val s -> c = Some (Text s))
  /\ (description it = Absent ->
      if has_column description all then c = Some NaN else c = None)
  /\ (description it = Null -> c = Some NoneCell \/ c = Some NaN).

(** A row of [anomalous_items] as the analyzer writes it for [model]:
    the two numbers of a line item of the invoice, its score, the label
    -1, and the cell of the item in the [description] column. *)
Definition flagged_row {fitted : Type}
  (decision_function : fitted -> Q * Q -> Q)
  (predict : fitted -> Q * Q -> Z)
  (model : fitted) (items : list line_item) (row : scored_item) : Prop :=
  exists it,
    In it items
    /\ numeric_row it = Some (row_unit_price row, row_quantity row)
    /\ anomaly_score row
       = decision_function model (row_unit_price row, row_quantity row)
    /\ predict model (row_unit_price row, row_quantity row) = (-1)%Z
    /\ is_anomaly row = (-1)%Z
    /\ in_column items (row_description row) it.

End InvoiceAnalyzer.

(* ================================================================== *)
(** ** ui/fraud_detector_ui.py: the checks made before the analysis *)
(* ================================================================== *)

Module FraudDetectorUI.
Import PyStr Py InvoiceAnalyzer.

(** [field not in invoice_data or not invoice_data[field]] *)
Definition missing_or_falsy (invoice_data : dict) (field : string) : bool :=
  match dict_get field invoice_data with
  | Some v => negb (truthy v)
  | None => true
  end.

(** The list [missing_fields] that [show] builds over the six required
    fields; a warning is displayed when it is not empty. *)
Definition missing_fields (invoice_data : dict) : list string :=
  filter (missing_or_falsy invoice_data) required_fields.

End FraudDetectorUI.

(* ================================================================== *)
(** ** Sample documents and invoices *)
(* ================================================================== *)

Module Inputs.
Import PyStr Py DocumentProcessor InvoiceAnalyzer.

(** An invoice with the six required fields, after the example of the
    extraction prompt. *)
Definition six_fields (invoice_date : string) : dict :=
  [("invoice_number", VStr "61356291");
   ("supplier_name", VStr "Chapman, Kim and Green");
   ("invoice_date", VStr invoice_date);
   ("tax_id", VStr "949-84-9105");
   ("bank_account", VStr "GB50ACIE59715038217063");
   ("total_amount", VNum 9)].

(** Three line items as the heuristic extractor leaves them when it
    collected two net prices only: the third [unit_price] is [None]. *)
Definition unmatched_items : list line_item :=
  [Item (Val "Wine rack") (Val 4) (Val 12);
   Item (Val "Wine glasses") (Val 1) (Val (Qmake 2808 100));
   Item (Val "Corkscrew") (Val 2) Null].

Definition invoice_with_unmatched_price (invoice_date : string) : dict :=
  six_fields invoice_date ++ [("line_items", VItems unmatched_items)].

(** The text of an invoice that lists three items and two net prices. *)
Definition sample_invoice_text : string :=
  join newline
    ["Invoice no: 61356291"; "Date of issue: 09/06/2012"; "Seller:";
     "Chapman, Kim and Green"; "Tax Id: 949-84-9105";
     "IBAN: GB50ACIE59715038217063"; "ITEMS"; "1. Wine rack 4,00";
     "2. Wine glasses 1,00"; "3. Corkscrew 2,00"; "Net price"; "12,00";
     "28,08"; "SUMMARY"; "Total 9,00"].

(** The text of an invoice that lists an item and no net price. *)
Definition unpriced_invoice_text : string :=
  join newline
    ["Invoice no: 61356291"; "Date of issue: 09/06/2012"; "Seller:";
     "Chapman, Kim and Green"; "Tax Id: 949-84-9105";
     "IBAN: GB50ACIE59715038217063"; "ITEMS"; "1. Wine rack 4,00";
     "SUMMARY"; "Total 9,00"].

(** Its line items as the extractor reads them. *)
Definition sample_invoice_items : list line_item :=
  [Item (Val "Wine rack") (Val (Qmake 400 100)) (Val (Qmake 1200 100));
   Item (Val "Wine glasses") (Val (Qmake 100 100)) (Val (Qmake 2808 100));
   Item (Val "Corkscrew") (Val (Qmake 200 100)) Null].

Definition contract_start_2023 : date := Date 2023 1 1.
Definition contract_end_2023 : date := Date 2023 12 31.

(** All six required keys, every one bound to a false value. *)
Definition falsy_fields : dict :=
  [("invoice_number", VStr EmptyString); ("supplier_name", VStr EmptyString);
   ("invoice_date", VStr EmptyString); ("tax_id", VNone);
   ("bank_account", VNone); ("total_amount", VNum 0)].

(** A stand-in forest: fitting always succeeds, a row is an outlier
    when its price is above 100. *)
Definition fit_any (rows : list (Q * Q)) : outcome unit := Ok tt.
Definition score_zero (model : unit) (row : Q * Q) : Q := 0.
Definition label_by_price (model : unit) (row : Q * Q) : Z :=
  if Qgtb (fst row) 100 then (-1)%Z else 1%Z.
Definition format_plain (q : Q) : string := "<number>".

(** Two line items with both numbers, the second priced above 100, and
    an invoice that lists them. *)
Definition priced_items : list line_item :=
  [Item (Val "Wine rack") (Val 4) (Val 12);
   Item (Val "Oak barrel") (Val 1) (Val 250)].

Definition invoice_with_priced_items : dict :=
  six_fields "09/06/2012" ++ [("line_items", VItems priced_items)].

(** Another stand-in forest: a row is an outlier when its quantity is
    above 10.  And two line items with both numbers, the second a bulk
    order whose dict has no [description] key. *)
Definition label_by_quantity (model : unit) (row : Q * Q) : Z :=
  if Qgtb (snd row) 10 then (-1)%Z else 1%Z.

Definition bulk_items : list line_item :=
  [Item (Val "Wine rack") (Val 4) (Val 12); Item Absent (Val 40) (Val 12)].

Definition invoice_with_bulk_item : dict :=
  six_fields "09/06/2012" ++ [("line_items", VItems bulk_items)].

(** An item priced above 100 whose dict has no [description] key. *)
Definition nameless_items : list line_item :=
  [Item (Val "Wine rack") (Val 4) (Val 12); Item Absent (Val 1) (Val 250)].

Definition invoice_with_nameless_item : dict :=
  six_fields "09/06/2012" ++ [("line_items", VItems nameless_items)].

(** A reply that is almost JSON (a comma is left after the last item):
    [json.loads] rejects it, the patterns of the fallback read it. *)
Definition broken_json_reply : string :=
  "{" ++ quoted "invoice_number" ++ ": " ++ quoted "61356291" ++ ", "
  ++ quoted "invoice_date" ++ ": " ++ quoted "09/06/2012" ++ ", "
  ++ quoted "supplier_name" ++ ": " ++ quoted "Chapman, Kim and Green"
  ++ ", " ++ quoted "tax_id" ++ ": " ++ quoted "949-84-9105" ++ ", "
  ++ quoted "bank_account" ++ ": " ++ quoted "GB50ACIE59715038217063"
  ++ ", " ++ quoted "total_amount" ++ ": 9, "
  ++ quoted "line_items" ++ ": [{" ++ quoted "description" ++ ": "
  ++ quoted "Wine rack" ++ ", " ++ quoted "quantity" ++ ": 4, "
  ++ quoted "unit_price" ++ ": 12}, {" ++ quoted "description" ++ ": "
  ++ quoted "Wine glasses" ++ ", " ++ quoted "quantity" ++ ": 1, "
  ++ quoted "unit_price" ++ ": 28.08},]}".

(** Libraries for the processor: images and parsed JSON are [unit], OCR
    reads ["scanned text"], MarkItDown gives ["converted"], the chat
    model replies with prose, [json.loads] rejects everything; the PDF
    reader gives [pages], or fails on an empty file. *)
Definition library_with_pages (pages : list string) : library unit unit :=
  Library unit unit
    (fun _ => Ok tt)
    (fun _ => Ok "scanned text")
    (fun bytes => if is_empty bytes
                  then Raise "cannot open empty document"
                  else Ok pages)
    (fun _ => Ok [tt])
    true
    (fun _ => Ok "converted")
    (Ok tt)
    "sk-key"
    (fun _ _ => Ok "I could not find an invoice.")
    (fun _ => JSONDecodeError).

(** A reply with the JSON in a fenced block, and libraries whose chat
    model gives [reply] and whose [json.loads] reads the empty object
    only. *)
Definition fenced_reply : string :=
  "Here is the invoice:" ++ newline ++ "```json" ++ newline ++ "{}"
  ++ newline ++ "```".

Definition library_with_reply (reply : string) : library unit unit :=
  Library unit unit
    (fun _ => Ok tt)
    (fun _ => Ok "scanned text")
    (fun _ => Ok [])
    (fun _ => Ok [tt])
    true
    (fun _ => Ok "converted")
    (Ok tt)
    "sk-key"
    (fun _ _ => Ok reply)
    (fun s => if String.eqb s "{}" then Loaded tt else JSONDecodeError).




(** A text whose invoice number stands two lines below its label, and
    one whose total does. *)
Definition lookahead_number_text : string :=
  join newline
    ["ACME Ltd"; "Invoice number:"; EmptyString; "  INV-2024-0099  ";
     "Thanks"].

Definition lookahead_total_text : string :=
  join newline ["Summary"; "Total:"; EmptyString; "$1234.56"; "Thanks"].

(** A PDF of two pages without a text layer: the page texts joined by a
    newline are ["\n"], not empty. *)
Definition blank_pages : list string := [EmptyString; EmptyString].

End Inputs.

(* ================================================================== *)
(** ** Facts about strings and patterns *)
(* ================================================================== *)

Module StrFacts.
Import PyStr Re.

Lemma append_nil_r (s : string) : (s ++ EmptyString)%string = s.
Proof. induction s; simpl; congruence. Qed.

Lemma append_assoc (a b c : string) :
  ((a ++ b) ++ c)%string = (a ++ b ++ c)%string.
Proof. induction a; simpl; congruence. Qed.

Lemma length_append (a b : string) :
  String.length (a ++ b) = (String.length a + String.length b)%nat.
Proof. induction a; simpl; congruence. Qed.

Lemma prefix_drop (l s : string) :
  prefix l s = true -> s = (l ++ drop (String.length l) s)%string.
Proof.
  revert s. induction l as [|c l IH]; intros s H.
  - now destruct s.
  - destruct s as [|c' s]; simpl in H; [discriminate|].
    destruct (ascii_dec c c') as [->|]; [|discriminate].
    simpl. f_equal. now apply IH.
Qed.

Lemma forallb_str_append (p : ascii -> bool) (a b : string) :
  forallb_str p (a ++ b) = forallb_str p a && forallb_str p b.
Proof.
  induction a as [|c a IH]; simpl; [reflexivity|].
  now rewrite IH, andb_assoc.
Qed.

Lemma is_empty_true (s : string) : is_empty s = true <-> s = EmptyString.
Proof. destruct s; simpl; split; intros H; congruence. Qed.

Lemma take_drop_while (p : ascii -> bool) (s : string) :
  s = (take_while p s ++ drop_while p s)%string.
Proof.
  induction s as [|c s IH]; simpl; [reflexivity|].
  destruct (p c); simpl; congruence.
Qed.

Lemma take_while_all (p : ascii -> bool) (s : string) :
  forallb_str p (take_while p s) = true.
Proof.
  induction s as [|c s IH]; simpl; [reflexivity|].
  destruct (p c) eqn:E; simpl; [now rewrite E | reflexivity].
Qed.

Lemma rev_onto_append (s acc : string) :
  rev_onto s acc = (rev s ++ acc)%string.
Proof.
  revert acc. induction s as [|c s IH]; intros acc; [reflexivity|].
  unfold rev. simpl. rewrite (IH (String c acc)), (IH (String c EmptyString)).
  now rewrite append_assoc.
Qed.

Lemma rev_append (a b : string) : rev (a ++ b) = (rev b ++ rev a)%string.
Proof.
  induction a as [|c a IH]; simpl.
  - now rewrite append_nil_r.
  - unfold rev in *. simpl.
    rewrite (rev_onto_append (a ++ b)), (rev_onto_append a).
    unfold rev. now rewrite IH, append_assoc.
Qed.

Lemma rev_involutive (s : string) : rev (rev s) = s.
Proof.
  induction s as [|c s IH]; [reflexivity|].
  unfold rev at 2. simpl. rewrite rev_onto_append, rev_append, IH.
  reflexivity.
Qed.

Lemma lstrip_head (s t : string) (c : ascii) :
  lstrip s = String c t -> is_space c = false.
Proof.
  induction s as [|a s IH]; simpl; [discriminate|].
  destruct (is_space a) eqn:E; [exact IH|].
  intros H. inversion H; subst. exact E.
Qed.

(** A stripped string does not end in white space. *)
Lemma strip_last (s t : string) (c : ascii) :
  strip s = (t ++ String c EmptyString)%string -> is_space c = false.
Proof.
  unfold strip, rstrip. intros H.
  apply (f_equal rev) in H. rewrite rev_involutive, rev_append in H.
  exact (lstrip_head _ _ _ H).
Qed.

End StrFacts.

Module ReFacts.
Import PyStr Re StrFacts.

Lemma splits_sound (p : ascii -> bool) (n : nat) (s w r : string) :
  In (w, r) (splits p n s) ->
  s = (w ++ r)%string /\ forallb_str p w = true
  /\ (String.length w <= n)%nat.
Proof.
  revert s w r. induction n as [|n IH]; intros s w r H.
  - destruct s; simpl in H; destruct H as [H|[]]; inversion H; subst;
      simpl; repeat split; auto.
  - destruct s as [|c s]; simpl in H.
    + destruct H as [H|[]]. inversion H; subst. simpl. repeat split; lia.
    + destruct H as [H|H].
      * inversion H; subst. simpl. repeat split; lia.
      * destruct (p c) eqn:E; [|destruct H].
        apply in_map_iff in H. destruct H as ([w' r'] & Heq & Hin).
        simpl in Heq. inversion Heq; subst.
        destruct (IH _ _ _ Hin) as (Hs & Hp & Hl).
        simpl. rewrite E, Hp, <- Hs. repeat split; lia.
Qed.

Lemma rep_ways_sound p lo hi greedy (s t rest : string) (g : caps) :
  In (t, g, rest) (rep_ways p lo hi greedy s) ->
  s = (t ++ rest)%string /\ parses (Rep p lo hi greedy) t g.
Proof.
  unfold rep_ways. intros H.
  apply in_map_iff in H. destruct H as ([w r] & Heq & Hin).
  simpl in Heq. inversion Heq; subst.
  assert (Hin' : In (t, rest)
            (filter (fun wr => (lo <=? String.length (fst wr))%nat)
               (splits p (match hi with
                          | Some h => h
                          | None => String.length s
                          end) s))).
  { destruct greedy; [now apply in_rev in Hin | exact Hin]. }
  apply filter_In in Hin'. destruct Hin' as [Hsp Hlo].
  apply splits_sound in Hsp. destruct Hsp as (Hs & Hp & Hl).
  simpl in Hlo. apply Nat.leb_le in Hlo.
  split; [exact Hs|]. simpl. repeat split; auto.
  destruct hi; [exact Hl | exact I].
Qed.

(** Every way of matching is a parse of a prefix of the subject. *)
Lemma ways_sound (r : re) : forall (bos : bool) (s t rest : string) (g : caps),
  In (t, g, rest) (ways r bos s) ->
  s = (t ++ rest)%string /\ parses r t g.
Proof.
  induction r as [|p|l|a IHa b IHb|a IHa b IHb|a IHa|p lo hi greedy|n a IHa| |];
    intros bos s t rest g H; simpl in H.
  - destruct H as [H|[]]. inversion H; subst. simpl. auto.
  - destruct s as [|c s]; [destruct H|].
    destruct (p c) eqn:E; [|destruct H].
    destruct H as [H|[]]. inversion H; subst. simpl.
    split; [reflexivity|]. split; [|reflexivity]. now exists c.
  - destruct (prefix l s) eqn:E; [|destruct H].
    destruct H as [H|[]]. inversion H; subst.
    split; [now apply prefix_drop | simpl; auto].
  - apply in_flat_map in H. destruct H as ([[t1 g1] s1] & H1 & H2).
    apply in_map_iff in H2. destruct H2 as ([[t2 g2] s2] & Heq & H2).
    inversion Heq; subst.
    destruct (IHa _ _ _ _ _ H1) as [Hs1 Hp1].
    destruct (IHb _ _ _ _ _ H2) as [Hs2 Hp2].
    split; [now rewrite append_assoc, <- Hs2|].
    simpl. exists t1, t2, g1, g2. auto.
  - apply in_app_or in H. destruct H as [H|H].
    + destruct (IHa _ _ _ _ _ H). simpl. auto.
    + destruct (IHb _ _ _ _ _ H). simpl. auto.
  - apply in_app_or in H. destruct H as [H|[H|[]]].
    + destruct (IHa _ _ _ _ _ H). simpl. auto.
    + inversion H; subst. simpl. auto.
  - now apply rep_ways_sound.
  - apply in_map_iff in H. destruct H as ([[t' g'] s'] & Heq & H).
    inversion Heq; subst. destruct (IHa _ _ _ _ _ H) as [Hs Hp].
    split; [exact Hs|]. simpl. now exists g'.
  - destruct bos; [|destruct H]. destruct H as [H|[]].
    inversion H; subst. simpl. auto.
  - destruct (at_eol s); [|destruct H]. destruct H as [H|[]].
    inversion H; subst. simpl. auto.
Qed.

Lemma first_way_sound (r : re) (bos : bool) (s : string) (m : mobj) :
  first_way r bos s = Some m ->
  s = (whole m ++ rest m)%string /\ parses r (whole m) (groups m).
Proof.
  unfold first_way. intros H.
  destruct (ways r bos s) as [|[[t g] s'] l] eqn:E; [discriminate|].
  inversion H; subst. simpl.
  apply (ways_sound r bos s). rewrite E. now left.
Qed.

Lemma search_at_sound (r : re) (s : string) : forall (bos : bool) (m : mobj),
  search_at r bos s = Some m ->
  exists before,
    s = (before ++ whole m ++ rest m)%string
    /\ parses r (whole m) (groups m).
Proof.
  induction s as [|c s IH]; intros bos m H; simpl in H.
  - destruct (first_way r bos EmptyString) eqn:E; [|discriminate].
    inversion H; subst. exists EmptyString.
    now apply first_way_sound in E.
  - destruct (first_way r bos (String c s)) eqn:E.
    + inversion H; subst. exists EmptyString.
      now apply first_way_sound in E.
    + destruct (IH _ _ H) as (before & Hs & Hp).
      exists (String c before). simpl. now rewrite <- Hs.
Qed.

Lemma search_sound (r : re) (s : string) (m : mobj) :
  search r s = Some m -> parses r (whole m) (groups m).
Proof.
  intros H. destruct (search_at_sound r s true m H) as (b & _ & Hp).
  exact Hp.
Qed.

Lemma finditer_at_sound (r : re) (s : string) :
  forall (skip : nat) (bos : bool) (m : mobj),
  In m (finditer_at r skip bos s) -> parses r (whole m) (groups m).
Proof.
  induction s as [|c s IH]; intros skip bos m H.
  - destruct skip; simpl in H; [|destruct H].
    destruct (first_way r bos EmptyString) eqn:E; [|destruct H].
    destruct H as [<-|[]]. now apply first_way_sound in E.
  - destruct skip; simpl in H; [|now apply IH in H].
    destruct (first_way r bos (String c s)) eqn:E.
    + destruct H as [<-|H]; [now apply first_way_sound in E|].
      now apply IH in H.
    + now apply IH in H.
Qed.

Lemma first_way_in (r : re) (bos : bool) (s : string) (m : mobj) :
  first_way r bos s = Some m ->
  In (whole m, groups m, rest m) (ways r bos s).
Proof.
  unfold first_way. intros H.
  destruct (ways r bos s) as [|[[t g] s'] l] eqn:E; [discriminate|].
  inversion H; subst. now left.
Qed.

(** The second half of a sequence starts where the first half ends. *)
Lemma ways_seq_rest (a b : re) (bos : bool) (s t rest : string) (g : caps) :
  In (t, g, rest) (ways (Seq a b) bos s) ->
  exists t1 g1 s1 t2 g2 bos',
    In (t1, g1, s1) (ways a bos s) /\ In (t2, g2, rest) (ways b bos' s1).
Proof.
  cbn [ways]. intros H.
  apply in_flat_map in H. destruct H as ([[t1 g1] s1] & H1 & H2).
  apply in_map_iff in H2. destruct H2 as ([[t2 g2] s2] & Heq & H2).
  inversion Heq; subst. eauto 10.
Qed.

(** A pattern that ends in [$] leaves nothing, or one newline. *)
Lemma ways_seq_eol (a : re) (bos : bool) (s t rest : string) (g : caps) :
  In (t, g, rest) (ways (Seq a Eol) bos s) -> at_eol rest = true.
Proof.
  intros H. apply ways_seq_rest in H.
  destruct H as (t1 & g1 & s1 & t2 & g2 & bos' & _ & H).
  cbn [ways] in H. destruct (at_eol s1) eqn:E; [|destruct H].
  destruct H as [H|[]]. inversion H; subst. exact E.
Qed.

(** The splits come shortest first and end with the longest run. *)
Lemma splits_longest_last (p : ascii -> bool) (s : string) : forall n : nat,
  (String.length s <= n)%nat ->
  exists l,
    splits p n s = l ++ [(take_while p s, drop_while p s)]
    /\ forall x, In x l ->
         (String.length (fst x) < String.length (take_while p s))%nat.
Proof.
  induction s as [|c s IH]; intros n Hn.
  - exists []. split; [now destruct n | intros x []].
  - destruct n as [|n]; [simpl in Hn; lia|].
    simpl in Hn. simpl. destruct (p c) eqn:E.
    + destruct (IH n ltac:(lia)) as (l & Hl & Hlt).
      exists ((EmptyString, String c s)
              :: map (fun wr => (String c (fst wr), snd wr)) l).
      split.
      * rewrite Hl, map_app. reflexivity.
      * intros x [<-|Hx]; [simpl; lia|].
        apply in_map_iff in Hx. destruct Hx as (y & <- & Hy).
        specialize (Hlt y Hy). simpl. lia.
    + exists []. split; [reflexivity | intros x []].
Qed.

(** A greedy [c+] takes the longest run first, and needs one character. *)
Lemma first_way_plus (p : ascii -> bool) (bos : bool) (s : string) :
  first_way (plus p) bos s =
  if is_empty (take_while p s) then None
  else Some (MObj (take_while p s) [] (drop_while p s)).
Proof.
  unfold first_way, plus. cbn [ways]. unfold rep_ways.
  destruct (splits_longest_last p s (String.length s) (le_n _))
    as (l & Hl & Hlt).
  rewrite Hl, filter_app, rev_app_distr. cbn [filter fst].
  destruct (take_while p s) as [|c t] eqn:E.
  - cbn [String.length Nat.leb rev app is_empty].
    destruct l as [|x l]; [reflexivity|].
    specialize (Hlt x (or_introl eq_refl)). simpl in Hlt. lia.
  - reflexivity.
Qed.

(** Searching for [\d+] finds the first run of digits. *)
Lemma search_at_digits (s : string) : forall bos : bool,
  option_map whole (search_at (plus is_digit) bos s) = first_digit_run s.
Proof.
  induction s as [|c s IH]; intros bos; [reflexivity|].
  cbn [search_at first_digit_run]. rewrite first_way_plus.
  cbn [take_while]. destruct (is_digit c); [reflexivity | apply IH].
Qed.

Lemma first_digit_run_digits (s d : string) :
  first_digit_run s = Some d ->
  forallb_str is_digit d = true /\ d <> EmptyString.
Proof.
  induction s as [|c s IH]; simpl; [discriminate|].
  destruct (is_digit c) eqn:E; [|exact IH].
  intros H. inversion H. split; [|discriminate].
  simpl. rewrite E. apply take_while_all.
Qed.

End ReFacts.

(* ================================================================== *)
(** ** Facts about decimal literals *)
(* ================================================================== *)

Module NumFacts.
Import PyStr Re Py StrFacts.

Lemma digit_value (c : ascii) :
  is_digit c = true -> (0 <= Z.of_nat (code c - 48) <= 9)%Z.
Proof.
  unfold is_digit. intros H. apply andb_prop in H. destruct H as [H1 H2].
  apply Nat.leb_le in H1. apply Nat.leb_le in H2. lia.
Qed.

Lemma digit_not_dot (c : ascii) :
  is_digit c = true -> Ascii.eqb c "."%char = false.
Proof.
  intros H. destruct (Ascii.eqb_spec c "."%char) as [->|]; [|reflexivity].
  discriminate H.
Qed.

Lemma digit_not_comma (c : ascii) :
  is_digit c = true -> Ascii.eqb c ","%char = false.
Proof.
  intros H. destruct (Ascii.eqb_spec c ","%char) as [->|]; [|reflexivity].
  discriminate H.
Qed.

Lemma digits_val_bounds (s : string) : forall acc : Z,
  forallb_str is_digit s = true -> (0 <= acc)%Z ->
  (acc * Zpos (pow10 (String.length s)) <= digits_val acc s
   < (acc + 1) * Zpos (pow10 (String.length s)))%Z.
Proof.
  induction s as [|c s IH]; intros acc Hd Hacc.
  - simpl. lia.
  - simpl in Hd. apply andb_prop in Hd. destruct Hd as [Hc Hs].
    pose proof (digit_value c Hc) as Hv.
    specialize (IH (10 * acc + Z.of_nat (code c - 48))%Z Hs ltac:(lia)).
    cbn [digits_val String.length].
    change (pow10 (S (String.length s)))
      with (10 * pow10 (String.length s))%positive.
    rewrite Pos2Z.inj_mul. nia.
Qed.

Lemma split_dot_digits (s : string) :
  forallb_str is_digit s = true -> split_dot s = (s, None).
Proof.
  induction s as [|c s IH]; simpl; intros H; [reflexivity|].
  apply andb_prop in H. destruct H as [Hc Hs].
  now rewrite (digit_not_dot c Hc), (IH Hs).
Qed.

Lemma split_dot_decimal (i d : string) :
  forallb_str is_digit i = true ->
  split_dot (i ++ String "."%char d) = (i, Some d).
Proof.
  induction i as [|c i IH]; simpl; intros H; [reflexivity|].
  apply andb_prop in H. destruct H as [Hc Hi].
  now rewrite (digit_not_dot c Hc), (IH Hi).
Qed.

(** [float] of a non-empty run of digits. *)
Lemma py_float_int (i : string) :
  forallb_str is_digit i = true -> i <> EmptyString ->
  py_float i = Some (inject_Z (digits_val 0 i)).
Proof.
  intros Hd Hne. unfold py_float. rewrite (split_dot_digits i Hd), Hd.
  destruct i; [contradiction | reflexivity].
Qed.

(** [float] of digits, a point, and digits or nothing. *)
Lemma py_float_decimal (i d : string) :
  forallb_str is_digit i = true -> forallb_str is_digit d = true ->
  i <> EmptyString ->
  py_float (i ++ String "."%char d)
  = Some (Qmake (digits_val (digits_val 0 i) d) (pow10 (String.length d))).
Proof.
  intros Hi Hd Hne. unfold py_float.
  rewrite (split_dot_decimal i d Hi), Hi, Hd.
  destruct i; [contradiction | reflexivity].
Qed.

Lemma replace_comma_digits (s : string) :
  forallb_str is_digit s = true -> replace_char "," "." s = s.
Proof.
  induction s as [|c s IH]; simpl; intros H; [reflexivity|].
  apply andb_prop in H. destruct H as [Hc Hs].
  now rewrite (digit_not_comma c Hc), (IH Hs).
Qed.

Lemma replace_char_append (a b : ascii) (s t : string) :
  replace_char a b (s ++ t) = (replace_char a b s ++ replace_char a b t)%string.
Proof. induction s as [|c s IH]; simpl; congruence. Qed.

Lemma sep_dec_cases (c : ascii) :
  one_of ".," c = true -> c = "."%char \/ c = ","%char.
Proof.
  unfold one_of. simpl.
  destruct (ascii_dec c "."%char) as [->|]; [auto|].
  destruct (ascii_dec c ","%char) as [->|]; [auto|].
  simpl. discriminate.
Qed.

(** The number a text [d{lo,3}] or [d{lo,3}[.,]dd] stands for is below
    1000. *)
Lemma short_decimal_value (i f : string) :
  forallb_str is_digit i = true ->
  (1 <= String.length i <= 3)%nat ->
  f = EmptyString
  \/ (exists c d, f = String c d /\ one_of ".," c = true
                  /\ forallb_str is_digit d = true
                  /\ String.length d = 2%nat) ->
  exists q, py_float (replace_char "," "." (i ++ f)) = Some q
            /\ 0 <= q /\ q < 1000.
Proof.
  intros Hi Hlen Hf.
  assert (Hne : i <> EmptyString) by (intros ->; simpl in Hlen; lia).
  pose proof (digits_val_bounds i 0 Hi ltac:(lia)) as Hb.
  assert (Hp : (Zpos (pow10 (String.length i)) <= 1000)%Z).
  { destruct (String.length i) as [|[|[|[|n]]]]; simpl; lia. }
  destruct Hf as [->|(c & d & -> & Hc & Hd & Hdl)].
  - rewrite append_nil_r, (replace_comma_digits i Hi), (py_float_int i Hi Hne).
    eexists. split; [reflexivity|].
    unfold Qle, Qlt. simpl. lia.
  - rewrite replace_char_append, (replace_comma_digits i Hi). simpl.
    rewrite (replace_comma_digits d Hd).
    assert (Hsep : (if Ascii.eqb c "," then "."%char else c) = "."%char).
    { destruct (sep_dec_cases c Hc) as [->| ->]; reflexivity. }
    rewrite Hsep, (py_float_decimal i d Hi Hd Hne).
    eexists. split; [reflexivity|].
    pose proof (digits_val_bounds d (digits_val 0 i) Hd ltac:(lia)) as Hb2.
    rewrite Hdl in *. change (Zpos (pow10 2)) with 100%Z in Hb2.
    unfold Qle, Qlt. simpl. nia.
Qed.

End NumFacts.

(* ================================================================== *)
(** ** Facts about dicts *)
(* ================================================================== *)

Module DictFacts.
Import Py.

Lemma dict_get_set_same (k : string) (v : value) (d : dict) :
  dict_get k (dict_set k v d) = Some v.
Proof.
  induction d as [|[k' v'] d IH]; simpl.
  - now rewrite String.eqb_refl.
  - destruct (String.eqb k' k) eqn:E; simpl.
    + now rewrite String.eqb_refl.
    + now rewrite E.
Qed.

Lemma dict_get_set_other (k k' : string) (v : value) (d : dict) :
  k' <> k -> dict_get k (dict_set k' v d) = dict_get k d.
Proof.
  intros Hne.
  induction d as [|[k0 v0] d IH]; simpl.
  - destruct (String.eqb_spec k' k); [contradiction | reflexivity].
  - destruct (String.eqb_spec k0 k') as [->|Hk0]; simpl.
    + destruct (String.eqb_spec k' k); [contradiction | reflexivity].
    + destruct (String.eqb_spec k0 k); [reflexivity | exact IH].
Qed.

Lemma dict_has_get (k : string) (d : dict) :
  dict_has k d = true <-> exists v, dict_get k d = Some v.
Proof.
  induction d as [|[k' v'] d IH]; simpl.
  - split; [discriminate | intros [v Hv]; discriminate].
  - destruct (String.eqb k' k); simpl.
    + split; [intros _; now exists v' | reflexivity].
    + exact IH.
Qed.

Lemma dict_has_set_same (k : string) (v : value) (d : dict) :
  dict_has k (dict_set k v d) = true.
Proof.
  apply dict_has_get. exists v. apply dict_get_set_same.
Qed.

End DictFacts.

(* ================================================================== *)
(** ** The heuristic extractor *)
(* ================================================================== *)

Module ExtractorFacts.
Import PyStr Re Py DocumentProcessor StrFacts ReFacts NumFacts DictFacts.

Ltac break_parse :=
  repeat match goal with
         | H : _ /\ _ |- _ => destruct H
         | H : exists _, _ |- _ => destruct H
         | H : _ \/ _ |- _ => destruct H
         end; subst.

(** The shape of a match of the amount pattern: group 1 is one to three
    digits, then nothing or a separator and two digits. *)
Lemma total_parse_shape (t : string) (g : caps) :
  parses total_re t g ->
  exists i f,
    group_in 1 g = Some (i ++ f)%string
    /\ forallb_str is_digit i = true
    /\ (1 <= String.length i <= 3)%nat
    /\ (f = EmptyString
        \/ exists c d, f = String c d /\ one_of ".," c = true
                       /\ forallb_str is_digit d = true
                       /\ String.length d = 2%nat).
Proof.
  unfold total_re. cbn [seq parses between exactly]. intros H.
  break_parse;
    match goal with
    | Hd : forallb_str is_digit ?i = true
      |- context [(?i ++ ?f)%string] =>
        exists i, f; cbn [app group_in Nat.eqb];
        (split; [reflexivity|]); (split; [exact Hd|]); (split; [lia|])
    end;
    try (left; reflexivity);
    right; unfold sep_dec in *;
    match goal with
    | |- context [(String ?c EmptyString ++ ?d)%string] =>
        exists c, d; repeat split; solve [assumption | lia]
    end.
Qed.

Lemma probe_total_sound (window : list string) (m : mobj) :
  probe_total window = Some m ->
  exists s, In s window /\ search total_re s = Some m.
Proof.
  induction window as [|l window IH]; simpl; [discriminate|].
  destruct (search total_re l) eqn:E.
  - intros H. inversion H; subst. exists l. auto.
  - intros H. destruct (IH H) as (s & Hs & Hm). exists s. auto.
Qed.

(** Reading a key after a binding was made: the new value, or what was
    there. *)
Lemma dict_get_after_set (k k' : string) (v v' : value) (d : dict) :
  dict_get k (dict_set k' v' d) = Some v ->
  (k = k' /\ v = v') \/ (k <> k' /\ dict_get k d = Some v).
Proof.
  destruct (string_dec k' k) as [->|Hne].
  - rewrite dict_get_set_same. intros H. inversion H. auto.
  - rewrite (dict_get_set_other k k' v' d Hne). intros H. right.
    split; [congruence | exact H].
Qed.

(** One iteration of the field loop binds at most one key, and a number
    or a total only as [written] says. *)
Lemma field_step_writes (before : list string) (line : string)
  (following : list string) (inv inv' : dict) (k : string) (v : value) :
  field_step line following inv = Some inv' ->
  dict_get k inv' = Some v ->
  dict_get k inv = Some v \/ written (before ++ line :: following) k v.
Proof.
  unfold field_step, bind. cbv zeta. intros H Hget.
  repeat match type of H with
         | context [if ?c then _ else _] => destruct c eqn:?
         | context [match ?o with Some _ => _ | None => _ end] =>
             destruct o eqn:?
         end;
    try discriminate; inversion H; subst; clear H;
    try (left; exact Hget);
    apply dict_get_after_set in Hget;
    (destruct Hget as [[-> ->]|[_ Hget]]; [|left; exact Hget]); right;
    try (apply written_other; discriminate).
  - eapply written_number; eauto.
  - match goal with
    | Hm : match search total_re line with _ => _ end = Some _ |- _ =>
        destruct (search total_re line) eqn:Hs;
        [inversion Hm; subst
        |destruct (probe_total_sound _ _ Hm) as (s & Hin & Hs')]
    end.
    + eapply written_total; eauto. now left.
    + eapply written_total; eauto. now right.
Qed.

Lemma field_loop_writes (lines : list string) :
  forall (before : list string) (inv inv' : dict) (k : string) (v : value),
  field_loop lines inv = Some inv' ->
  dict_get k inv' = Some v ->
  dict_get k inv = Some v \/ written (before ++ lines) k v.
Proof.
  induction lines as [|line following IH]; intros before inv inv' k v H Hget.
  - inversion H; subst. now left.
  - cbn [field_loop] in H. unfold bind in H.
    destruct (field_step line following inv) as [inv1|] eqn:E; [|discriminate].
    destruct (IH (before ++ [line]) inv1 inv' k v H Hget) as [H1|H1].
    + exact (field_step_writes before line following inv inv1 k v E H1).
    + right. now rewrite <- app_assoc in H1.
Qed.

(** The bindings of the record the extractor returns, besides
    [line_items]. *)
Lemma extract_writes (text : string) (k : string) (v : value) :
  dict_get k (extract_invoice_data text) = Some v ->
  k <> "line_items" ->
  written (splitlines text) k v.
Proof.
  unfold extract_invoice_data, extract_body, bind. intros H Hk.
  destruct (field_loop (splitlines text) []) as [invoice|] eqn:E;
    [|discriminate].
  destruct (item_loop (splitlines text) _) as [st|]; [|discriminate].
  rewrite !dict_get_set_other in H by congruence.
  destruct (field_loop_writes (splitlines text) [] [] invoice k v E H)
    as [H1|H1]; [discriminate | exact H1].
Qed.

(** *** The body of the extractor never raises *)

(** A text of the decimal pattern, once its comma is a point, is a
    literal [float] reads. *)
Lemma dec_parse_float (t : string) (g : caps) :
  parses dec_re t g ->
  g = [] /\ exists q, py_float (replace_char "," "." t) = Some q.
Proof.
  unfold dec_re. cbn [seq parses between exactly]. intros H.
  destruct H as (i & t2 & g1 & g2 & -> & -> & (Hi & Hlo & Hhi & ->)
                 & (t3 & d & g3 & g4 & -> & -> & ((c & -> & Hc) & ->)
                    & (Hd & Hd1 & Hd2 & ->))).
  split; [reflexivity|].
  destruct (short_decimal_value i (String c d) Hi (conj Hlo Hhi))
    as (q & Hq & _).
  - right. exists c, d. repeat split; auto. lia.
  - exists q. exact Hq.
Qed.

Lemma total_match_float (s : string) (m : mobj) :
  search total_re s = Some m -> exists q, group_float 1 m = Some q.
Proof.
  intros Hm.
  destruct (total_parse_shape _ _ (search_sound _ _ _ Hm))
    as (i & f & Hg & Hi & Hlen & Hf).
  destruct (short_decimal_value i f Hi Hlen Hf) as (q & Hq & _).
  exists q. unfold group_float, bind, group. now rewrite Hg.
Qed.

Lemma field_step_returns (line : string) (following : list string)
  (inv : dict) :
  exists inv', field_step line following inv = Some inv'.
Proof.
  unfold field_step, bind. cbv zeta.
  repeat match goal with
         | |- context [if ?c then _ else _] => destruct c eqn:?
         end;
    repeat match goal with
           | |- context [match search ?r ?t with _ => _ end] =>
               destruct (search r t) eqn:?
           | |- context [match scan_date ?l with _ => _ end] =>
               destruct (scan_date l) eqn:?
           | |- context [match probe_total ?l with _ => _ end] =>
               destruct (probe_total l) eqn:?
           end;
    try (eexists; reflexivity).
  - match goal with
    | Hs : search total_re _ = Some ?m |- _ =>
        destruct (total_match_float _ _ Hs) as [q Hq]; rewrite Hq
    end.
    eexists; reflexivity.
  - match goal with
    | Hp : probe_total _ = Some ?m |- _ =>
        destruct (probe_total_sound _ _ Hp) as (s & _ & Hs);
        destruct (total_match_float _ _ Hs) as [q Hq]; rewrite Hq
    end.
    eexists; reflexivity.
Qed.

Lemma field_loop_returns (lines : list string) : forall inv : dict,
  exists inv', field_loop lines inv = Some inv'.
Proof.
  induction lines as [|line following IH]; intros inv; [now exists inv|].
  cbn [field_loop]. unfold bind.
  destruct (field_step_returns line following inv) as [inv1 H1].
  rewrite H1. apply IH.
Qed.

Lemma after_first_digits (i x : string) :
  forallb_str is_digit i = true ->
  after_first "." (i ++ String "." x) = Some x.
Proof.
  induction i as [|c i IH]; simpl; intros H; [reflexivity|].
  apply andb_prop in H. destruct H as [Hc Hi].
  now rewrite (digit_not_dot c Hc), (IH Hi).
Qed.

(** A numbered line always opens an item with a description and a
    quantity. *)
Lemma open_item_returns (line : string) :
  is_some (match_ item_start_re line) = true ->
  exists d q, open_item line = Some (Item (Val d) (Val q) Null).
Proof.
  intros Hstart. unfold open_item, bind.
  destruct (match_ item_strict_re line) as [m|] eqn:Estrict.
  - apply first_way_sound in Estrict. destruct Estrict as [_ Hp].
    revert Hp. unfold item_strict_re, plus. cbn [seq parses]. intros Hp.
    break_parse.
    match goal with
    | Hd : parses dec_re _ _ |- _ =>
        destruct (dec_parse_float _ _ Hd) as [-> [q Hq]]
    end.
    unfold group_float, bind, group.
    match goal with Hg : groups m = _ |- _ => rewrite Hg end.
    cbn [app group_in Nat.eqb]. rewrite Hq. eauto.
  - destruct (match_ item_start_re line) as [m0|] eqn:E0; [|discriminate].
    apply first_way_sound in E0. destruct E0 as [Hline Hp].
    revert Hp. unfold item_start_re, plus. cbn [seq parses]. intros Hp.
    revert Hline. break_parse. intros Hline.
    match goal with
    | Hw : whole m0 = _ |- _ => rewrite Hw in Hline
    end.
    match goal with
    | Hc : chr_is "." ?c = true |- _ =>
        unfold chr_is in Hc; apply Ascii.eqb_eq in Hc; subst c
    end.
    cbn [append] in Hline. rewrite !append_assoc in Hline.
    cbn [append] in Hline.
    rewrite Hline, after_first_digits by assumption.
    match goal with
    | |- context [search qty_re ?desc] =>
        destruct (search qty_re desc) as [qm|] eqn:Eq
    end.
    + apply search_sound in Eq. revert Eq.
      unfold qty_re. cbn [parses]. intros (g' & Hd & Hg).
      destruct (dec_parse_float _ _ Hd) as [-> [q Hq]].
      unfold group_float, bind, group. rewrite Hg.
      cbn [group_in Nat.eqb]. rewrite Hq. eauto.
    + eauto.
Qed.

(** A line of the price pattern, stripped, is a literal [float] reads
    once its comma is a point. *)
Lemma price_line_float (raw : string) :
  is_some (match_ price_line_re (strip raw)) = true ->
  exists q, py_float (replace_char "," "." (strip raw)) = Some q.
Proof.
  destruct (match_ price_line_re (strip raw)) as [m|] eqn:E; [|discriminate].
  intros _. unfold match_ in E.
  pose proof (first_way_sound _ _ _ _ E) as [Hline Hp].
  apply first_way_in in E. unfold price_line_re in E. cbn [seq] in E.
  apply ways_seq_rest in E.
  destruct E as (t1 & g1 & s1 & t2 & g2 & bos' & _ & E).
  apply ways_seq_eol in E.
  assert (Hrest : rest m = EmptyString).
  { destruct (rest m) as [|c [|c' r]] eqn:Er; [reflexivity| |discriminate].
    simpl in E. apply Nat.eqb_eq in E.
    pose proof (strip_last raw (whole m) c Hline) as Hsp.
    unfold is_space in Hsp. rewrite E in Hsp. discriminate Hsp. }
  rewrite Hrest, append_nil_r in Hline. rewrite Hline.
  revert Hp. unfold price_line_re. cbn [seq parses].
  intros (t0 & t & g0 & g & -> & _ & (-> & _)
          & (td & te & gd & ge & -> & _ & Hd & (-> & _))).
  cbn [append]. rewrite append_nil_r.
  destruct (dec_parse_float _ _ Hd) as [_ Hq]. exact Hq.
Qed.

Lemma item_step_returns (raw_line : string) (last : bool) (st : item_state) :
  described (current_item st) ->
  exists st', item_step raw_line last st = Some st'
              /\ described (current_item st').
Proof.
  intros Hwf. unfold item_step, bind. cbv zeta.
  destruct (is_some (match_ item_start_re (strip raw_line))) eqn:Estart.
  { destruct (open_item_returns _ Estart) as (d & q & Hopen).
    rewrite Hopen. eexists. split; [reflexivity|].
    right. cbn [current_item]. eauto. }
  match goal with
  | |- context [if ?c then _ else _] => destruct c eqn:Econt
  end.
  { destruct Hwf as [Hwf|(d & q & p & Hwf)]; rewrite Hwf in *.
    - discriminate Econt.
    - cbn [append_description description quantity unit_price].
      eexists. split; [reflexivity|]. right. cbn [current_item]. eauto. }
  destruct (contains "net price" (lower (strip raw_line))).
  { eexists. split; [reflexivity | exact Hwf]. }
  match goal with
  | |- context [if ?c then _ else _] => destruct c eqn:Eprice
  end.
  { apply andb_prop in Eprice. destruct Eprice as [_ Eprice].
    destruct (price_line_float raw_line Eprice) as [q Hq]. rewrite Hq.
    eexists. split; [reflexivity | exact Hwf]. }
  match goal with
  | |- context [if ?c then _ else _] => destruct c
  end.
  - eexists. split; [reflexivity|]. now left.
  - eexists. split; [reflexivity | exact Hwf].
Qed.

Lemma item_loop_returns (lines : list string) : forall st : item_state,
  described (current_item st) ->
  exists st', item_loop lines st = Some st'.
Proof.
  induction lines as [|line following IH]; intros st Hwf; [now exists st|].
  cbn [item_loop]. unfold bind.
  destruct (item_step_returns line
              (match following with [] => true | _ :: _ => false end) st Hwf)
    as (st1 & H1 & Hwf1).
  rewrite H1. now apply IH.
Qed.

(** The handler of [extract_invoice_data] is never reached. *)
Lemma extract_body_returns (text : string) :
  exists inv, extract_body text = Some inv.
Proof.
  unfold extract_body, bind.
  destruct (field_loop_returns (splitlines text) []) as [invoice H1].
  rewrite H1.
  destruct (item_loop_returns (splitlines text)
              (ItemState [] empty_item [] false)) as [st H2];
    [now left|].
  rewrite H2. eauto.
Qed.

(** *** The regex fallback *)

(** A text of the number pattern is a literal [float] reads. *)
Lemma number_parse_float (t : string) (g : caps) :
  parses number_re t g -> exists q, py_float t = Some q.
Proof.
  unfold number_re, plus, star. cbn [seq parses]. intros H.
  destruct H as (i & t2 & g1 & g2 & -> & -> & (Hi & Hlen & _ & ->)
                 & (t3 & d & g3 & g4 & -> & -> & Hopt & (Hd & _ & _ & ->))).
  assert (Hne : i <> EmptyString) by (intros ->; simpl in Hlen; lia).
  destruct Hopt as [[(c & -> & Hc) ->] | [-> ->]].
  - unfold chr_is in Hc. apply Ascii.eqb_eq in Hc. subst c. cbn [append].
    rewrite (py_float_decimal i d Hi Hd Hne). eauto.
  - cbn [append]. rewrite (py_float_int (i ++ d)).
    + eauto.
    + now rewrite forallb_str_append, Hi, Hd.
    + destruct i; [contradiction | discriminate].
Qed.

Lemma number_parse_groups (t : string) (g : caps) :
  parses number_re t g -> g = [].
Proof.
  unfold number_re, plus, star. cbn [seq parses]. intros H.
  break_parse; reflexivity.
Qed.

Lemma total_field_float (m : mobj) :
  parses total_field_re (whole m) (groups m) ->
  exists q, group_number 1 m = Some q.
Proof.
  unfold total_field_re, star. cbn [seq parses]. intros H. break_parse.
  unfold group_number, bind, group.
  match goal with Hg : groups m = _ |- _ => rewrite Hg end.
  cbn [app group_in Nat.eqb].
  eapply number_parse_float; eassumption.
Qed.

Lemma item_triple_groups (m : mobj) :
  parses item_triple_re (whole m) (groups m) ->
  exists d qty price,
    group 1 m = Some d /\ group_number 2 m = Some qty
    /\ group_number 3 m = Some price.
Proof.
  unfold item_triple_re, star. cbn [seq parses]. intros H. break_parse.
  repeat match goal with
         | Hn : parses number_re _ ?g |- _ =>
             pose proof (number_parse_groups _ _ Hn); subst g;
             apply number_parse_float in Hn; destruct Hn as [? Hn]
         end.
  unfold group_number, bind, group.
  match goal with Hg : groups m = _ |- _ => rewrite Hg end.
  cbn [app group_in Nat.eqb].
  repeat match goal with
         | Hn : py_float _ = Some _ |- _ => rewrite Hn; clear Hn
         end.
  do 3 eexists. repeat split; reflexivity.
Qed.

Lemma regex_items_total (matches : list mobj) :
  (forall m, In m matches -> parses item_triple_re (whole m) (groups m)) ->
  exists items, regex_items matches = Some items.
Proof.
  induction matches as [|m rest IH]; intros H; [now exists []|].
  destruct (item_triple_groups m (H m (or_introl eq_refl)))
    as (d & qty & price & H1 & H2 & H3).
  destruct (IH (fun x Hx => H x (or_intror Hx))) as [items Hitems].
  cbn [regex_items]. unfold bind. rewrite H1, H2, H3, Hitems. eauto.
Qed.

Lemma regex_string_field_get (key json_str : string) (d : dict)
  (k : string) (v : value) :
  dict_get k (regex_string_field key json_str d) = Some v ->
  (k = key /\ exists m, search (string_field_re key) json_str = Some m
                        /\ v = group_value 1 m)
  \/ dict_get k d = Some v.
Proof.
  unfold regex_string_field.
  destruct (search (string_field_re key) json_str) as [m|] eqn:E; [|auto].
  intros H. apply dict_get_after_set in H.
  destruct H as [[-> ->]|[_ H]]; [left | right; exact H].
  split; [reflexivity|]. now exists m.
Qed.

(** The fallback never raises; its record always binds [line_items],
    and binds nothing but what the patterns locate. *)
Lemma extract_with_regex_returns (json_str : string) :
  exists record items,
    _extract_with_regex json_str = Some record
    /\ dict_get "line_items" record = Some (VItems items)
    /\ forall k v, dict_get k record = Some v -> located json_str k v.
Proof.
  unfold _extract_with_regex, bind.
  destruct (regex_items_total (finditer item_triple_re json_str))
    as [items Hitems].
  { intros m Hm. exact (finditer_at_sound _ _ _ _ _ Hm). }
  rewrite Hitems.
  assert (Hstrings : forall d k v,
    d = regex_string_field "bank_account" json_str
          (regex_string_field "tax_id" json_str
             (regex_string_field "supplier_name" json_str
                (regex_string_field "invoice_date" json_str
                   (regex_string_field "invoice_number" json_str [])))) ->
    dict_get k d = Some v -> located json_str k v).
  { intros d k v -> H.
    repeat (apply regex_string_field_get in H;
            destruct H as [[-> (m & Hm & ->)]|H];
            [apply located_string; [simpl; tauto | exact Hm]|]).
    discriminate H. }
  destruct (search total_field_re json_str) as [m|] eqn:E.
  - destruct (total_field_float m (search_sound _ _ _ E)) as [q Hq].
    rewrite Hq. eexists. exists items. split; [reflexivity|].
    split; [apply dict_get_set_same|].
    intros k v H.
    apply dict_get_after_set in H.
    destruct H as [[-> ->]|[Hk H]]; [now apply located_items|].
    apply dict_get_after_set in H.
    destruct H as [[Hk' _]|[_ H]]; [contradiction|].
    apply dict_get_after_set in H.
    destruct H as [[-> ->]|[_ H]]; [now apply (located_total _ m)|].
    now apply (Hstrings _ k v eq_refl).
  - eexists. exists items. split; [reflexivity|].
    split; [apply dict_get_set_same|].
    intros k v H.
    apply dict_get_after_set in H.
    destruct H as [[-> ->]|[Hk H]]; [now apply located_items|].
    apply dict_get_after_set in H.
    destruct H as [[Hk' _]|[_ H]]; [contradiction|].
    now apply (Hstrings _ k v eq_refl).
Qed.

(** On a line that names the invoice number, the step binds the first
    run of digits of the combined text, or nothing when it has no digit. *)
Lemma field_step_invoice_number (line : string) (following : list string)
  (inv : dict) :
  contains "invoice no" (lower (strip line))
  || contains "invoice number" (lower (strip line)) = true ->
  field_step line following inv =
  Some match first_digit_run (line ++ " " ++ get_next_nonempty following) with
       | Some d => dict_set "invoice_number" (VStr d) inv
       | None => inv
       end.
Proof.
  intros Hkw. unfold field_step. cbv zeta. rewrite Hkw.
  rewrite <- (search_at_digits _ true). unfold search, digits_re.
  destruct (search_at (plus is_digit) true _) as [m|]; reflexivity.
Qed.

(** Where an [invoice_number] of the record comes from: it is the
    first run of digits of the combined text (the line and the next line
    that is not blank) of a line naming the invoice number, a non-empty
    string of digits only. *)
Lemma invoice_number_origin (text : string) (v : value) :
  dict_get "invoice_number" (extract_invoice_data text) = Some v ->
  exists before line following d,
    splitlines text = before ++ line :: following
    /\ contains "invoice no" (lower (strip line))
       || contains "invoice number" (lower (strip line)) = true
    /\ first_digit_run (line ++ " " ++ get_next_nonempty following) = Some d
    /\ (forall inv, field_step line following inv
                    = Some (dict_set "invoice_number" (VStr d) inv))
    /\ v = VStr d
    /\ forallb_str is_digit d = true
    /\ d <> EmptyString
    /\ v <> VStr "INV-2024-0099".
Proof.
  intros H. apply extract_writes in H; [|discriminate].
  inversion H as [before line following m Hlines Hkw Hm Hk Hv
                 | |k' v' Hk1 Hk2]; subst; [|now contradiction Hk1].
  assert (Hrun : first_digit_run (line ++ " " ++ get_next_nonempty following)
                 = Some (whole m)).
  { rewrite <- (search_at_digits _ true).
    unfold search, digits_re in Hm. now rewrite Hm. }
  destruct (first_digit_run_digits _ _ Hrun) as [Hd Hne].
  exists before, line, following, (whole m).
  repeat split; auto.
  - intros inv. now rewrite (field_step_invoice_number _ _ _ Hkw), Hrun.
  - unfold group_value, group. intros Heq. inversion Heq as [Hw].
    rewrite Hw in Hd. discriminate Hd.
Qed.

(** Where a [total_amount] of the record comes from: it is read on a
    line naming a total, or on one of the three lines after it, from
    group 1 of the amount pattern: one to three digits and, optionally,
    a point or comma with two digits, the comma turned into a point.  Its
    value is therefore below 1000. *)
Lemma total_amount_origin (text : string) (v : value) :
  dict_get "total_amount" (extract_invoice_data text) = Some v ->
  exists before line following s m i f q,
    splitlines text = before ++ line :: following
    /\ contains "total amount" (lower (strip line))
       || contains "total" (lower (strip line)) = true
    /\ In s (line :: firstn 3 following)
    /\ search total_re s = Some m
    /\ group 1 m = Some (i ++ f)%string
    /\ forallb_str is_digit i = true
    /\ (1 <= String.length i <= 3)%nat
    /\ (f = EmptyString
        \/ exists c d, f = String c d /\ one_of ".," c = true
                       /\ forallb_str is_digit d = true
                       /\ String.length d = 2%nat)
    /\ py_float (replace_char "," "." (i ++ f)) = Some q
    /\ v = VNum q
    /\ 0 <= q /\ q < 1000.
Proof.
  intros H. apply extract_writes in H; [|discriminate].
  inversion H as [|before line following s m q Hlines Hkw Hin Hm Hq Hk Hv
                 |k' v' Hk1 Hk2]; subst; [|now contradiction Hk2].
  destruct (total_parse_shape _ _ (search_sound _ _ _ Hm))
    as (i & f & Hg & Hi & Hlen & Hf).
  destruct (short_decimal_value i f Hi Hlen Hf) as (q' & Hq' & Hlo & Hhi).
  unfold group_float, bind, group in Hq. rewrite Hg, Hq' in Hq.
  inversion Hq; subst.
  exists before, line, following, s, m, i, f, q.
  repeat split; auto; lia.
Qed.

(** The example of the specification, run. *)
Example invoice_number_example :
  extract_invoice_data "invoice number: INV-2024-0099"
  = [("invoice_number", VStr "2024"); ("line_items", VItems [])].
Proof. reflexivity. Qed.

(** A total of 1234.56 is read as 123, also with a dollar sign. *)
Example total_truncated_example :
  extract_invoice_data "Total: 1234.56"
  = [("total_amount", VNum 123); ("line_items", VItems [])]
  /\ extract_invoice_data "TOTAL AMOUNT $1500"
     = [("total_amount", VNum 150); ("line_items", VItems [])].
Proof. split; reflexivity. Qed.

(** The probe reaches the third line after the label, not the fourth. *)
Example total_probe_example :
  extract_invoice_data
    ("Total" ++ newline ++ "a" ++ newline ++ "b" ++ newline ++ "12,50")
  = [("total_amount", VNum (Qmake 1250 100)); ("line_items", VItems [])]
  /\ extract_invoice_data
       ("Total" ++ newline ++ "a" ++ newline ++ "b" ++ newline ++ "c"
        ++ newline ++ "12,50")
     = [("line_items", VItems [])].
Proof. split; reflexivity. Qed.

End ExtractorFacts.

(* ================================================================== *)
(** ** The analyzer: missing fields, dates, line items *)
(* ================================================================== *)

Module AnalyzerFacts.
Import PyStr Py InvoiceAnalyzer DictFacts.

Section WithForest.

Variable fitted : Type.
Variable fit : list (Q * Q) -> outcome fitted.
Variable decision_function : fitted -> Q * Q -> Q.
Variable predict : fitted -> Q * Q -> Z.
Variable format_number : Q -> string.

Abbreviation analyze :=
  (analyze_invoice_for_fraud fitted fit decision_function predict
                             format_number).
Abbreviation proper :=
  (analysis_proper fitted fit decision_function predict format_number).
Abbreviation line_items_step :=
  (line_item_analysis fitted fit decision_function predict format_number).
Abbreviation detect :=
  (anomaly_detection fitted fit decision_function predict).

Lemma missing_fields_nil (inv : dict) :
  missing_fields inv = [] <->
  (forall f, In f required_fields -> dict_has f inv = true).
Proof.
  unfold missing_fields. split.
  - intros H f Hf.
    destruct (dict_has f inv) eqn:E; [reflexivity|].
    assert (Hin : In f (filter (fun field => negb (dict_has field inv))
                               required_fields)).
    { apply filter_In. split; [exact Hf | now rewrite E]. }
    rewrite H in Hin. destruct Hin.
  - intros H.
    destruct (filter (fun field => negb (dict_has field inv)) required_fields)
      as [|f l] eqn:E; [reflexivity|].
    assert (Hin : In f (filter (fun field => negb (dict_has field inv))
                               required_fields)).
    { rewrite E. now left. }
    apply filter_In in Hin. destruct Hin as [Hf Hneg].
    rewrite (H f Hf) in Hneg. discriminate.
Qed.

Lemma missing_fields_some (inv : dict) (f : string) :
  In f required_fields -> dict_has f inv = false -> missing_fields inv <> [].
Proof.
  intros Hf Hhas Hnil.
  rewrite (proj1 (missing_fields_nil inv) Hnil f Hf) in Hhas. discriminate.
Qed.

(** The three ways out of the method. *)
Lemma analyze_unfold (inv : dict) (cs ce : option date) :
  analyze inv cs ce =
  match inv with
  | [] => (Ok (Analysis "error" "Invalid invoice data" None), Store inv [] [])
  | _ :: _ =>
      match missing_fields inv with
      | [] => proper cs ce (Store inv [] [])
      | (_ :: _) as missing =>
          (Ok (Analysis "warning"
                 ("Missing required fields: " ++ join ", " missing)
                 (Some inv)),
           Store inv [] [])
      end
  end.
Proof.
  unfold analyze_invoice_for_fraud, analyze_steps, bind at 1, get_invoice.
  cbn [invoice]. destruct inv as [|kv inv']; [reflexivity|].
  destruct (missing_fields (kv :: inv')); reflexivity.
Qed.

(** The date block never raises and leaves the invoice as it was. *)
Lemma date_validation_returns (cs ce : option date) (st : store) :
  exists st', date_validation cs ce st = (Ok tt, st')
              /\ invoice st' = invoice st.
Proof.
  unfold date_validation, bind, get_invoice.
  destruct cs as [s|]; [|eexists; split; reflexivity].
  destruct ce as [e|]; [|eexists; split; reflexivity].
  destruct (dict_get "invoice_date" (invoice st)) as [v|];
    [|eexists; split; reflexivity].
  simpl.
  destruct (parse_invoice_date v) as [d|].
  - destruct (negb (date_leb s d && date_leb d e));
      eexists; split; reflexivity.
  - eexists; split; reflexivity.
Qed.

(** Assigning the scores of fewer rows than the frame has raises. *)
Lemma anomaly_detection_raises (items : list line_item) (st : store) :
  has_column unit_price items = true ->
  has_column quantity items = true ->
  numeric_rows items <> [] ->
  List.length (numeric_rows items) <> List.length items ->
  exists e st', detect items st = (Raise e, st')
                /\ invoice st' = invoice st
                /\ issues st' = issues st.
Proof.
  intros Hp Hq Hne Hlen.
  unfold anomaly_detection, anomaly_detection_on. rewrite Hp, Hq. simpl.
  destruct (numeric_rows items) as [|r rows] eqn:E; [contradiction|].
  unfold bind at 1. unfold log at 1.
  destruct (fit (r :: rows)) as [model|e].
  - unfold bind, assign_column. rewrite length_map.
    destruct (Nat.eqb_spec (List.length (r :: rows)) (List.length items))
      as [Heq|Hneq]; [contradiction|].
    unfold raise. eexists. eexists. repeat split; reflexivity.
  - unfold raise. eexists. eexists. repeat split; reflexivity.
Qed.

(** The price loop leaves the invoice as it was and keeps the issues
    collected before it, raising or not. *)
Lemma price_loop_invoice (items : list line_item) (st : store) :
  exists o st', price_loop format_number items st = (o, st')
                /\ invoice st' = invoice st
                /\ (forall w, In w (issues st) -> In w (issues st')).
Proof.
  revert st. induction items as [|item rest IH]; intros st; simpl.
  - eexists; eexists; split; [reflexivity|]. split; [reflexivity | auto].
  - destruct (high_price item) as [p|]; [|apply IH].
    destruct (description item) as [| |d].
    + eexists; eexists; split; [reflexivity|]. split; [reflexivity | auto].
    + unfold bind, append_issue at 1.
      match goal with
      | |- context [price_loop format_number rest ?s] =>
          destruct (IH s) as (o & st' & Hrun & Hinv & Hiss)
      end.
      rewrite Hrun. cbn [invoice issues] in Hinv, Hiss.
      destruct o; eexists; eexists; (split; [reflexivity|]);
        (split; [exact Hinv|]); intros w Hw; apply Hiss, in_or_app; now left.
    + unfold bind, append_issue at 1.
      match goal with
      | |- context [price_loop format_number rest ?s] =>
          destruct (IH s) as (o & st' & Hrun & Hinv & Hiss)
      end.
      rewrite Hrun. cbn [invoice issues] in Hinv, Hiss.
      destruct o; eexists; eexists; (split; [reflexivity|]);
        (split; [exact Hinv|]); intros w Hw; apply Hiss, in_or_app; now left.
Qed.

(** The line-item block on a partly priced item list raises. *)
Lemma line_items_raise_on_partial_prices (items : list line_item)
  (st : store) :
  dict_get "line_items" (invoice st) = Some (VItems items) ->
  has_column unit_price items = true ->
  has_column quantity items = true ->
  numeric_rows items <> [] ->
  List.length (numeric_rows items) <> List.length items ->
  exists e st', line_items_step st = (Raise e, st')
                /\ invoice st' = invoice st
                /\ (forall w, In w (issues st) -> In w (issues st')).
Proof.
  intros Hget Hp Hq Hne Hlen.
  assert (Hitems : items <> []) by (intros ->; apply Hne; reflexivity).
  unfold line_item_analysis, bind at 1, get_invoice.
  rewrite Hget.
  assert (Htruthy : truthy (VItems items) = true)
    by (destruct items; [contradiction | reflexivity]).
  rewrite Htruthy. unfold bind at 1.
  destruct (price_loop_invoice items st) as (o & st2 & Hloop & Hinv2 & Hiss2).
  rewrite Hloop. destruct o as [[]|e].
  - destruct (anomaly_detection_raises items st2 Hp Hq Hne Hlen)
      as (e & st3 & Hdet & Hinv3 & Hiss3).
    rewrite Hdet. exists e, st3. split; [reflexivity|].
    split; [congruence|]. intros w Hw. rewrite Hiss3. auto.
  - exists e, st2. split; [reflexivity|]. split; [congruence | auto].
Qed.

(** An invoice with the six fields whose line items are only partly
    priced makes the whole call raise, its dict untouched. *)
Lemma analyze_raises_on_partial_prices (inv : dict) (items : list line_item)
  (cs ce : option date) :
  missing_fields inv = [] ->
  dict_get "line_items" inv = Some (VItems items) ->
  has_column unit_price items = true ->
  has_column quantity items = true ->
  numeric_rows items <> [] ->
  List.length (numeric_rows items) <> List.length items ->
  exists e st, analyze inv cs ce = (Raise e, st) /\ invoice st = inv.
Proof.
  intros Hmiss Hget Hp Hq Hne Hlen.
  assert (Hinv0 : inv <> []) by (intros ->; discriminate).
  rewrite analyze_unfold.
  destruct inv as [|kv inv']; [contradiction|].
  rewrite Hmiss. unfold analysis_proper, bind at 1.
  destruct (date_validation_returns cs ce (Store (kv :: inv') [] []))
    as (st1 & Hdate & Hinv1).
  rewrite Hdate. cbn [invoice] in Hinv1.
  rewrite <- Hinv1 in Hget.
  destruct (line_items_raise_on_partial_prices items st1 Hget Hp Hq Hne Hlen)
    as (e & st2 & Hrun & Hinv2 & _).
  unfold bind at 1. rewrite Hrun.
  exists e, st2. split; [reflexivity | congruence].
Qed.

(** What the date block does when the window and the date are there. *)
Lemma date_validation_window (st : store) (s e : date) (v : value) :
  dict_get "invoice_date" (invoice st) = Some v ->
  date_validation (Some s) (Some e) st =
  (Ok tt,
   Store (invoice st)
         (match parse_invoice_date v with
          | Some d =>
              if date_leb s d && date_leb d e then issues st
              else issues st ++ [date_outside_warning]
          | None => issues st ++ [date_unparseable_warning]
          end)
         (trace st ++ [Strptime v])).
Proof.
  intros Hget. unfold date_validation, bind at 1, get_invoice.
  rewrite Hget. unfold bind, log.
  destruct (parse_invoice_date v) as [d|]; [|reflexivity].
  destruct (date_leb s d && date_leb d e); reflexivity.
Qed.

Lemma grows_ret {A} (a : A) : grows (ret a).
Proof. intros st o st' H. inversion H. exists []. now rewrite app_nil_r. Qed.

Lemma grows_raise {A} (e : string) : grows (@raise A e).
Proof. intros st o st' H. inversion H. exists []. now rewrite app_nil_r. Qed.

Lemma grows_bind {A B} (m : step A) (k : A -> step B) :
  grows m -> (forall a, grows (k a)) -> grows (bind m k).
Proof.
  intros Hm Hk st o st' H. unfold bind in H.
  destruct (m st) as [[a|e] st1] eqn:E.
  - destruct (Hm _ _ _ E) as [t1 H1]. destruct (Hk a _ _ _ H) as [t2 H2].
    exists (t1 ++ t2). now rewrite H2, H1, app_assoc.
  - inversion H; subst. exact (Hm _ _ _ E).
Qed.

Lemma grows_get_invoice : grows get_invoice.
Proof. intros st o st' H. inversion H. exists []. now rewrite app_nil_r. Qed.

Lemma grows_get_issues : grows get_issues.
Proof. intros st o st' H. inversion H. exists []. now rewrite app_nil_r. Qed.

Lemma grows_append_issue (w : string) : grows (append_issue w).
Proof. intros st o st' H. inversion H. exists []. simpl. now rewrite app_nil_r. Qed.

Lemma grows_set_invoice (k : string) (v : value) : grows (set_invoice k v).
Proof. intros st o st' H. inversion H. exists []. simpl. now rewrite app_nil_r. Qed.

Lemma grows_log (ev : event) : grows (log ev).
Proof. intros st o st' H. inversion H. now exists [ev]. Qed.

Create HintDb grows.
#[local] Hint Resolve grows_ret grows_raise grows_get_invoice grows_get_issues
  grows_append_issue grows_set_invoice grows_log : grows.

Lemma grows_price_loop (items : list line_item) :
  grows (price_loop format_number items).
Proof.
  induction items as [|item rest IH]; simpl; auto with grows.
  destruct (high_price item); [|exact IH].
  destruct (description item); auto with grows;
    apply grows_bind; auto with grows.
Qed.

Lemma grows_price_loop_strings (items : list string) :
  grows (price_loop_strings items).
Proof.
  induction items as [|item rest IH]; simpl; auto with grows.
  destruct (contains "unit_price" item); auto with grows.
Qed.

Lemma grows_assign_column {A} (items : list line_item) (values : list A) :
  grows (assign_column items values).
Proof.
  unfold assign_column.
  destruct (List.length values =? List.length items)%nat; auto with grows.
Qed.

Lemma grows_anomaly_detection_on (held : list (option cell))
  (items : list line_item) :
  grows (anomaly_detection_on fitted fit decision_function predict
           held items).
Proof.
  unfold anomaly_detection_on.
  destruct (has_column unit_price items && has_column quantity items);
    auto with grows.
  destruct (numeric_rows items) as [|r rows]; auto with grows.
  apply grows_bind; auto with grows. intros _.
  destruct (fit (r :: rows)) as [model|e]; auto with grows.
  apply grows_bind; [apply grows_assign_column|]. intros _.
  apply grows_bind; [apply grows_assign_column|]. intros _.
  destruct (anomalous_rows _ _ _ _); auto with grows.
  apply grows_bind; auto with grows.
Qed.

Lemma grows_anomaly_detection (items : list line_item) :
  grows (detect items).
Proof. apply grows_anomaly_detection_on. Qed.

Lemma grows_line_item_analysis : grows line_items_step.
Proof.
  unfold line_item_analysis.
  apply grows_bind; auto with grows. intros inv.
  destruct (dict_get "line_items" inv) as [v|]; auto with grows.
  destruct (truthy v); auto with grows.
  destruct v; auto with grows.
  - apply grows_bind; [apply grows_price_loop|].
    intros _. apply grows_anomaly_detection.
  - apply grows_bind; [apply grows_price_loop|].
    intros _. apply grows_anomaly_detection_on.
  - apply grows_price_loop_strings.
Qed.

Lemma adds_ret {A} (a : A) : adds (ret a).
Proof.
  intros st o st' H. inversion H. exists []. now rewrite app_nil_r.
Qed.

Lemma adds_raise {A} (e : string) : adds (@raise A e).
Proof.
  intros st o st' H. inversion H. exists []. now rewrite app_nil_r.
Qed.

Lemma adds_bind {A B} (m : step A) (k : A -> step B) :
  adds m -> (forall a, adds (k a)) -> adds (bind m k).
Proof.
  intros Hm Hk st o st' H. unfold bind in H.
  destruct (m st) as [[a|e] st1] eqn:E.
  - destruct (Hm _ _ _ E) as (a1 & H1 & F1).
    destruct (Hk a _ _ _ H) as (a2 & H2 & F2).
    exists (a1 ++ a2). split; [now rewrite H2, H1, app_assoc|].
    apply Forall_app. auto.
  - inversion H; subst. exact (Hm _ _ _ E).
Qed.

Lemma adds_get_invoice : adds get_invoice.
Proof.
  intros st o st' H. inversion H. exists []. now rewrite app_nil_r.
Qed.

Lemma adds_set_invoice (k : string) (v : value) : adds (set_invoice k v).
Proof.
  intros st o st' H. inversion H. exists []. simpl. now rewrite app_nil_r.
Qed.

Lemma adds_log (ev : event) : adds (log ev).
Proof.
  intros st o st' H. inversion H. exists []. simpl. now rewrite app_nil_r.
Qed.

Lemma adds_append_issue (w : string) : date_free w -> adds (append_issue w).
Proof.
  intros Hw st o st' H. inversion H. exists [w]. simpl. auto.
Qed.

Lemma date_free_high_price (tail : string) :
  date_free ("High unit price detected: " ++ tail).
Proof. split; discriminate. Qed.

Lemma date_free_anomaly : date_free anomaly_warning.
Proof. split; discriminate. Qed.

#[local] Hint Resolve adds_ret adds_raise adds_get_invoice adds_set_invoice
  adds_log adds_append_issue date_free_high_price date_free_anomaly : grows.

Lemma adds_price_loop (items : list line_item) :
  adds (price_loop format_number items).
Proof.
  induction items as [|item rest IH]; cbn [price_loop]; auto with grows.
  destruct (high_price item); [|exact IH].
  destruct (description item); auto with grows;
    apply adds_bind; auto with grows.
Qed.

Lemma adds_price_loop_strings (items : list string) :
  adds (price_loop_strings items).
Proof.
  induction items as [|item rest IH]; simpl; auto with grows.
  destruct (contains "unit_price" item); auto with grows.
Qed.

Lemma adds_assign_column {A} (items : list line_item) (values : list A) :
  adds (assign_column items values).
Proof.
  unfold assign_column.
  destruct (List.length values =? List.length items)%nat; auto with grows.
Qed.

Lemma adds_anomaly_detection_on (held : list (option cell))
  (items : list line_item) :
  adds (anomaly_detection_on fitted fit decision_function predict
          held items).
Proof.
  unfold anomaly_detection_on.
  destruct (has_column unit_price items && has_column quantity items);
    auto with grows.
  destruct (numeric_rows items) as [|r rows]; auto with grows.
  apply adds_bind; auto with grows. intros _.
  destruct (fit (r :: rows)) as [model|e]; auto with grows.
  apply adds_bind; [apply adds_assign_column|]. intros _.
  apply adds_bind; [apply adds_assign_column|]. intros _.
  destruct (anomalous_rows _ _ _ _); auto with grows.
  apply adds_bind; auto with grows.
Qed.

Lemma adds_anomaly_detection (items : list line_item) : adds (detect items).
Proof. apply adds_anomaly_detection_on. Qed.

Lemma adds_line_item_analysis : adds line_items_step.
Proof.
  unfold line_item_analysis.
  apply adds_bind; auto with grows. intros inv.
  destruct (dict_get "line_items" inv) as [v|]; auto with grows.
  destruct (truthy v); auto with grows.
  destruct v; auto with grows.
  - apply adds_bind; [apply adds_price_loop|].
    intros _. apply adds_anomaly_detection.
  - apply adds_bind; [apply adds_price_loop|].
    intros _. apply adds_anomaly_detection_on.
  - apply adds_price_loop_strings.
Qed.

(** Whenever the call returns on a record with the six fields and a
    contract window, the warnings it collected say about the date what
    the date block found: the contract-period warning exactly for a date
    parsed outside the window, the format warning exactly for a date that
    does not parse; and collected warnings are bound to [warnings] in the
    invoice the result carries. *)
Lemma date_findings_when_returning (inv : dict) (s e : date) (v : value)
  (r : analysis) (st : store) :
  missing_fields inv = [] ->
  dict_get "invoice_date" inv = Some v ->
  analyze inv (Some s) (Some e) = (Ok r, st) ->
  (In date_outside_warning (issues st) <->
   exists d, parse_invoice_date v = Some d
             /\ date_leb s d && date_leb d e = false)
  /\ (In date_unparseable_warning (issues st) <->
      parse_invoice_date v = None)
  /\ (issues st <> [] ->
      a_status r = "warning"
      /\ a_invoice r = Some (invoice st)
      /\ dict_get "warnings" (invoice st) = Some (VStrs (issues st))).
Proof.
  intros Hmiss Hv Hrun.
  rewrite analyze_unfold, Hmiss in Hrun.
  destruct inv as [|kv inv']; [discriminate Hv|].
  unfold analysis_proper, bind at 1 in Hrun.
  rewrite (date_validation_window (Store (kv :: inv') [] []) s e v Hv)
    in Hrun.
  cbn [invoice issues trace app] in Hrun.
  unfold bind at 1 in Hrun.
  match type of Hrun with
  | context [line_item_analysis ?a ?b ?c ?d ?f ?st1] =>
      destruct (line_item_analysis a b c d f st1) as [[[]|err] st2] eqn:E;
      [destruct (adds_line_item_analysis _ _ _ E) as (added & Hadd & Hfree)
      |discriminate Hrun]
  end.
  cbn [issues] in Hadd.
  assert (Hno1 : ~ In date_outside_warning added).
  { intros Hin. rewrite Forall_forall in Hfree.
    destruct (Hfree _ Hin) as [H1 _]. now apply H1. }
  assert (Hno2 : ~ In date_unparseable_warning added).
  { intros Hin. rewrite Forall_forall in Hfree.
    destruct (Hfree _ Hin) as [_ H2]. now apply H2. }
  assert (Hiss : issues st = issues st2
                 /\ (issues st <> [] ->
                     a_status r = "warning"
                     /\ a_invoice r = Some (invoice st)
                     /\ dict_get "warnings" (invoice st)
                        = Some (VStrs (issues st)))).
  { unfold bind at 1, get_issues in Hrun.
    destruct (issues st2) as [|w ws] eqn:E2;
      unfold bind, get_invoice, set_invoice, ret in Hrun;
      inversion Hrun; subst; cbn [issues invoice a_status a_invoice].
    - rewrite E2. split; [reflexivity | intros Hne; now contradiction Hne].
    - rewrite E2. split; [reflexivity|]. intros _.
      repeat split. apply dict_get_set_same. }
  destruct Hiss as [Heq Hwarn]. rewrite Heq, Hadd.
  split; [|split; [|now rewrite <- Hadd, <- Heq]].
  - rewrite in_app_iff.
    destruct (parse_invoice_date v) as [d|].
    + destruct (date_leb s d && date_leb d e) eqn:Ew.
      * split; [intros [[]|H]; contradiction|].
        intros (d' & Hd' & Hout). inversion Hd'; subst. congruence.
      * split; [intros _; now exists d | intros _; left; now left].
    + split; [|intros (d' & Hd' & _); discriminate].
      intros [[H|[]]|H]; [discriminate H | contradiction].
  - rewrite in_app_iff.
    destruct (parse_invoice_date v) as [d|].
    + split; [|discriminate].
      destruct (date_leb s d && date_leb d e).
      * intros [[]|H]; contradiction.
      * intros [[H|[]]|H]; [discriminate H | contradiction].
    + split; [reflexivity | intros _; left; now left].
Qed.

(** The remainder of the method ends in one of its two last returns. *)
Lemma analysis_proper_messages (cs ce : option date) (st st' : store)
  (r : analysis) :
  proper cs ce st = (Ok r, st') ->
  a_message r = "Analysis completed with warnings"
  \/ a_message r = "No issues detected".
Proof.
  unfold analysis_proper, bind at 1.
  destruct (date_validation cs ce st) as [[[]|e] st1]; [|discriminate].
  unfold bind at 1.
  destruct (line_item_analysis _ _ _ _ _ st1) as [[[]|e] st2];
    [|discriminate].
  unfold bind at 1, get_issues.
  destruct (issues st2) as [|w ws]; unfold bind, get_invoice, set_invoice, ret;
    intros H; inversion H; subst; simpl; auto.
Qed.

(** C2, as amended: a record that lacks one of the six required fields
    is answered at once, with [status = warning] and the message that
    lists the missing names when the record has some key, and with
    [status = error] when it is the empty record; either way the store is
    the caller's invoice unchanged, with no warning collected and no
    library call made (no date parsed, no forest fitted). *)
Theorem missing_field_short_circuit (inv : dict) (cs ce : option date)
  (f : string) :
  In f required_fields ->
  dict_has f inv = false ->
  analyze inv cs ce =
    (Ok match inv with
        | [] => Analysis "error" "Invalid invoice data" None
        | _ :: _ =>
            Analysis "warning"
              ("Missing required fields: " ++ join ", " (missing_fields inv))
              (Some inv)
        end,
     Store inv [] [])
  /\ (forall g, In g (missing_fields inv) <->
                 In g required_fields /\ dict_has g inv = false).
Proof.
  intros Hf Hhas. split.
  - rewrite analyze_unfold.
    destruct inv as [|kv inv']; [reflexivity|].
    pose proof (missing_fields_some (kv :: inv') f Hf Hhas) as Hne.
    destruct (missing_fields (kv :: inv')); [contradiction | reflexivity].
  - intros g. unfold missing_fields. rewrite filter_In.
    split; intros [Hg Hb]; split; try exact Hg.
    + now destruct (dict_has g inv).
    + now rewrite Hb.
Qed.

(** C10: the required-field check looks at keys only.  When the six keys
    are bound, to whatever values, nothing is reported missing, the call
    is the date block followed by the line-item block and the final
    return, its message is never the missing-field one, and with a
    contract window the invoice date is handed to [strptime] first. *)
Theorem required_check_is_membership (inv : dict) (cs ce : option date) :
  (forall f, In f required_fields -> dict_has f inv = true) ->
  missing_fields inv = []
  /\ analyze inv cs ce = proper cs ce (Store inv [] [])
  /\ (forall r st, analyze inv cs ce = (Ok r, st) ->
        a_message r = "Analysis completed with warnings"
        \/ a_message r = "No issues detected")
  /\ (forall s e, cs = Some s -> ce = Some e ->
        exists v rest,
          dict_get "invoice_date" inv = Some v
          /\ trace (snd (analyze inv cs ce)) = Strptime v :: rest).
Proof.
  intros Hall.
  assert (Hmiss : missing_fields inv = []) by now apply missing_fields_nil.
  assert (Hrun : analyze inv cs ce = proper cs ce (Store inv [] [])).
  { rewrite analyze_unfold, Hmiss.
    destruct inv as [|kv inv']; [|reflexivity].
    specialize (Hall "invoice_number" (or_introl eq_refl)). discriminate. }
  split; [exact Hmiss|]. split; [exact Hrun|]. split.
  - intros r st H. rewrite Hrun in H.
    exact (analysis_proper_messages _ _ _ _ _ H).
  - intros s e -> ->.
    assert (Hdate : dict_has "invoice_date" inv = true)
      by (apply Hall; simpl; tauto).
    apply dict_has_get in Hdate. destruct Hdate as [v Hv].
    exists v. rewrite Hrun. unfold analysis_proper, bind at 1.
    rewrite (date_validation_window (Store inv [] []) s e v Hv).
    cbn [invoice issues trace app].
    match goal with
    | |- context [bind ?m ?k ?st] =>
        destruct (bind m k st) as [o st'] eqn:E;
        assert (G : grows (bind m k))
    end.
    { apply grows_bind; [apply grows_line_item_analysis|]. intros _.
      apply grows_bind; auto with grows. intros found.
      destruct found; apply grows_bind; auto with grows.
      intros _. apply grows_bind; auto with grows. }
    destruct (G _ _ _ E) as [t Ht]. exists t.
    split; [exact Hv | exact Ht].
Qed.

(** C1: on an invoice with the six fields whose third line item has
    [unit_price = None] (an unmatched item of the heuristic extractor),
    the call does not return a result: assigning the scores of the two
    fitted rows to the three-row frame raises, whatever the forest and
    the contract window.  The line items stay in the invoice. *)
Theorem analyzer_raises_on_unmatched_price (cs ce : option date) :
  exists e st,
    analyze (Inputs.invoice_with_unmatched_price "09/06/2012") cs ce
    = (Raise e, st)
    /\ dict_get "line_items" (invoice st)
       = Some (VItems Inputs.unmatched_items).
Proof.
  destruct (analyze_raises_on_partial_prices
              (Inputs.invoice_with_unmatched_price "09/06/2012")
              Inputs.unmatched_items cs ce)
    as (e & st & Hrun & Hinv); try reflexivity; try discriminate.
  exists e, st. split; [exact Hrun|]. now rewrite Hinv.
Qed.

(** C6: with the window 2023-01-01 .. 2023-12-31 and the invoice date
    02/15/2024, an invoice with the six fields and a partly priced item
    list gets no result at all: the call raises after the date block, and
    the warning about the contract period, though collected, never
    reaches the record, which is left without a [warnings] key. *)
Theorem date_warning_lost_on_unmatched_price :
  exists e st,
    analyze (Inputs.invoice_with_unmatched_price "02/15/2024")
            (Some Inputs.contract_start_2023) (Some Inputs.contract_end_2023)
    = (Raise e, st)
    /\ In date_outside_warning (issues st)
    /\ dict_has "warnings" (invoice st) = false.
Proof.
  rewrite analyze_unfold.
  change (missing_fields (Inputs.invoice_with_unmatched_price "02/15/2024"))
    with (@nil string).
  cbn [Inputs.invoice_with_unmatched_price Inputs.six_fields app].
  unfold analysis_proper, bind at 1.
  rewrite date_validation_window with (v := VStr "02/15/2024")
    by reflexivity.
  match goal with
  | |- context [bind line_items_step ?k ?s] =>
      destruct (line_items_raise_on_partial_prices Inputs.unmatched_items s)
        as (e & st & Hrun & Hinv & Hiss);
      try reflexivity; try discriminate;
      unfold bind at 1; rewrite Hrun
  end.
  exists e, st. split; [reflexivity|]. split.
  - apply Hiss. vm_compute. now left.
  - rewrite Hinv. reflexivity.
Qed.

(** The record the heuristic extractor makes of the sample text has the
    six fields and a third item without price: the analyzer raises on
    it. *)
Lemma extracted_invoice_raises (cs ce : option date) :
  dict_get "line_items"
    (DocumentProcessor.extract_invoice_data Inputs.sample_invoice_text)
  = Some (VItems Inputs.sample_invoice_items)
  /\ exists e st,
       analyze
         (DocumentProcessor.extract_invoice_data Inputs.sample_invoice_text)
         cs ce
       = (Raise e, st).
Proof.
  split; [reflexivity|].
  destruct (analyze_raises_on_partial_prices
              (DocumentProcessor.extract_invoice_data
                 Inputs.sample_invoice_text)
              Inputs.sample_invoice_items cs ce)
    as (e & st & H & _);
    [reflexivity | reflexivity | reflexivity | reflexivity | discriminate
    | discriminate | eauto].
Qed.

(** The date block end to end, on records without line items: inside
    the window no warning, outside it the contract-period warning, and an
    ISO date is not month/day/year. *)
Example date_inside_window :
  analyze (Inputs.six_fields "02/15/2023")
          (Some Inputs.contract_start_2023) (Some Inputs.contract_end_2023)
  = (Ok (Analysis "success" "No issues detected"
           (Some (Inputs.six_fields "02/15/2023"))),
     Store (Inputs.six_fields "02/15/2023") []
           [Strptime (VStr "02/15/2023")]).
Proof. reflexivity. Qed.

Example date_outside_window :
  analyze (Inputs.six_fields "02/15/2024")
          (Some Inputs.contract_start_2023) (Some Inputs.contract_end_2023)
  = (Ok (Analysis "warning" "Analysis completed with warnings"
           (Some (Inputs.six_fields "02/15/2024"
                  ++ [("warnings", VStrs [date_outside_warning])]))),
     Store (Inputs.six_fields "02/15/2024"
            ++ [("warnings", VStrs [date_outside_warning])])
           [date_outside_warning]
           [Strptime (VStr "02/15/2024")]).
Proof. reflexivity. Qed.

Example date_unparseable :
  analyze (Inputs.six_fields "2023-02-15")
          (Some Inputs.contract_start_2023) (Some Inputs.contract_end_2023)
  = (Ok (Analysis "warning" "Analysis completed with warnings"
           (Some (Inputs.six_fields "2023-02-15"
                  ++ [("warnings", VStrs [date_unparseable_warning])]))),
     Store (Inputs.six_fields "2023-02-15"
            ++ [("warnings", VStrs [date_unparseable_warning])])
           [date_unparseable_warning]
           [Strptime (VStr "2023-02-15")]).
Proof. reflexivity. Qed.

End WithForest.

(** C2, the claim as written, fails: the empty record lacks all six
    fields and is answered with [status = error]. *)
Lemma missing_field_counterexample :
  In "invoice_number" required_fields
  /\ dict_has "invoice_number" [] = false
  /\ fst (analyze_invoice_for_fraud unit Inputs.fit_any Inputs.score_zero
             Inputs.label_by_price Inputs.format_plain [] None None)
     = Ok (Analysis "error" "Invalid invoice data" None)
  /\ "error" <> "warning".
Proof.
  split; [now left|]. split; [reflexivity|]. split; [reflexivity|].
  discriminate.
Qed.

Lemma missing_field_short_circuit_witness :
  analyze_invoice_for_fraud unit Inputs.fit_any Inputs.score_zero
    Inputs.label_by_price Inputs.format_plain
    [("invoice_number", VStr "61356291")] None None
  = (Ok (Analysis "warning"
           "Missing required fields: supplier_name, invoice_date, tax_id, bank_account, total_amount"
           (Some [("invoice_number", VStr "61356291")])),
     Store [("invoice_number", VStr "61356291")] [] []).
Proof.
  apply (missing_field_short_circuit unit Inputs.fit_any Inputs.score_zero
           Inputs.label_by_price Inputs.format_plain
           [("invoice_number", VStr "61356291")] None None "tax_id").
  - simpl. tauto.
  - reflexivity.
Defined.

Lemma required_check_is_membership_witness :
  missing_fields Inputs.falsy_fields = []
  /\ analyze_invoice_for_fraud unit Inputs.fit_any Inputs.score_zero
       Inputs.label_by_price Inputs.format_plain Inputs.falsy_fields
       (Some Inputs.contract_start_2023) (Some Inputs.contract_end_2023)
     = analysis_proper unit Inputs.fit_any Inputs.score_zero
         Inputs.label_by_price Inputs.format_plain
         (Some Inputs.contract_start_2023) (Some Inputs.contract_end_2023)
         (Store Inputs.falsy_fields [] []).
Proof.
  destruct (required_check_is_membership unit Inputs.fit_any
              Inputs.score_zero Inputs.label_by_price Inputs.format_plain
              Inputs.falsy_fields
              (Some Inputs.contract_start_2023)
              (Some Inputs.contract_end_2023)) as (H1 & H2 & _).
  - intros f Hf. simpl in Hf.
    repeat (destruct Hf as [<-|Hf]; [reflexivity|]). destruct Hf.
  - split; [exact H1 | exact H2].
Defined.

End AnalyzerFacts.

(* ================================================================== *)
(** ** Text acquisition *)
(* ================================================================== *)

Module ProcessorFacts.
Import PyStr Re Py DocumentProcessor DictFacts ReFacts ExtractorFacts.

Lemma is_empty_false (s : string) : is_empty s = false <-> s <> EmptyString.
Proof.
  destruct s; simpl; split; intros H; try discriminate; try reflexivity.
  now contradiction H.
Qed.


Section WithLibrary.

Context {image json : Type}.
Variable lib : library image json.


Lemma method_process_image_ocr (u : upload) :
  method (process_image_ocr lib u) = Some "ocr".
Proof.
  unfold process_image_ocr, obind.
  destruct (image_open lib (getvalue u)); [|reflexivity].
  destruct (image_to_string lib a); reflexivity.
Qed.

Lemma method_process_pdf (u : upload) :
  method (process_pdf lib u) = Some "text_extraction"
  \/ method (process_pdf lib u) = Some "ocr"
  \/ (method (process_pdf lib u) = Some "pdf_processing"
      /\ status (process_pdf lib u) = "error").
Proof.
  unfold process_pdf, obind.
  destruct (pdf_page_texts lib (getvalue u)) as [pages|e]; [|auto].
  destruct (is_empty (strip (join newline pages))); [|auto].
  destruct (convert_from_bytes lib (getvalue u)) as [[|first images]|e]; auto.
  destruct (image_to_string lib first); auto.
Qed.

Lemma status_process_pdf_error (u : upload) :
  status (process_pdf lib u) = "error" ->
  method (process_pdf lib u) = Some "pdf_processing".
Proof.
  unfold process_pdf, obind.
  destruct (pdf_page_texts lib (getvalue u)) as [pages|e]; [|reflexivity].
  destruct (is_empty (strip (join newline pages))); [|discriminate].
  destruct (convert_from_bytes lib (getvalue u)) as [[|first images]|e];
    try reflexivity.
  destruct (image_to_string lib first); [discriminate | reflexivity].
Qed.

Lemma method_process_with_markitdown (u : upload) :
  method (process_with_markitdown lib u) = Some "markitdown".
Proof.
  unfold process_with_markitdown, obind.
  destruct (MARKITDOWN_AVAILABLE lib); [|reflexivity]. simpl.
  destruct (markitdown_convert lib u) as [md|e]; [|reflexivity].
  destruct (is_empty (deepseek_api_key lib)).
  - destruct (rmtree lib); reflexivity.
  - destruct (_extract_with_ai lib (deepseek_api_key lib) md);
      [|reflexivity].
    destruct (rmtree lib); reflexivity.
Qed.

(** C3, as amended: a result of [process_document] that carries a
    method carries one of [ocr], [text_extraction], [pdf_processing] and
    [markitdown]; the error result of the PDF path is tagged
    [pdf_processing], and every result of the conversion path, the error
    results too, is tagged [markitdown]. *)
Theorem method_tags (uploaded_file : option upload) (m : string) :
  method (process_document lib uploaded_file) = Some m ->
  In m ["ocr"; "text_extraction"; "pdf_processing"; "markitdown"]
  /\ (forall u, status (process_pdf lib u) = "error" ->
                 method (process_pdf lib u) = Some "pdf_processing")
  /\ (forall u, method (process_with_markitdown lib u) = Some "markitdown").
Proof.
  intros H. split; [|split].
  - unfold process_document in H.
    destruct uploaded_file as [u|]; [|discriminate].
    destruct (existsb _ image_extensions).
    + rewrite method_process_image_ocr in H. inversion H. simpl. tauto.
    + destruct (String.eqb _ "pdf").
      * destruct (method_process_pdf u) as [E|[E|[E _]]];
          rewrite E in H; inversion H; simpl; tauto.
      * rewrite method_process_with_markitdown in H. inversion H.
        simpl. tauto.
  - exact status_process_pdf_error.
  - exact method_process_with_markitdown.
Qed.

(** C4, as amended: when the text layer of a PDF is not blank (not empty
    once stripped of white space), [process_pdf] succeeds with
    [method = text_extraction] on that text, whatever the OCR libraries
    would do; and a result tagged [ocr] only comes from a text layer that
    strips to the empty string, through a first page image that OCR
    read. *)
Theorem text_layer_before_ocr (u : upload) (pages : list string) :
  pdf_page_texts lib (getvalue u) = Ok pages ->
  (strip (join newline pages) <> EmptyString ->
   process_pdf lib u =
     Result "success" (Some "text_extraction") None
            (Some (join newline pages))
            (Some (Extracted (extract_invoice_data (join newline pages))))
            (Some (join newline pages)) None)
  /\ (method (process_pdf lib u) = Some "ocr" ->
      strip (join newline pages) = EmptyString
      /\ exists first images ocr_text,
           convert_from_bytes lib (getvalue u) = Ok (first :: images)
           /\ image_to_string lib first = Ok ocr_text
           /\ raw_text (process_pdf lib u) = Some ocr_text).
Proof.
  intros Hpages. unfold process_pdf, obind. rewrite Hpages. split.
  - intros Hne. apply is_empty_false in Hne. now rewrite Hne.
  - destruct (is_empty (strip (join newline pages))) eqn:E.
    + intros H. split; [now destruct (strip (join newline pages))|].
      destruct (convert_from_bytes lib (getvalue u))
        as [[|first images]|e]; try discriminate.
      destruct (image_to_string lib first) as [t|e] eqn:E2;
        [|discriminate].
      exists first, images, t. repeat split; solve [reflexivity | exact E2].
    + discriminate.
Qed.

End WithLibrary.

(** C3, the claim as written, fails: the error result of the PDF path
    carries a method outside the three tags. *)
Lemma method_tags_counterexample :
  method (process_document (Inputs.library_with_pages [])
            (Some (Upload "invoice.pdf" EmptyString)))
  = Some "pdf_processing"
  /\ ~ In "pdf_processing" ["ocr"; "text_extraction"; "markup_conversion"].
Proof.
  split; [reflexivity|].
  simpl. intros [H|[H|[H|[]]]]; discriminate.
Qed.

Lemma method_tags_witness :
  In "markitdown" ["ocr"; "text_extraction"; "pdf_processing"; "markitdown"].
Proof.
  apply (method_tags (Inputs.library_with_pages [])
           (Some (Upload "invoice.docx" "bytes")) "markitdown").
  reflexivity.
Defined.

(** C4, the claim as written, fails: two pages without text give the
    non-empty text ["\n"], and the method is [ocr]. *)
Lemma text_layer_counterexample :
  pdf_page_texts (Inputs.library_with_pages Inputs.blank_pages) "%PDF"
  = Ok Inputs.blank_pages
  /\ join newline Inputs.blank_pages = newline
  /\ newline <> EmptyString
  /\ method (process_pdf (Inputs.library_with_pages Inputs.blank_pages)
               (Upload "scan.pdf" "%PDF"))
     = Some "ocr".
Proof.
  split; [reflexivity|]. split; [reflexivity|].
  split; [discriminate | reflexivity].
Qed.

Lemma text_layer_before_ocr_witness :
  method (process_pdf (Inputs.library_with_pages ["Invoice no: 7"])
            (Upload "invoice.pdf" "%PDF"))
  = Some "text_extraction".
Proof.
  destruct (text_layer_before_ocr (Inputs.library_with_pages ["Invoice no: 7"])
              (Upload "invoice.pdf" "%PDF") ["Invoice no: 7"] eq_refl)
    as [H _].
  rewrite H; [reflexivity | discriminate].
Defined.



(** A text without any keyword or numbered line. *)
Example nothing_matched_example :
  extract_invoice_data "hello world" = [("line_items", VItems [])].
Proof. reflexivity. Qed.

(** C9: when the body of [extract_invoice_data] completes, the record
    it returns binds [line_items] to a list; the handler's record is the
    empty dict, the only one without the key. *)
Theorem line_items_always_present (text : string) :
  match extract_body text with
  | Some inv =>
      extract_invoice_data text = inv
      /\ exists items, dict_get "line_items" inv = Some (VItems items)
  | None =>
      extract_invoice_data text = []
      /\ dict_has "line_items" (extract_invoice_data text) = false
  end.
Proof.
  unfold extract_invoice_data.
  destruct (extract_body text) as [inv|] eqn:E; [|split; reflexivity].
  split; [reflexivity|].
  unfold extract_body, bind in E.
  destruct (field_loop (splitlines text) []) as [invoice|]; [|discriminate].
  destruct (item_loop (splitlines text) _) as [st|]; [|discriminate].
  inversion E. eexists. apply dict_get_set_same.
Qed.

End ProcessorFacts.

(* ================================================================== *)
(** ** More on the heuristic extractor *)
(* ================================================================== *)

Module ExtractorRecordFacts.
Import PyStr Re Py DocumentProcessor StrFacts ReFacts NumFacts DictFacts.
Import ExtractorFacts.

Ltac field_cases H :=
  unfold field_step, bind in H; cbv zeta in H;
  repeat match type of H with
         | context [if ?c then _ else _] => destruct c eqn:?
         | context [match ?o with Some _ => _ | None => _ end] =>
             destruct o eqn:?
         end;
  try discriminate; inversion H; subst; clear H.

Lemma dict_has_after_set (k k' : string) (v : value) (d : dict) :
  dict_has k (dict_set k' v d) = true -> k = k' \/ dict_has k d = true.
Proof.
  intros H. apply dict_has_get in H. destruct H as [x H].
  apply dict_get_after_set in H. destruct H as [[-> _]|[_ H]]; [now left|].
  right. apply dict_has_get. now exists x.
Qed.

Lemma field_step_keys (line : string) (following : list string)
  (inv inv' : dict) (k : string) :
  field_step line following inv = Some inv' ->
  dict_has k inv' = true ->
  dict_has k inv = true \/ In k extractor_keys.
Proof.
  intros H Hk. field_cases H; try (left; exact Hk);
    apply dict_has_after_set in Hk;
    (destruct Hk as [->|Hk]; [right; simpl; tauto | left; exact Hk]).
Qed.

Lemma field_loop_keys (lines : list string) :
  forall (inv inv' : dict) (k : string),
  field_loop lines inv = Some inv' ->
  dict_has k inv' = true ->
  dict_has k inv = true \/ In k extractor_keys.
Proof.
  induction lines as [|line following IH]; intros inv inv' k H Hk.
  - inversion H; subst. now left.
  - cbn [field_loop] in H. unfold bind in H.
    destruct (field_step line following inv) as [inv1|] eqn:E; [|discriminate].
    destruct (IH inv1 inv' k H Hk) as [H1|H1]; [|now right].
    exact (field_step_keys _ _ _ _ _ E H1).
Qed.

(** The record of the heuristic extractor binds no key outside its nine:
    the eight field names and [line_items]. *)
Theorem extracted_keys (text k : string) :
  dict_has k (extract_invoice_data text) = true -> In k extractor_keys.
Proof.
  unfold extract_invoice_data, extract_body, bind.
  destruct (field_loop (splitlines text) []) as [invoice|] eqn:E;
    [|discriminate].
  destruct (item_loop (splitlines text) _) as [st|]; [|discriminate].
  intros H.
  apply dict_has_after_set in H. destruct H as [->|H]; [simpl; tauto|].
  apply dict_has_after_set in H. destruct H as [->|H]; [simpl; tauto|].
  destruct (field_loop_keys _ _ _ _ E H) as [H1|H1];
    [discriminate H1 | exact H1].
Qed.

Lemma extracted_keys_witness : In "tax_id" extractor_keys.
Proof.
  apply (extracted_keys Inputs.sample_invoice_text "tax_id"). reflexivity.
Defined.

Lemma field_step_keeps_tax_id (line : string) (following : list string)
  (inv inv' : dict) (v : value) :
  dict_get "tax_id" inv = Some v ->
  field_step line following inv = Some inv' ->
  dict_get "tax_id" inv' = Some v.
Proof.
  intros Hv H.
  assert (Hhas : dict_has "tax_id" inv = true)
    by (apply dict_has_get; now exists v).
  field_cases H; try exact Hv;
    try (rewrite dict_get_set_other by discriminate; exact Hv).
  all: match goal with
       | Hc : _ && negb (dict_has "tax_id" ?d) = true,
         Hd : dict_has "tax_id" ?d = true |- _ =>
           rewrite Hd, andb_false_r in Hc; discriminate Hc
       end.
Qed.

(** Once [tax_id] is bound, no later line of the field loop rebinds it:
    the first line with a match wins. *)
Theorem tax_id_first_match_wins (lines : list string) :
  forall (inv inv' : dict) (v : value),
  dict_get "tax_id" inv = Some v ->
  field_loop lines inv = Some inv' ->
  dict_get "tax_id" inv' = Some v.
Proof.
  induction lines as [|line following IH]; intros inv inv' v Hv H.
  - inversion H; subst. exact Hv.
  - cbn [field_loop] in H. unfold bind in H.
    destruct (field_step line following inv) as [inv1|] eqn:E; [|discriminate].
    exact (IH _ _ _ (field_step_keeps_tax_id _ _ _ _ _ Hv E) H).
Qed.

Lemma tax_id_first_match_wins_witness :
  dict_get "tax_id"
    [("tax_id", VStr "949-84-9105"); ("invoice_number", VStr "111")]
  = Some (VStr "949-84-9105").
Proof.
  apply (tax_id_first_match_wins
           ["Tax Id: 222-33"; "invoice no 111"; "tax id 444"]
           [("tax_id", VStr "949-84-9105")]
           [("tax_id", VStr "949-84-9105"); ("invoice_number", VStr "111")]
           (VStr "949-84-9105")).
  - reflexivity.
  - reflexivity.
Defined.

Lemma scan_date_sound (following : list string) (m : mobj) :
  scan_date following = Some m -> exists s, search date_re s = Some m.
Proof.
  induction following as [|l rest IH]; cbn [scan_date]; [discriminate|].
  cbv zeta.
  match goal with
  | |- context [existsb ?f date_stop_keywords] =>
      destruct (existsb f date_stop_keywords); [exact IH|]
  end.
  destruct (search date_re (strip l)) eqn:E; [|exact IH].
  intros H. inversion H; subst. eauto.
Qed.

Lemma date_match_shape (s : string) (m : mobj) :
  search date_re s = Some m ->
  group_value 1 m = VStr (whole m)
  /\ parses date_re (whole m) [(1%nat, whole m)].
Proof.
  intros H. apply search_sound in H. unfold date_re in H |- *.
  cbn [parses] in H. destruct H as (g' & Hp & Hg).
  assert (Hnil : g' = []).
  { pose proof Hp as Hp'. cbn [seq parses between exactly] in Hp'.
    break_parse; reflexivity. }
  subst g'. split.
  - unfold group_value, group. rewrite Hg. reflexivity.
  - cbn [parses]. exists []. split; [exact Hp | reflexivity].
Qed.

Lemma tax_match_shape (s : string) (m : mobj) :
  search tax_re s = Some m ->
  whole m <> EmptyString /\ forallb_str digit_or_hyphen (whole m) = true.
Proof.
  intros H. apply search_sound in H. unfold tax_re, plus in H.
  cbn [parses] in H. destruct H as (Hall & Hlen & _).
  split; [|exact Hall]. intros E. rewrite E in Hlen. simpl in Hlen. lia.
Qed.

Lemma iban_match_shape (s : string) (m : mobj) :
  search iban_re s = Some m ->
  parses iban_re (whole m) [] /\ (14 <= String.length (whole m) <= 34)%nat.
Proof.
  intros H. apply search_sound in H.
  assert (Hnil : groups m = []).
  { pose proof H as H'. unfold iban_re in H'.
    cbn [seq parses between exactly] in H'. break_parse.
    match goal with Hg : groups m = _ |- _ => rewrite Hg end. reflexivity. }
  rewrite Hnil in H. split; [exact H|].
  unfold iban_re in H. cbn [seq parses between exactly] in H.
  destruct H as (a & bc & ga & gbc & -> & _ & (_ & Ha1 & Ha2 & _)
                 & (b & c & gb & gc & -> & _ & (_ & Hb1 & Hb2 & _)
                    & (_ & Hc1 & Hc2 & _))).
  rewrite !length_append. lia.
Qed.

Lemma get_next_nonempty_shape (following : list string) :
  get_next_nonempty following = EmptyString
  \/ exists l, get_next_nonempty following = strip l
               /\ get_next_nonempty following <> EmptyString.
Proof.
  induction following as [|l rest IH]; simpl; [now left|].
  destruct (strip l) eqn:E; simpl; [exact IH|].
  right. exists l. rewrite E. split; [reflexivity | discriminate].
Qed.

Lemma field_step_shapes (line : string) (following : list string)
  (inv inv' : dict) (k : string) (v : value) :
  field_step line following inv = Some inv' ->
  In k shaped_keys ->
  dict_get k inv' = Some v ->
  dict_get k inv = Some v \/ field_shape k v.
Proof.
  intros H Hk Hget.
  field_cases H; try (left; exact Hget);
    apply dict_get_after_set in Hget;
    (destruct Hget as [[-> ->]|[_ Hget]]; [right | left; exact Hget]);
    try (exfalso; simpl in Hk; intuition discriminate).
  - apply shape_supplier. apply get_next_nonempty_shape.
  - match goal with
    | Hm : match search date_re ?t with _ => _ end = Some ?m |- _ =>
        assert (Hs : exists s, search date_re s = Some m)
          by (destruct (search date_re t) eqn:E;
              [inversion Hm; subst; eauto | exact (scan_date_sound _ _ Hm)])
    end.
    destruct Hs as [s Hs]. destruct (date_match_shape _ _ Hs) as [-> Hp].
    apply shape_date; [simpl; tauto | exact Hp].
  - match goal with
    | Hs : search date_re _ = Some _ |- _ =>
        destruct (date_match_shape _ _ Hs) as [-> Hp]
    end.
    apply shape_date; [simpl; tauto | exact Hp].
  - match goal with
    | Hs : search date_re _ = Some _ |- _ =>
        destruct (date_match_shape _ _ Hs) as [-> Hp]
    end.
    apply shape_date; [simpl; tauto | exact Hp].
  - match goal with
    | Hs : search tax_re _ = Some _ |- _ =>
        destruct (tax_match_shape _ _ Hs) as [Hne Hall]
    end.
    now apply shape_tax.
  - match goal with
    | Hs : search iban_re _ = Some _ |- _ =>
        destruct (iban_match_shape _ _ Hs) as [Hp Hlen]
    end.
    now apply shape_bank.
Qed.

Lemma field_loop_shapes (lines : list string) :
  forall (inv inv' : dict) (k : string) (v : value),
  field_loop lines inv = Some inv' ->
  In k shaped_keys ->
  dict_get k inv' = Some v ->
  dict_get k inv = Some v \/ field_shape k v.
Proof.
  induction lines as [|line following IH]; intros inv inv' k v H Hk Hget.
  - inversion H; subst. now left.
  - cbn [field_loop] in H. unfold bind in H.
    destruct (field_step line following inv) as [inv1|] eqn:E; [|discriminate].
    destruct (IH inv1 inv' k v H Hk Hget) as [H1|H1]; [|now right].
    exact (field_step_shapes _ _ _ _ _ _ E Hk H1).
Qed.

(** The string fields of the returned record have the shape of their
    pattern: the supplier is a stripped line, a date is a whole match of
    the date pattern, the tax id is made of digits and hyphens, the bank
    account is a whole match of the IBAN pattern of 14 to 34
    characters. *)
Theorem extracted_field_shapes (text k : string) (v : value) :
  In k shaped_keys ->
  dict_get k (extract_invoice_data text) = Some v ->
  field_shape k v.
Proof.
  intros Hk. unfold extract_invoice_data, extract_body, bind.
  destruct (field_loop (splitlines text) []) as [invoice|] eqn:E;
    [|discriminate].
  destruct (item_loop (splitlines text) _) as [st|]; [|discriminate].
  intros H.
  rewrite !dict_get_set_other in H
    by (intros <-; simpl in Hk; intuition discriminate).
  destruct (field_loop_shapes _ _ _ _ _ E Hk H) as [H1|H1];
    [discriminate H1 | exact H1].
Qed.

Lemma extracted_field_shapes_witness :
  field_shape "bank_account" (VStr "GB50ACIE59715038217063").
Proof.
  apply (extracted_field_shapes Inputs.sample_invoice_text).
  - simpl. tauto.
  - reflexivity.
Defined.

(** *** The line items *)

Lemma dec_parse_bounds (t : string) (g : caps) :
  parses dec_re t g ->
  g = [] /\ exists q, py_float (replace_char "," "." t) = Some q
                      /\ 0 <= q /\ q < 1000.
Proof.
  unfold dec_re. cbn [seq parses between exactly]. intros H.
  destruct H as (i & t2 & g1 & g2 & -> & -> & (Hi & Hlo & Hhi & ->)
                 & (t3 & d & g3 & g4 & -> & -> & ((c & -> & Hc) & ->)
                    & (Hd & Hd1 & Hd2 & ->))).
  split; [reflexivity|].
  apply (short_decimal_value i (String c d) Hi (conj Hlo Hhi)).
  right. exists c, d. repeat split; auto. lia.
Qed.

Lemma open_item_opened (line : string) :
  is_some (match_ item_start_re line) = true ->
  exists it, open_item line = Some it /\ opened it.
Proof.
  intros Hstart. unfold open_item, bind.
  destruct (match_ item_strict_re line) as [m|] eqn:Estrict.
  - apply first_way_sound in Estrict. destruct Estrict as [_ Hp].
    revert Hp. unfold item_strict_re, plus. cbn [seq parses]. intros Hp.
    break_parse.
    match goal with
    | Hd : parses dec_re _ _ |- _ =>
        destruct (dec_parse_bounds _ _ Hd) as [-> (q & Hq & Hlo & Hhi)]
    end.
    unfold group_float, bind, group.
    match goal with Hg : groups m = _ |- _ => rewrite Hg end.
    cbn [app group_in Nat.eqb]. rewrite Hq.
    eexists. split; [reflexivity|]. unfold opened. eauto.
  - destruct (open_item_returns line Hstart) as (d & q & Hopen).
    unfold open_item, bind in Hopen. rewrite Estrict in Hopen.
    destruct (after_first "." line) as [tail|]; [|discriminate].
    destruct (search qty_re (strip tail)) as [qm|] eqn:Eq.
    + apply search_sound in Eq. revert Eq.
      unfold qty_re. cbn [parses]. intros (g' & Hd & Hg).
      destruct (dec_parse_bounds _ _ Hd) as [-> (q' & Hq & Hlo & Hhi)].
      unfold group_float, bind, group. rewrite Hg.
      cbn [group_in Nat.eqb]. rewrite Hq.
      eexists. split; [reflexivity|]. unfold opened. eauto.
    + eexists. split; [reflexivity|]. unfold opened.
      eexists. exists 1. repeat split; try reflexivity; discriminate.
Qed.

Lemma price_line_bounds (raw : string) :
  is_some (match_ price_line_re (strip raw)) = true ->
  exists q, py_float (replace_char "," "." (strip raw)) = Some q
            /\ 0 <= q /\ q < 1000.
Proof.
  destruct (match_ price_line_re (strip raw)) as [m|] eqn:E; [|discriminate].
  intros _. unfold match_ in E.
  pose proof (first_way_sound _ _ _ _ E) as [Hline Hp].
  apply first_way_in in E. unfold price_line_re in E. cbn [seq] in E.
  apply ways_seq_rest in E.
  destruct E as (t1 & g1 & s1 & t2 & g2 & bos' & _ & E).
  apply ways_seq_eol in E.
  assert (Hrest : rest m = EmptyString).
  { destruct (rest m) as [|c [|c' r]] eqn:Er; [reflexivity| |discriminate].
    simpl in E. apply Nat.eqb_eq in E.
    pose proof (strip_last raw (whole m) c Hline) as Hsp.
    unfold is_space in Hsp. rewrite E in Hsp. discriminate Hsp. }
  rewrite Hrest, append_nil_r in Hline. rewrite Hline.
  revert Hp. unfold price_line_re. cbn [seq parses].
  intros (t0 & t & g0 & g & -> & _ & (-> & _)
          & (td & te & gd & ge & -> & _ & Hd & (-> & _))).
  cbn [append]. rewrite append_nil_r.
  destruct (dec_parse_bounds _ _ Hd) as [_ Hq]. exact Hq.
Qed.

Lemma opened_truthy (it : line_item) : opened it -> item_truthy it = true.
Proof. intros (d & q & -> & _). reflexivity. Qed.

Lemma current_closed (st : item_state) :
  loop_invariant st ->
  Forall opened
    (if item_truthy (current_item st)
     then line_items st ++ [current_item st] else line_items st)
  /\ List.length
       (if item_truthy (current_item st)
        then line_items st ++ [current_item st] else line_items st)
     = item_count st.
Proof.
  intros (Hitems & Hcur & _). unfold item_count.
  destruct Hcur as [Hcur|Hcur].
  - rewrite Hcur. simpl. split; [exact Hitems | lia].
  - rewrite (opened_truthy _ Hcur). split.
    + apply Forall_app. split; [exact Hitems | now constructor].
    + rewrite length_app. reflexivity.
Qed.

Lemma item_step_invariant (raw_line : string) (last : bool)
  (st st' : item_state) :
  loop_invariant st ->
  item_step raw_line last st = Some st' ->
  loop_invariant st'
  /\ item_count st' = (item_count st + if numbered raw_line then 1 else 0)%nat
  /\ (contains "net price" (lower (strip raw_line)) = false ->
      collecting_prices st = false ->
      collecting_prices st' = false /\ net_prices st' = net_prices st).
Proof.
  intros Hinv. pose proof Hinv as (Hitems & Hcur & Hprices).
  unfold item_step, bind, numbered. cbv zeta.
  destruct (is_some (match_ item_start_re (strip raw_line))) eqn:Estart.
  { destruct (open_item_opened _ Estart) as (it & Hopen & Hit).
    rewrite Hopen. intros H. inversion H; subst; clear H.
    destruct (current_closed st Hinv) as [Hclosed Hlen].
    split; [|split].
    - unfold loop_invariant. cbn [line_items current_item net_prices].
      split; [exact Hclosed|]. split; [now right | exact Hprices].
    - unfold item_count at 1. cbn [line_items current_item].
      rewrite (opened_truthy _ Hit), Hlen. reflexivity.
    - intros _ Hc. cbn [collecting_prices net_prices]. now split. }
  match goal with
  | |- context [if ?c then _ else _] => destruct c eqn:Econt
  end.
  { destruct Hcur as [Hcur|(d & q & Hcur & Hq)].
    - rewrite Hcur in Econt. discriminate Econt.
    - rewrite Hcur. cbn [append_description description quantity unit_price].
      intros H. inversion H; subst; clear H.
      split; [|split].
      + unfold loop_invariant. cbn [line_items current_item net_prices].
        split; [exact Hitems|]. split; [|exact Hprices].
        right. unfold opened. eauto.
      + unfold item_count. cbn [line_items current_item]. rewrite Hcur.
        cbn [item_truthy description quantity unit_price is_absent andb negb].
        lia.
      + intros _ Hc. cbn [collecting_prices net_prices]. now split. }
  destruct (contains "net price" (lower (strip raw_line))) eqn:Enet.
  { intros H. inversion H; subst; clear H.
    split; [|split].
    - unfold loop_invariant. cbn [line_items current_item net_prices]. auto.
    - unfold item_count. cbn [line_items current_item]. lia.
    - discriminate. }
  match goal with
  | |- context [if ?c then _ else _] => destruct c eqn:Eprice
  end.
  { apply andb_prop in Eprice. destruct Eprice as [Ecoll Eprice].
    destruct (price_line_bounds raw_line Eprice) as (q & Hq & Hlo & Hhi).
    rewrite Hq. intros H. inversion H; subst; clear H.
    split; [|split].
    - unfold loop_invariant. cbn [line_items current_item net_prices].
      split; [exact Hitems|]. split; [exact Hcur|].
      apply Forall_app. split; [exact Hprices|].
      constructor; [split; assumption | constructor].
    - unfold item_count. cbn [line_items current_item]. lia.
    - intros _ Hc. rewrite Hc in Ecoll. discriminate Ecoll. }
  match goal with
  | |- context [if ?c then _ else _] => destruct c eqn:Eclose
  end.
  - intros H. inversion H; subst; clear H.
    apply andb_prop in Eclose. destruct Eclose as [Etruthy _].
    destruct (current_closed st Hinv) as [Hclosed Hlen].
    rewrite Etruthy in Hclosed, Hlen.
    split; [|split].
    + unfold loop_invariant. cbn [line_items current_item net_prices].
      split; [exact Hclosed|]. split; [now left | exact Hprices].
    + unfold item_count at 1. cbn [line_items current_item].
      rewrite Hlen. simpl. lia.
    + intros _ Hc. cbn [collecting_prices net_prices]. now split.
  - intros H. inversion H; subst; clear H.
    split; [exact Hinv|]. split; [lia|]. intros _ Hc. now split.
Qed.

Lemma item_loop_invariant (lines : list string) :
  forall st st' : item_state,
  loop_invariant st ->
  item_loop lines st = Some st' ->
  loop_invariant st'
  /\ item_count st'
     = (item_count st + List.length (filter numbered lines))%nat
  /\ ((forall l, In l lines ->
                 contains "net price" (lower (strip l)) = false) ->
      collecting_prices st = false ->
      net_prices st' = net_prices st).
Proof.
  induction lines as [|line following IH]; intros st st' Hinv H.
  - inversion H; subst. split; [exact Hinv|]. split; [|reflexivity].
    cbn [filter List.length]. lia.
  - cbn [item_loop] in H. unfold bind in H.
    destruct (item_step line _ st) as [st1|] eqn:E; [|discriminate].
    destruct (item_step_invariant _ _ _ _ Hinv E) as (Hinv1 & Hcnt1 & Hnet1).
    destruct (IH st1 st' Hinv1 H) as (Hinv' & Hcnt' & Hnet').
    split; [exact Hinv'|]. split.
    + rewrite Hcnt', Hcnt1. cbn [filter].
      destruct (numbered line); simpl; lia.
    + intros Hno Hcoll.
      destruct (Hnet1 (Hno line (or_introl eq_refl)) Hcoll) as [Hc1 Hp1].
      rewrite <- Hp1. apply Hnet'; [|exact Hc1].
      intros l Hl. apply Hno. now right.
Qed.

Lemma backfill_shape (items : list line_item) : forall prices : list Q,
  Forall opened items -> Forall below_1000 prices ->
  Forall priced_or_not (backfill items prices)
  /\ List.length (backfill items prices) = List.length items.
Proof.
  induction items as [|it items IH]; intros prices Hitems Hprices.
  - split; [constructor | reflexivity].
  - inversion Hitems as [|? ? (d & q & Hit & Hlo & Hhi) Hrest]; subst.
    destruct prices as [|p prices]; cbn [backfill].
    + split; [|reflexivity].
      destruct (IH [] Hrest (Forall_nil _)) as [Hall _].
      constructor.
      * exists d, q. repeat split; auto.
      * destruct items; exact Hall.
    + inversion Hprices as [|? ? [Hp1 Hp2] Hprest]; subst.
      destruct (IH prices Hrest Hprest) as [Hall Hlen].
      split; [|simpl; now rewrite Hlen].
      constructor; [|exact Hall].
      exists d, q. cbn [description quantity unit_price].
      repeat split; auto. right. exists p. auto.
Qed.

(** What the extractor makes of a whole text, as far as the line-item
    loop goes. *)
Lemma extract_items (text : string) :
  exists invoice st,
    field_loop (splitlines text) [] = Some invoice
    /\ item_loop (splitlines text) (ItemState [] empty_item [] false)
       = Some st
    /\ extract_invoice_data text
       = dict_set "line_items"
           (VItems (backfill
                      (if item_truthy (current_item st)
                       then line_items st ++ [current_item st]
                       else line_items st)
                      (net_prices st)))
           (dict_set "line_items" (VItems []) invoice).
Proof.
  destruct (field_loop_returns (splitlines text) []) as [invoice H1].
  destruct (item_loop_returns (splitlines text)
              (ItemState [] empty_item [] false)) as [st H2]; [now left|].
  exists invoice, st. split; [exact H1|]. split; [exact H2|].
  unfold extract_invoice_data, extract_body, bind. now rewrite H1, H2.
Qed.

Lemma initial_invariant :
  loop_invariant (ItemState [] empty_item [] false).
Proof. split; [constructor|]. split; [now left | constructor]. Qed.

(** The record the extractor returns always has line items, exactly one
    per numbered line of the text: no item is lost or listed twice. *)
Theorem one_item_per_numbered_line (text : string) :
  exists items,
    dict_get "line_items" (extract_invoice_data text) = Some (VItems items)
    /\ List.length items = List.length (filter numbered (splitlines text)).
Proof.
  destruct (extract_items text) as (invoice & st & _ & Hloop & ->).
  destruct (item_loop_invariant _ _ _ initial_invariant Hloop)
    as (Hinv & Hcnt & _).
  destruct (current_closed st Hinv) as [Hclosed Hlen].
  destruct Hinv as (_ & _ & Hprices).
  destruct (backfill_shape _ _ Hclosed Hprices) as [_ Hblen].
  eexists. split; [apply dict_get_set_same|].
  rewrite Hblen, Hlen, Hcnt. reflexivity.
Qed.

Lemma extract_items_priced (text : string) :
  exists items,
    dict_get "line_items" (extract_invoice_data text) = Some (VItems items)
    /\ Forall priced_or_not items.
Proof.
  destruct (extract_items text) as (invoice & st & _ & Hloop & ->).
  rewrite dict_get_set_same. eexists. split; [reflexivity|].
  destruct (item_loop_invariant _ _ _ initial_invariant Hloop)
    as (Hinv & _ & _).
  destruct (current_closed st Hinv) as [Hclosed _].
  destruct Hinv as (_ & _ & Hprices).
  exact (proj1 (backfill_shape _ _ Hclosed Hprices)).
Qed.

(** Every line item of the returned record has a description and a
    quantity from 0 to below 1000; its unit price is [None] or a
    collected net price from 0 to below 1000. *)
Theorem extracted_items_shape (text : string) (items : list line_item) :
  dict_get "line_items" (extract_invoice_data text) = Some (VItems items) ->
  Forall priced_or_not items.
Proof.
  intros Hget.
  destruct (extract_items_priced text) as (items' & Hget' & Hshape).
  rewrite Hget in Hget'. inversion Hget'; subst. exact Hshape.
Qed.

Lemma extract_unpriced (text : string) :
  (forall l, In l (splitlines text) ->
             contains "net price" (lower (strip l)) = false) ->
  exists items,
    dict_get "line_items" (extract_invoice_data text) = Some (VItems items)
    /\ Forall (fun it => unit_price it = Null) items.
Proof.
  intros Hno.
  destruct (extract_items text) as (invoice & st & _ & Hloop & ->).
  rewrite dict_get_set_same. eexists. split; [reflexivity|].
  destruct (item_loop_invariant _ _ _ initial_invariant Hloop)
    as (Hinv & _ & Hnet).
  rewrite (Hnet Hno eq_refl). cbn [net_prices].
  destruct (current_closed st Hinv) as [Hclosed _].
  assert (Hback : forall l, backfill l [] = l) by (intros [|? ?]; reflexivity).
  rewrite Hback.
  eapply Forall_impl; [|exact Hclosed].
  intros it (d & q & -> & _). reflexivity.
Qed.

(** Net prices are collected only after a line that says [net price]:
    in a text without such a line every item keeps [unit_price = None]. *)
Theorem no_price_without_net_price_line (text : string)
  (items : list line_item) :
  (forall l, In l (splitlines text) ->
             contains "net price" (lower (strip l)) = false) ->
  dict_get "line_items" (extract_invoice_data text) = Some (VItems items) ->
  Forall (fun it => unit_price it = Null) items.
Proof.
  intros Hno Hget.
  destruct (extract_unpriced text Hno) as (items' & Hget' & Hnull).
  rewrite Hget in Hget'. inversion Hget'; subst. exact Hnull.
Qed.

Lemma extracted_items_shape_witness :
  Forall priced_or_not Inputs.sample_invoice_items.
Proof.
  apply (extracted_items_shape Inputs.sample_invoice_text). reflexivity.
Defined.

Lemma no_price_without_net_price_line_witness :
  Forall (fun it => unit_price it = Null)
         [Item (Val "Wine rack") (Val (Qmake 400 100)) Null].
Proof.
  apply (no_price_without_net_price_line "1. Wine rack 4,00").
  - intros l [<-|[]]. reflexivity.
  - reflexivity.
Defined.

End ExtractorRecordFacts.

(* ================================================================== *)
(** ** More on text acquisition and the AI-assisted extractor *)
(* ================================================================== *)

Module ProcessorResultFacts.
Import PyStr Re Py DocumentProcessor StrFacts ReFacts NumFacts DictFacts.
Import ExtractorFacts ProcessorFacts.

Lemma prefix_append (s t : string) : prefix s (s ++ t) = true.
Proof.
  induction s as [|c s IH]; [now destruct t|]. simpl.
  destruct (ascii_dec c c); [exact IH | contradiction].
Qed.

Lemma contains_prefix (sub s : string) :
  prefix sub s = true -> contains sub s = true.
Proof. intros H. destruct s; cbn [contains]; rewrite H; reflexivity. Qed.

Lemma contains_middle (sub before after : string) :
  contains sub (before ++ sub ++ after) = true.
Proof.
  induction before as [|c before IH].
  - cbn [append]. apply contains_prefix, prefix_append.
  - cbn [append contains]. rewrite IH. apply orb_true_r.
Qed.

Lemma contains_dot_false (c : ascii) (s : string) :
  contains "." (String c s) = false ->
  Ascii.eqb c "."%char = false /\ contains "." s = false.
Proof.
  cbn [contains prefix]. destruct (ascii_dec "."%char c) as [<-|Hne].
  - destruct s; discriminate.
  - cbn [orb]. intros H. split; [|exact H].
    apply Ascii.eqb_neq. congruence.
Qed.

(** A name without a dot is its own extension. *)
Lemma after_last_nodot (ext : string) :
  contains "." ext = false -> after_last "." ext = ext.
Proof.
  destruct ext as [|c ext]; [reflexivity|]. intros H.
  apply contains_dot_false in H. destruct H as [Hc Hext].
  cbn [after_last]. now rewrite Hc, Hext.
Qed.

Lemma after_last_append (stem ext : string) :
  contains "." ext = false ->
  after_last "." (stem ++ "." ++ ext) = ext.
Proof.
  intros Hext. induction stem as [|c stem IH].
  - cbn [append after_last]. rewrite Ascii.eqb_refl.
    now apply after_last_nodot.
  - pose proof (contains_middle "." stem ext) as Hmid.
    cbn [append after_last] in *.
    destruct (Ascii.eqb c "."); [exact IH|].
    now rewrite Hmid.
Qed.

(** A match of the fence pattern starts with three backticks. *)
Lemma fence_needs_backticks (reply : string) (m : mobj) :
  search fence_re reply = Some m -> contains "```" reply = true.
Proof.
  intros H. destruct (search_at_sound _ _ _ _ H) as (before & Hs & Hp).
  revert Hp. unfold fence_re. cbn [seq parses].
  intros (t1 & t2 & g1 & g2 & Hw & _ & (-> & _) & _).
  rewrite Hs, Hw, append_assoc. apply contains_middle.
Qed.

Lemma extract_has_items (text : string) :
  exists items,
    dict_get "line_items" (extract_invoice_data text) = Some (VItems items).
Proof.
  destruct (ExtractorRecordFacts.extract_items text)
    as (invoice & st & _ & _ & ->).
  eexists. apply dict_get_set_same.
Qed.

(** *** The regex fallback *)

Lemma digits_val_nonneg (s : string) : forall acc : Z,
  (0 <= acc)%Z -> (0 <= digits_val acc s)%Z.
Proof.
  induction s as [|c s IH]; intros acc Hacc; [exact Hacc|].
  cbn [digits_val]. apply IH. lia.
Qed.

Lemma py_float_nonneg (s : string) (q : Q) : py_float s = Some q -> 0 <= q.
Proof.
  unfold py_float. destruct (split_dot s) as [i [f|]].
  - destruct (forallb_str is_digit i && forallb_str is_digit f
              && negb (is_empty i && is_empty f)); [|discriminate].
    intros H. inversion H; subst. unfold Qle. cbn [Qnum Qden].
    pose proof (digits_val_nonneg f (digits_val 0 i)
                  (digits_val_nonneg i 0 (Z.le_refl 0))).
    lia.
  - destruct (negb (is_empty i) && forallb_str is_digit i); [|discriminate].
    intros H. inversion H; subst. unfold Qle, inject_Z. cbn [Qnum Qden].
    pose proof (digits_val_nonneg i 0 (Z.le_refl 0)). lia.
Qed.

Lemma group_number_nonneg (n : nat) (m : mobj) (q : Q) :
  group_number n m = Some q -> 0 <= q.
Proof.
  unfold group_number, DocumentProcessor.bind.
  destruct (group n m) as [s|]; [|discriminate]. apply py_float_nonneg.
Qed.

Lemma string_field_shape (key : string) (m : mobj) :
  parses (string_field_re key) (whole m) (groups m) ->
  exists s, group_value 1 m = VStr s
            /\ s <> EmptyString /\ forallb_str not_quote s = true.
Proof.
  unfold string_field_re, star, plus. cbn [seq parses]. intros H.
  break_parse. unfold group_value, group.
  match goal with Hg : groups m = _ |- _ => rewrite Hg end.
  cbn [app group_in Nat.eqb]. eexists. split; [reflexivity|].
  split; [|assumption].
  intros ->. cbn [String.length] in *. lia.
Qed.

Lemma item_triple_quote_free (m : mobj) (d : string) :
  parses item_triple_re (whole m) (groups m) ->
  group 1 m = Some d -> forallb_str not_quote d = true.
Proof.
  unfold item_triple_re, star. cbn [seq parses]. intros H. break_parse.
  unfold group.
  match goal with Hg : groups m = _ |- _ => rewrite Hg end.
  cbn [app group_in Nat.eqb]. intros Hd. inversion Hd; subst. assumption.
Qed.

Lemma regex_items_full (matches : list mobj) : forall items,
  (forall m, In m matches -> parses item_triple_re (whole m) (groups m)) ->
  regex_items matches = Some items -> Forall full_item items.
Proof.
  induction matches as [|m rest IH]; intros items Hall H;
    cbn [regex_items] in H.
  - inversion H. constructor.
  - unfold DocumentProcessor.bind in H.
    destruct (group 1 m) as [d|] eqn:E1; [|discriminate].
    destruct (group_number 2 m) as [q|] eqn:E2; [|discriminate].
    destruct (group_number 3 m) as [p|] eqn:E3; [|discriminate].
    destruct (regex_items rest) as [items'|] eqn:E4; [|discriminate].
    inversion H; subst. constructor.
    + exists d, q, p. split; [reflexivity|].
      split; [exact (item_triple_quote_free m d
                       (Hall m (or_introl eq_refl)) E1)|].
      split; eapply group_number_nonneg; eassumption.
    + apply IH; [|reflexivity]. intros x Hx. apply Hall. now right.
Qed.

Lemma located_shape (json_str k : string) (v : value) :
  located json_str k v -> fallback_shape k v.
Proof.
  intros [key m Hkey Hm|m q Hm Hq|items Hitems].
  - destruct (string_field_shape key m (search_sound _ _ _ Hm))
      as (s & -> & Hne & Hq).
    now apply fallback_string.
  - apply fallback_total. exact (group_number_nonneg _ _ _ Hq).
  - apply fallback_items.
    apply (regex_items_full (finditer item_triple_re json_str)); [|exact Hitems].
    intros m Hm. exact (finditer_at_sound _ _ _ _ _ Hm).
Qed.

(** What the regex fallback returns: a string field it binds is not
    empty and has no double quote; [total_amount] is a number that is not
    negative; every line item has its three keys bound, to a description
    without double quote and to numbers that are not negative; and it
    binds no other key. *)
Theorem fallback_record_shape (json_str : string) (record : dict)
  (k : string) (v : value) :
  _extract_with_regex json_str = Some record ->
  dict_get k record = Some v ->
  fallback_shape k v.
Proof.
  intros Hrec Hget.
  destruct (extract_with_regex_returns json_str)
    as (record' & items & Hrec' & _ & Hloc).
  rewrite Hrec in Hrec'. inversion Hrec'; subst record'.
  exact (located_shape json_str k v (Hloc k v Hget)).
Qed.

Section WithLibrary.

Context {image json : Type}.
Variable lib : library image json.

Ltac shape_error :=
  left; cbn; repeat split; try reflexivity; discriminate.
Ltac shape_warning :=
  right; left; cbn; repeat split; try reflexivity; discriminate.
Ltac shape_success :=
  right; right; cbn; repeat split; try reflexivity; discriminate.

Lemma shape_process_image_ocr (u : upload) :
  result_shape (process_image_ocr lib u).
Proof.
  unfold process_image_ocr, obind.
  destruct (image_open lib (getvalue u)); [|shape_error].
  destruct (image_to_string lib a); [shape_success | shape_error].
Qed.

Lemma shape_process_pdf (u : upload) : result_shape (process_pdf lib u).
Proof.
  unfold process_pdf, obind.
  destruct (pdf_page_texts lib (getvalue u)) as [pages|e]; [|shape_error].
  destruct (is_empty (strip (join newline pages))); [|shape_success].
  destruct (convert_from_bytes lib (getvalue u)) as [[|first images]|e];
    try shape_error.
  destruct (image_to_string lib first); [shape_success | shape_error].
Qed.

Lemma shape_process_with_markitdown (u : upload) :
  result_shape (process_with_markitdown lib u).
Proof.
  unfold process_with_markitdown, obind.
  destruct (MARKITDOWN_AVAILABLE lib); [|shape_error]. cbn [negb].
  destruct (markitdown_convert lib u) as [md|e]; [|shape_error].
  destruct (is_empty (deepseek_api_key lib)).
  - destruct (rmtree lib); [shape_warning | shape_error].
  - destruct (_extract_with_ai lib (deepseek_api_key lib) md);
      [|shape_error].
    destruct (rmtree lib); [shape_success | shape_error].
Qed.

(** Every result of [process_document] has one of three shapes.  An
    error result has a message and no text or data; the warning result
    is the one of the conversion path without an API key, with the
    converted text and a message but no structured data; a success
    result has a method, the text both as raw and as formatted text, and
    structured data, and no message.  So a result whose status is not
    [error] always has the keys [method] and [raw_text], and an error
    result always has [message]. *)
Theorem result_shapes (uploaded_file : option upload) :
  result_shape (process_document lib uploaded_file).
Proof.
  unfold process_document. destruct uploaded_file as [u|]; [|shape_error].
  destruct (existsb _ image_extensions); [apply shape_process_image_ocr|].
  destruct (String.eqb _ "pdf");
    [apply shape_process_pdf | apply shape_process_with_markitdown].
Qed.

Lemma extraction_process_image_ocr (u : upload) :
  status (process_image_ocr lib u) = "success" ->
  exists t,
    raw_text (process_image_ocr lib u) = Some t
    /\ structured_data (process_image_ocr lib u)
       = Some (Extracted (extract_invoice_data t)).
Proof.
  unfold process_image_ocr, obind.
  destruct (image_open lib (getvalue u)); [|discriminate].
  destruct (image_to_string lib a) as [t|e]; [|discriminate].
  intros _. exists t. split; reflexivity.
Qed.

Lemma extraction_process_pdf (u : upload) :
  status (process_pdf lib u) = "success" ->
  exists t,
    raw_text (process_pdf lib u) = Some t
    /\ structured_data (process_pdf lib u)
       = Some (Extracted (extract_invoice_data t)).
Proof.
  unfold process_pdf, obind.
  destruct (pdf_page_texts lib (getvalue u)) as [pages|e]; [|discriminate].
  destruct (is_empty (strip (join newline pages))).
  - destruct (convert_from_bytes lib (getvalue u)) as [[|first images]|e];
      try discriminate.
    destruct (image_to_string lib first) as [t|e]; [|discriminate].
    intros _. exists t. split; reflexivity.
  - intros _. eexists. split; reflexivity.
Qed.

(** On the OCR and PDF paths the structured data of a success result is
    the heuristic extraction of the very text the result carries as
    [raw_text], and it always lists line items: it is never the empty
    dict. *)
Theorem structured_data_is_extraction (uploaded_file : option upload) :
  status (process_document lib uploaded_file) = "success" ->
  method (process_document lib uploaded_file) <> Some "markitdown" ->
  exists t items,
    raw_text (process_document lib uploaded_file) = Some t
    /\ structured_data (process_document lib uploaded_file)
       = Some (Extracted (extract_invoice_data t))
    /\ dict_get "line_items" (extract_invoice_data t) = Some (VItems items).
Proof.
  unfold process_document. destruct uploaded_file as [u|]; [|discriminate].
  destruct (existsb _ image_extensions).
  - intros Hs _. destruct (extraction_process_image_ocr u Hs) as (t & H1 & H2).
    destruct (extract_has_items t) as [items Hitems]. eauto.
  - destruct (String.eqb _ "pdf").
    + intros Hs _. destruct (extraction_process_pdf u Hs) as (t & H1 & H2).
      destruct (extract_has_items t) as [items Hitems]. eauto.
    + intros _ Hm. contradiction Hm.
      apply method_process_with_markitdown.
Qed.

(** The path a file takes depends only on what follows the last dot of
    its name, whatever its case; a name without a dot is its own
    extension. *)
Theorem dispatch_on_last_extension (stem ext bytes : string) :
  contains "." ext = false ->
  process_document lib (Some (Upload (stem ++ "." ++ ext) bytes))
  = (if existsb (String.eqb (lower ext)) image_extensions
     then process_image_ocr lib
     else if String.eqb (lower ext) "pdf" then process_pdf lib
          else process_with_markitdown lib)
      (Upload (stem ++ "." ++ ext) bytes)
  /\ process_document lib (Some (Upload ext bytes))
     = (if existsb (String.eqb (lower ext)) image_extensions
        then process_image_ocr lib
        else if String.eqb (lower ext) "pdf" then process_pdf lib
             else process_with_markitdown lib)
         (Upload ext bytes).
Proof.
  intros Hext. unfold process_document. cbn [name].
  rewrite (after_last_append stem ext Hext), (after_last_nodot ext Hext).
  split.
  - destruct (existsb _ image_extensions); [reflexivity|].
    destruct (String.eqb _ "pdf"); reflexivity.
  - destruct (existsb _ image_extensions); [reflexivity|].
    destruct (String.eqb _ "pdf"); reflexivity.
Qed.

(** A reply without three backticks in a row is handed to [json.loads]
    whole, stripped: what [json.loads] reads is returned as parsed, what
    it rejects with [json.JSONDecodeError] goes to the regex fallback,
    in both cases with the reply as raw response; any other exception
    of [json.loads] leaves [_extract_with_ai]. *)
Theorem unfenced_reply_is_read_whole (api_key text_content reply : string) :
  chat_completion lib api_key text_content = Ok reply ->
  contains "```" reply = false ->
  json_candidate reply = Ok (strip reply)
  /\ (forall j, json_loads lib (strip reply) = Loaded j ->
        _extract_with_ai lib api_key text_content
        = Ok (AiAnswer (Parsed j) reply))
  /\ (json_loads lib (strip reply) = JSONDecodeError ->
      exists record,
        _extract_with_regex (strip reply) = Some record
        /\ _extract_with_ai lib api_key text_content
           = Ok (AiAnswer (Extracted record) reply))
  /\ (forall e, json_loads lib (strip reply) = OtherError e ->
        _extract_with_ai lib api_key text_content = Raise e).
Proof.
  intros Hchat Hno.
  assert (Hcand : json_candidate reply = Ok (strip reply)).
  { unfold json_candidate.
    destruct (search fence_re reply) as [m|] eqn:E; [|reflexivity].
    apply fence_needs_backticks in E. congruence. }
  split; [exact Hcand|]. split; [|split].
  - intros j Hj. unfold _extract_with_ai, obind.
    now rewrite Hchat, Hcand, Hj.
  - intros Hj.
    destruct (extract_with_regex_returns (strip reply))
      as (record & items & Hrec & _).
    exists record. split; [exact Hrec|].
    unfold _extract_with_ai, obind. now rewrite Hchat, Hcand, Hj, Hrec.
  - intros e Hj. unfold _extract_with_ai, obind.
    now rewrite Hchat, Hcand, Hj.
Qed.

End WithLibrary.

Lemma fallback_record_shape_witness :
  fallback_shape "invoice_number" (VStr "61356291").
Proof.
  apply (fallback_record_shape Inputs.broken_json_reply
           (match _extract_with_regex Inputs.broken_json_reply with
            | Some record => record
            | None => []
            end));
    reflexivity.
Defined.

Lemma structured_data_is_extraction_witness :
  exists t items,
    raw_text (process_document (Inputs.library_with_pages ["Invoice no: 7"])
                (Some (Upload "invoice.pdf" "%PDF"))) = Some t
    /\ structured_data
         (process_document (Inputs.library_with_pages ["Invoice no: 7"])
            (Some (Upload "invoice.pdf" "%PDF")))
       = Some (Extracted (extract_invoice_data t))
    /\ dict_get "line_items" (extract_invoice_data t) = Some (VItems items).
Proof.
  apply (structured_data_is_extraction
           (Inputs.library_with_pages ["Invoice no: 7"])
           (Some (Upload "invoice.pdf" "%PDF")));
    [reflexivity | discriminate].
Defined.

Lemma dispatch_on_last_extension_witness :
  process_document (Inputs.library_with_pages ["Invoice no: 7"])
    (Some (Upload "scan.final.PDF" "%PDF"))
  = process_pdf (Inputs.library_with_pages ["Invoice no: 7"])
      (Upload "scan.final.PDF" "%PDF").
Proof.
  exact (proj1 (dispatch_on_last_extension
                  (Inputs.library_with_pages ["Invoice no: 7"])
                  "scan.final" "PDF" "%PDF" eq_refl)).
Defined.

(** A PDF renamed with a second extension goes down the conversion
    path, and a file called [PNG] is read as an image. *)
Example dispatch_examples :
  method (process_document (Inputs.library_with_pages ["Invoice no: 7"])
            (Some (Upload "invoice.pdf.docx" "%PDF"))) = Some "markitdown"
  /\ method (process_document (Inputs.library_with_pages [])
               (Some (Upload "PNG" "bytes"))) = Some "ocr".
Proof. split; reflexivity. Qed.

Lemma unfenced_reply_is_read_whole_witness :
  json_candidate "I could not find an invoice."
  = Ok (strip "I could not find an invoice.").
Proof.
  exact (proj1 (unfenced_reply_is_read_whole (Inputs.library_with_pages [])
                  "sk-key" "converted" "I could not find an invoice."
                  eq_refl eq_refl)).
Defined.

End ProcessorResultFacts.

(* ================================================================== *)
(** ** The fenced block of a chat reply *)
(* ================================================================== *)

Module FenceFacts.
Import PyStr Re Py DocumentProcessor StrFacts ReFacts.
Import ProcessorFacts ProcessorResultFacts.

(** *** Strings cut in two ways *)

Lemma string_app_eq_app (a b c d : string) :
  (a ++ b)%string = (c ++ d)%string ->
  (exists u, c = (a ++ u)%string /\ b = (u ++ d)%string)
  \/ (exists u, a = (c ++ u)%string /\ d = (u ++ b)%string).
Proof.
  revert c. induction a as [|x a IH]; intros c H.
  - left. exists c. split; [reflexivity | exact H].
  - destruct c as [|y c].
    + right. exists (String x a). split; [reflexivity|].
      cbn [append] in H. now rewrite <- H.
    + cbn [append] in H. injection H as -> H.
      destruct (IH c H) as [(u & -> & ->)|(u & -> & ->)];
        [left | right]; exists u; split; reflexivity.
Qed.

Lemma last_char (s : string) :
  s <> EmptyString -> exists b c, s = (b ++ String c EmptyString)%string.
Proof.
  induction s as [|x s IH]; [intros H; now contradiction H|]. intros _.
  destruct s as [|y s'].
  - exists EmptyString, x. reflexivity.
  - destruct IH as (b & c & E); [discriminate|].
    exists (String x b), c. cbn [append]. now rewrite <- E.
Qed.

Lemma suffix_last (t r0 b : string) (c : ascii) :
  (t ++ r0)%string = (b ++ String c EmptyString)%string ->
  r0 <> EmptyString ->
  exists u, r0 = (u ++ String c EmptyString)%string.
Proof.
  intros H Hne.
  destruct (string_app_eq_app _ _ _ _ H) as [(u & _ & Hr)|(u & _ & Hc)].
  - now exists u.
  - destruct u as [|x u].
    + exists EmptyString. cbn [append] in *. now rewrite Hc.
    + cbn [append] in Hc. injection Hc as _ Hc.
      destruct u; [|discriminate Hc]. cbn [append] in Hc.
      now contradiction Hne.
Qed.

(** *** What [strip] removes *)

Lemma lstrip_split (s : string) :
  exists w, s = (w ++ lstrip s)%string /\ forallb_str is_space w = true.
Proof.
  induction s as [|c s (w & Hs & Hw)].
  - exists EmptyString. split; reflexivity.
  - cbn [lstrip]. destruct (is_space c) eqn:E.
    + exists (String c w). cbn [append forallb_str].
      rewrite E, Hw. split; [now rewrite <- Hs | reflexivity].
    + exists EmptyString. split; reflexivity.
Qed.

Lemma rev_cons (c : ascii) (s : string) :
  rev (String c s) = (rev s ++ String c EmptyString)%string.
Proof. unfold rev at 1. cbn [rev_onto]. apply rev_onto_append. Qed.

Lemma forallb_str_rev (p : ascii -> bool) (s : string) :
  forallb_str p (rev s) = forallb_str p s.
Proof.
  induction s as [|c s IH]; [reflexivity|].
  rewrite rev_cons, forallb_str_append, IH. cbn [forallb_str].
  rewrite andb_true_r. apply andb_comm.
Qed.

Lemma rstrip_split (t : string) :
  exists w, t = (rstrip t ++ w)%string /\ forallb_str is_space w = true.
Proof.
  destruct (lstrip_split (rev t)) as (w & Hrev & Hw).
  exists (rev w). split; [|now rewrite forallb_str_rev].
  unfold rstrip. rewrite <- rev_append, <- Hrev. symmetry.
  apply rev_involutive.
Qed.

(** A string is white space, its stripped text, and white space; the
    stripped text neither starts nor ends with white space. *)
Lemma strip_decompose (s : string) :
  exists w1 w2,
    s = (w1 ++ strip s ++ w2)%string
    /\ forallb_str is_space w1 = true
    /\ forallb_str is_space w2 = true
    /\ (strip s = EmptyString -> w2 = EmptyString)
    /\ (forall c b, strip s = String c b -> is_space c = false).
Proof.
  destruct (lstrip_split s) as (w1 & Hs & Hw1).
  destruct (rstrip_split (lstrip s)) as (w2 & Ht & Hw2).
  fold (strip s) in Ht.
  exists w1, w2. split; [now rewrite <- Ht|].
  split; [exact Hw1|]. split; [exact Hw2|]. split.
  - intros Hnil. rewrite Hnil in Ht. cbn [append] in Ht.
    destruct w2 as [|c w2]; [reflexivity|].
    pose proof (lstrip_head _ _ _ Ht) as Hc.
    cbn [forallb_str] in Hw2. rewrite Hc in Hw2. discriminate Hw2.
  - intros c b Hcb. rewrite Hcb in Ht. cbn [append] in Ht.
    exact (lstrip_head _ _ _ Ht).
Qed.

(** Stripping twice is stripping once. *)
Lemma strip_idempotent (s : string) : strip (strip s) = strip s.
Proof.
  destruct (strip_decompose s) as (w1 & w2 & _ & _ & _ & _ & Hhead).
  destruct (strip s) as [|c b] eqn:E; [reflexivity|].
  pose proof (Hhead c b eq_refl) as Hc.
  destruct (last_char (String c b)) as (b' & c' & Hlast); [discriminate|].
  assert (Hc' : is_space c' = false).
  { apply (strip_last s b' c'). now rewrite E. }
  unfold strip. cbn [lstrip]. rewrite Hc. unfold rstrip.
  rewrite Hlast, rev_append.
  change (rev (String c' EmptyString)) with (String c' EmptyString).
  cbn [append lstrip]. rewrite Hc', rev_cons, rev_involutive.
  reflexivity.
Qed.

(** *** The first way to match a sequence *)

Lemma first_way_hd (r : re) (bos : bool) (s t s' : string) (g : caps) :
  hd_error (ways r bos s) = Some (t, g, s') ->
  first_way r bos s = Some (MObj t g s').
Proof.
  unfold first_way. destruct (ways r bos s) as [|[[t0 g0] s0] l];
    [discriminate|].
  intros H. inversion H; subst. reflexivity.
Qed.

Lemma flat_map_nil_app {A B : Type} (f : A -> list B) (l1 l : list A) :
  (forall x, In x l1 -> f x = []) ->
  flat_map f (l1 ++ l) = flat_map f l.
Proof.
  intros H. induction l1 as [|x l1 IH]; [reflexivity|].
  cbn [app flat_map]. rewrite (H x (or_introl eq_refl)). cbn [app].
  apply IH. intros y Hy. apply H. now right.
Qed.

Lemma flat_map_nil {A B : Type} (f : A -> list B) (l : list A) :
  (forall x, In x l -> f x = []) -> flat_map f l = [].
Proof.
  intros H. rewrite <- (app_nil_r l), flat_map_nil_app; [reflexivity|].
  exact H.
Qed.

Lemma hd_seq_skip (a b : re) (bos : bool) (s : string)
  (l1 l2 : list way) (t1 s1 t2 s2 : string) (g1 g2 : caps) :
  ways a bos s = l1 ++ (t1, g1, s1) :: l2 ->
  (forall t g s', In (t, g, s') l1 -> ways b (bos && is_empty t) s' = []) ->
  hd_error (ways b (bos && is_empty t1) s1) = Some (t2, g2, s2) ->
  hd_error (ways (Seq a b) bos s) = Some ((t1 ++ t2)%string, g1 ++ g2, s2).
Proof.
  intros Ha Hl1 Hb. cbn [ways]. rewrite Ha, flat_map_nil_app.
  2:{ intros [[t g] s'] Hin. now rewrite (Hl1 t g s' Hin). }
  cbn [flat_map].
  destruct (ways b (bos && is_empty t1) s1) as [|[[t g] s'] l];
    [discriminate Hb|].
  inversion Hb; subst. reflexivity.
Qed.

Lemma hd_seq (a b : re) (bos : bool) (s t1 s1 t2 s2 : string)
  (g1 g2 : caps) :
  hd_error (ways a bos s) = Some (t1, g1, s1) ->
  hd_error (ways b (bos && is_empty t1) s1) = Some (t2, g2, s2) ->
  hd_error (ways (Seq a b) bos s) = Some ((t1 ++ t2)%string, g1 ++ g2, s2).
Proof.
  intros Ha Hb.
  destruct (ways a bos s) as [|w l] eqn:E; [discriminate Ha|].
  inversion Ha; subst w.
  apply (hd_seq_skip a b bos s [] l t1 s1 t2 s2 g1 g2 E); [|exact Hb].
  intros t g s' [].
Qed.

Lemma drop_append (l s : string) : drop (String.length l) (l ++ s) = s.
Proof. induction l as [|c l IH]; [now destruct s | exact IH]. Qed.

Lemma hd_lit (l : string) (bos : bool) (s : string) :
  hd_error (ways (Lit l) bos (l ++ s)) = Some (l, [], s).
Proof. cbn [ways]. now rewrite prefix_append, drop_append. Qed.

Lemma hd_opt_lit (l : string) (bos : bool) (s : string) :
  hd_error (ways (Opt (Lit l)) bos (l ++ s)) = Some (l, [], s).
Proof. cbn [ways]. now rewrite prefix_append, drop_append. Qed.

Lemma hd_opt_none (l : string) (bos : bool) (s : string) :
  prefix l s = false ->
  hd_error (ways (Opt (Lit l)) bos s) = Some (EmptyString, [], s).
Proof. intros H. cbn [ways]. now rewrite H. Qed.

Lemma take_while_stop (p : ascii -> bool) (w z : string) :
  forallb_str p w = true ->
  (z = EmptyString \/ exists c z', z = String c z' /\ p c = false) ->
  take_while p (w ++ z) = w /\ drop_while p (w ++ z) = z.
Proof.
  intros Hw Hz. induction w as [|c w IH].
  - cbn [append]. destruct Hz as [->|(c & z' & -> & Hc)]; [split; reflexivity|].
    cbn [take_while drop_while]. rewrite Hc. split; reflexivity.
  - cbn [forallb_str] in Hw. apply andb_prop in Hw. destruct Hw as [Hc Hw].
    destruct (IH Hw) as [H1 H2].
    cbn [append take_while drop_while]. rewrite Hc, H1, H2.
    split; reflexivity.
Qed.

(** A greedy [c*] first takes the whole run. *)
Lemma hd_star (p : ascii -> bool) (bos : bool) (w z : string) :
  forallb_str p w = true ->
  (z = EmptyString \/ exists c z', z = String c z' /\ p c = false) ->
  hd_error (ways (star p) bos (w ++ z)) = Some (w, [], z).
Proof.
  intros Hw Hz. destruct (take_while_stop p w z Hw Hz) as [Ht Hd].
  unfold star. cbn [ways]. unfold rep_ways.
  destruct (splits_longest_last p (w ++ z) (String.length (w ++ z))
              (le_n _)) as (l & Hl & _).
  rewrite Hl, filter_app, rev_app_distr.
  cbn [filter fst String.length Nat.leb rev app map hd_error snd].
  now rewrite Ht, Hd.
Qed.

Lemma filter_any_length (l : list (string * string)) :
  filter (fun wr => (0 <=? String.length (fst wr))%nat) l = l.
Proof.
  induction l as [|x l IH]; [reflexivity|].
  cbn [filter].
  replace (0 <=? String.length (fst x))%nat with true by reflexivity.
  now rewrite IH.
Qed.

(** The lazy group tries every prefix, shortest first. *)
Lemma ways_lazy_group (bos : bool) (s : string) :
  ways (Grp 1 (Rep any_char 0 None false)) bos s
  = map (fun wr => (fst wr, [(1%nat, fst wr)], snd wr))
        (splits any_char (String.length s) s).
Proof.
  cbn [ways]. unfold rep_ways. lazy beta zeta iota.
  rewrite filter_any_length, map_map.
  apply map_ext. intros [t r]. reflexivity.
Qed.

Lemma splits_any_decompose (body z : string) : forall n : nat,
  (String.length body <= n)%nat ->
  exists l1 l2,
    splits any_char n (body ++ z) = l1 ++ (body, z) :: l2
    /\ forall t r, In (t, r) l1 ->
         exists r0, r0 <> EmptyString /\ body = (t ++ r0)%string
                    /\ r = (r0 ++ z)%string.
Proof.
  induction body as [|c body IH]; intros n Hn.
  - exists []. cbn [append].
    destruct n, z; cbn [splits]; eexists; (split; [reflexivity|]);
      intros t r [].
  - destruct n as [|n]; [cbn [String.length] in Hn; lia|].
    cbn [String.length] in Hn.
    destruct (IH n ltac:(lia)) as (l1 & l2 & Hl & Hin).
    cbn [append splits any_char]. rewrite Hl, map_app. cbn [map fst snd].
    exists ((EmptyString, String c (body ++ z))
            :: map (fun wr => (String c (fst wr), snd wr)) l1).
    eexists. split; [reflexivity|].
    intros t r [H|H].
    + inversion H; subst. exists (String c body).
      split; [discriminate|]. split; reflexivity.
    + apply in_map_iff in H. destruct H as ([t' r'] & Heq & H).
      cbn [fst snd] in Heq. inversion Heq; subst.
      destruct (Hin t' r H) as (r0 & Hne & Hb & Hr).
      exists r0. split; [exact Hne|]. split; [|exact Hr].
      cbn [append]. now rewrite <- Hb.
Qed.

(** *** The fence pattern on a fenced reply *)

Lemma no_backtick_prefix (a : ascii) (r : string) :
  no_backtick a = true -> prefix "```" (String a r) = false.
Proof.
  intros Ha. cbn [prefix].
  destruct (ascii_dec "`"%char a) as [<-|]; [discriminate Ha | reflexivity].
Qed.

(** After a text that ends with another character than white space,
    white space and the closing fence are not what comes next. *)
Lemma no_fence_after (r0 w2 post : string) (bos : bool) :
  forallb_str no_backtick r0 = true ->
  (exists u c, r0 = (u ++ String c EmptyString)%string
               /\ is_space c = false) ->
  ways (Seq (star is_space) (Lit "```")) bos (r0 ++ w2 ++ "```" ++ post) = [].
Proof.
  intros Hr0 (u & c & Hlast & Hc).
  cbn [ways]. apply flat_map_nil.
  intros [[w g] r'] Hin.
  apply rep_ways_sound in Hin. destruct Hin as (Hs & Hw & _).
  assert (Hpre : prefix "```" r' = false).
  { destruct (string_app_eq_app _ _ _ _ Hs)
      as [(v & Hw' & _)|(v & Hr0' & Hr')].
    - subst w. rewrite Hlast in Hw.
      rewrite !forallb_str_append in Hw. cbn [forallb_str] in Hw.
      rewrite Hc in Hw. cbn [andb] in Hw.
      rewrite andb_false_r in Hw. discriminate Hw.
    - destruct v as [|a v].
      + rewrite append_nil_r in Hr0'. subst w. rewrite Hlast in Hw.
        rewrite forallb_str_append in Hw. cbn [forallb_str] in Hw.
        rewrite Hc, andb_false_r in Hw. discriminate Hw.
      + subst r'. cbn [append]. apply no_backtick_prefix.
        rewrite Hr0', forallb_str_append in Hr0. cbn [forallb_str] in Hr0.
        apply andb_prop in Hr0. destruct Hr0 as [_ Hr0].
        apply andb_prop in Hr0. tauto. }
  now rewrite Hpre.
Qed.

(** The match of the fence pattern at an opening fence: group 1 is the
    text up to the white space before the next fence. *)
Lemma fence_match (bos : bool) (tag w1 body w2 post : string) :
  tag = "json"
  \/ (tag = EmptyString
      /\ prefix "json" (w1 ++ body ++ w2 ++ "```" ++ post) = false) ->
  forallb_str is_space w1 = true ->
  forallb_str is_space w2 = true ->
  forallb_str no_backtick body = true ->
  (body = EmptyString -> w2 = EmptyString) ->
  (forall c b, body = String c b -> is_space c = false) ->
  (forall b c, body = (b ++ String c EmptyString)%string ->
               is_space c = false) ->
  first_way fence_re bos
    ("```" ++ tag ++ w1 ++ body ++ w2 ++ "```" ++ post)
  = Some (MObj ("```" ++ tag ++ w1 ++ body ++ w2 ++ "```")
               [(1%nat, body)] post).
Proof.
  intros Htag Hw1 Hw2 Hbody Hempty Hhead Hlast.
  apply first_way_hd. unfold fence_re. cbn [seq].
  assert (H5 : forall b,
    hd_error (ways (Seq (star is_space) (Lit "```")) b
                (w2 ++ "```" ++ post))
    = Some ((w2 ++ "```")%string, [], post)).
  { intros b.
    apply (hd_seq (star is_space) (Lit "```") b _ w2 ("```" ++ post)
             "```" post [] []).
    - apply hd_star; [exact Hw2|]. right. eexists. eexists.
      split; reflexivity.
    - apply hd_lit. }
  assert (H4 : forall b,
    hd_error (ways (Seq (Grp 1 (Rep any_char 0 None false))
                        (Seq (star is_space) (Lit "```"))) b
                (body ++ w2 ++ "```" ++ post))
    = Some ((body ++ w2 ++ "```")%string, [(1%nat, body)], post)).
  { intros b.
    destruct (splits_any_decompose body (w2 ++ "```" ++ post)
                (String.length (body ++ w2 ++ "```" ++ post)))
      as (l1 & l2 & Hl & Hin).
    { rewrite length_append. lia. }
    pose proof (ways_lazy_group b (body ++ w2 ++ "```" ++ post)) as Hways.
    rewrite Hl, map_app in Hways. cbn [map fst snd] in Hways.
    apply (hd_seq_skip _ _ b _ _ _ body (w2 ++ "```" ++ post)
             (w2 ++ "```") post [(1%nat, body)] [] Hways); [|apply H5].
    intros t g s' Hin'.
    apply in_map_iff in Hin'. destruct Hin' as ([t' r'] & Heq & Hin').
    cbn [fst snd] in Heq. inversion Heq; subst.
    destruct (Hin _ _ Hin') as (r0 & Hne & Hb & ->).
    destruct (last_char body) as (b' & c' & Hbc).
    { intros Hnil. rewrite Hnil in Hb. destruct t; [|discriminate Hb].
      cbn [append] in Hb. now subst r0. }
    destruct (suffix_last t r0 b' c') as (u & Hu);
      [now rewrite <- Hb | exact Hne|].
    apply no_fence_after.
    - rewrite Hb, forallb_str_append in Hbody.
      apply andb_prop in Hbody. tauto.
    - exists u, c'. split; [exact Hu | exact (Hlast b' c' Hbc)]. }
  assert (H3 : forall b,
    hd_error (ways (Seq (star is_space)
                      (Seq (Grp 1 (Rep any_char 0 None false))
                           (Seq (star is_space) (Lit "```")))) b
                (w1 ++ body ++ w2 ++ "```" ++ post))
    = Some ((w1 ++ body ++ w2 ++ "```")%string, [(1%nat, body)], post)).
  { intros b.
    apply (hd_seq (star is_space) _ b _ w1 (body ++ w2 ++ "```" ++ post)
             (body ++ w2 ++ "```") post [] [(1%nat, body)]); [|apply H4].
    apply hd_star; [exact Hw1|]. right.
    destruct body as [|c body'].
    - rewrite (Hempty eq_refl). eexists. eexists. split; reflexivity.
    - exists c. eexists. split; [reflexivity|].
      exact (Hhead c body' eq_refl). }
  apply (hd_seq (Lit "```") _ bos _ "```"
           (tag ++ w1 ++ body ++ w2 ++ "```" ++ post)
           (tag ++ w1 ++ body ++ w2 ++ "```") post [] [(1%nat, body)]);
    [apply hd_lit|].
  destruct Htag as [->|[-> Hpre]].
  - apply (hd_seq (Opt (Lit "json")) _ _ _ "json"
             (w1 ++ body ++ w2 ++ "```" ++ post)
             (w1 ++ body ++ w2 ++ "```") post [] [(1%nat, body)]);
      [apply hd_opt_lit | apply H3].
  - apply (hd_seq (Opt (Lit "json")) _ _ _ EmptyString
             (w1 ++ body ++ w2 ++ "```" ++ post)
             (w1 ++ body ++ w2 ++ "```") post [] [(1%nat, body)]);
      [apply hd_opt_none; exact Hpre | apply H3].
Qed.

Lemma search_at_first (r : re) (bos : bool) (s : string) (m : mobj) :
  first_way r bos s = Some m -> search_at r bos s = Some m.
Proof. intros H. destruct s; cbn [search_at]; now rewrite H. Qed.

(** No match of the fence pattern starts before the first backtick. *)
Lemma search_at_skip (pre z : string) : forall bos : bool,
  forallb_str no_backtick pre = true ->
  exists bos', search_at fence_re bos (pre ++ z) = search_at fence_re bos' z.
Proof.
  induction pre as [|c pre IH]; intros bos Hpre; [now exists bos|].
  cbn [forallb_str] in Hpre. apply andb_prop in Hpre.
  destruct Hpre as [Hc Hpre].
  destruct (IH false Hpre) as [bos' Hrest]. exists bos'.
  cbn [append search_at].
  assert (Hnone : first_way fence_re bos (String c (pre ++ z)) = None).
  { unfold first_way, fence_re. cbn [seq ways].
    now rewrite (no_backtick_prefix c _ Hc). }
  now rewrite Hnone.
Qed.

(** The text handed to [json.loads] for a reply with a fenced block:
    what stands between the opening fence (with its tag [json], if any)
    and the closing fence, stripped. *)
Lemma fenced_candidate (tag pre inner post : string) :
  tag = "json"
  \/ (tag = EmptyString /\ prefix "json" (inner ++ "```" ++ post) = false) ->
  forallb_str no_backtick pre = true ->
  forallb_str no_backtick inner = true ->
  json_candidate (pre ++ "```" ++ tag ++ inner ++ "```" ++ post)
  = Ok (strip inner).
Proof.
  intros Htag Hpre Hinner.
  destruct (strip_decompose inner) as (w1 & w2 & Hs & Hw1 & Hw2 & Hnil & Hhd).
  assert (Hbody : forallb_str no_backtick (strip inner) = true).
  { rewrite Hs, !forallb_str_append in Hinner.
    apply andb_prop in Hinner. destruct Hinner as [_ Hinner].
    apply andb_prop in Hinner. tauto. }
  assert (Hshape :
    (pre ++ "```" ++ tag ++ inner ++ "```" ++ post)%string
    = (pre ++ "```" ++ tag ++ w1 ++ strip inner ++ w2 ++ "```" ++ post)%string).
  { rewrite Hs at 1. now rewrite !append_assoc. }
  destruct (search_at_skip pre
              ("```" ++ tag ++ w1 ++ strip inner ++ w2 ++ "```" ++ post)
              true Hpre) as [bos' Hskip].
  unfold json_candidate, search. rewrite Hshape, Hskip.
  assert (Htag' :
    tag = "json"
    \/ (tag = EmptyString
        /\ prefix "json" (w1 ++ strip inner ++ w2 ++ "```" ++ post) = false)).
  { destruct Htag as [->|[-> Hp]]; [now left|].
    right. split; [reflexivity|].
    rewrite Hs, !append_assoc in Hp. exact Hp. }
  rewrite (search_at_first _ _ _ _
             (fence_match bos' tag w1 (strip inner) w2 post
                Htag' Hw1 Hw2 Hbody Hnil Hhd
                (fun b c H => strip_last inner b c H))).
  unfold group. cbn [groups group_in Nat.eqb].
  now rewrite strip_idempotent.
Qed.

Section WithLibrary.

Context {image json : Type}.
Variable lib : library image json.

(** A reply with a fenced block, tagged [json] or not, in which the
    text before the block and the text inside it have no backtick: what
    [json.loads] is given is the inside of the block, stripped, whatever
    surrounds the block.  What [json.loads] reads is returned as
    parsed, what it rejects with [json.JSONDecodeError] goes to the
    regex fallback, in both cases with the whole reply as raw response;
    any other exception of [json.loads] leaves [_extract_with_ai]. *)
Theorem fenced_reply_is_read_inside
  (api_key text_content tag pre inner post : string) :
  tag = "json"
  \/ (tag = EmptyString /\ prefix "json" (inner ++ "```" ++ post) = false) ->
  forallb_str no_backtick pre = true ->
  forallb_str no_backtick inner = true ->
  chat_completion lib api_key text_content
  = Ok (pre ++ "```" ++ tag ++ inner ++ "```" ++ post)%string ->
  json_candidate (pre ++ "```" ++ tag ++ inner ++ "```" ++ post)
  = Ok (strip inner)
  /\ (forall j, json_loads lib (strip inner) = Loaded j ->
        _extract_with_ai lib api_key text_content
        = Ok (AiAnswer (Parsed j)
                (pre ++ "```" ++ tag ++ inner ++ "```" ++ post)%string))
  /\ (json_loads lib (strip inner) = JSONDecodeError ->
      exists record,
        _extract_with_regex (strip inner) = Some record
        /\ _extract_with_ai lib api_key text_content
           = Ok (AiAnswer (Extracted record)
                   (pre ++ "```" ++ tag ++ inner ++ "```" ++ post)%string))
  /\ (forall e, json_loads lib (strip inner) = OtherError e ->
        _extract_with_ai lib api_key text_content = Raise e).
Proof.
  intros Htag Hpre Hinner Hchat.
  pose proof (fenced_candidate tag pre inner post Htag Hpre Hinner) as Hcand.
  split; [exact Hcand|]. split; [|split].
  - intros j Hj. unfold _extract_with_ai, obind.
    now rewrite Hchat, Hcand, Hj.
  - intros Hj.
    destruct (ExtractorFacts.extract_with_regex_returns (strip inner))
      as (record & items & Hrec & _).
    exists record. split; [exact Hrec|].
    unfold _extract_with_ai, obind. now rewrite Hchat, Hcand, Hj, Hrec.
  - intros e Hj. unfold _extract_with_ai, obind.
    now rewrite Hchat, Hcand, Hj.
Qed.

End WithLibrary.

Lemma fenced_reply_is_read_inside_witness :
  _extract_with_ai (Inputs.library_with_reply Inputs.fenced_reply)
    "sk-key" "converted"
  = Ok (AiAnswer (Parsed tt) Inputs.fenced_reply).
Proof.
  destruct (fenced_reply_is_read_inside
              (Inputs.library_with_reply Inputs.fenced_reply)
              "sk-key" "converted" "json"
              ("Here is the invoice:" ++ newline)%string
              (newline ++ "{}" ++ newline)%string EmptyString
              (or_introl eq_refl) eq_refl eq_refl eq_refl)
    as (_ & Hparsed & _).
  exact (Hparsed tt eq_refl).
Defined.

End FenceFacts.

(* ================================================================== *)
(** ** The field loop, line by line *)
(* ================================================================== *)

Module FieldLoopFacts.
Import PyStr Re Py DocumentProcessor StrFacts ReFacts NumFacts DictFacts.
Import ExtractorFacts FenceFacts.

(** *** Digits and the other classes *)

Lemma space_not_digit (c : ascii) : is_space c = true -> is_digit c = false.
Proof.
  unfold is_space, is_digit. intros H.
  destruct (Nat.leb_spec 48 (code c)) as [Hlo|]; [|reflexivity].
  destruct (Nat.leb_spec (code c) 57) as [Hhi|]; [|reflexivity].
  repeat match type of H with
         | (_ || _ = true) => apply orb_prop in H; destruct H as [H|H]
         end;
    try (apply andb_prop in H; destruct H as [Ha Hb];
         apply Nat.leb_le in Ha, Hb; lia);
    apply Nat.eqb_eq in H; lia.
Qed.

Lemma dollar_not_digit (c : ascii) :
  chr_is "$" c = true -> is_digit c = false.
Proof.
  unfold chr_is. intros H. apply Ascii.eqb_eq in H. now subst c.
Qed.

Lemma digit_free_append (a b : string) :
  digit_free (a ++ b) = digit_free a && digit_free b.
Proof. apply forallb_str_append. Qed.

(** Where the first digit of a text is. *)
Lemma first_digit_unique (x y u v : string) :
  (x ++ u)%string = (y ++ v)%string ->
  digit_free x = true -> digit_free y = true ->
  (exists c u', u = String c u' /\ is_digit c = true) ->
  (exists c v', v = String c v' /\ is_digit c = true) ->
  x = y /\ u = v.
Proof.
  revert y. induction x as [|a x IH]; intros y H Hx Hy Hu Hv.
  - destruct y as [|b y]; [now split|].
    cbn [append] in H. destruct Hu as (c & u' & -> & Hc).
    inversion H; subst. unfold digit_free in Hy. cbn [forallb_str] in Hy.
    rewrite Hc in Hy. discriminate Hy.
  - destruct y as [|b y].
    + cbn [append] in H. destruct Hv as (c & v' & -> & Hc).
      inversion H; subst. unfold digit_free in Hx. cbn [forallb_str] in Hx.
      rewrite Hc in Hx. discriminate Hx.
    + cbn [append] in H. inversion H; subst.
      unfold digit_free in Hx, Hy. cbn [forallb_str] in Hx, Hy.
      apply andb_prop in Hx, Hy.
      destruct (IH y H2 (proj2 Hx) (proj2 Hy) Hu Hv) as [-> ->].
      now split.
Qed.

(** *** The first way to match the amount pattern *)

(** The splits of a run of at most [n] characters end with the run
    itself, when it is [n] long or cannot go on. *)
Lemma splits_bounded_last (p : ascii -> bool) (i tail : string) :
  forall n : nat,
  forallb_str p i = true ->
  (String.length i <= n)%nat ->
  (String.length i = n \/ tail = EmptyString
   \/ exists c t, tail = String c t /\ p c = false) ->
  exists l, splits p n (i ++ tail) = l ++ [(i, tail)].
Proof.
  induction i as [|c i IH]; intros n Hi Hn Hstop.
  - cbn [append]. exists []. cbn [app].
    destruct n as [|n]; [now destruct tail|].
    destruct Hstop as [Hlen|[->|(c & t & -> & Hc)]].
    + discriminate Hlen.
    + reflexivity.
    + cbn [splits]. now rewrite Hc.
  - destruct n as [|n]; [cbn [String.length] in Hn; lia|].
    cbn [String.length] in Hn, Hstop.
    cbn [forallb_str] in Hi. apply andb_prop in Hi. destruct Hi as [Hc Hi].
    destruct (IH n Hi ltac:(lia)) as [l Hl].
    { destruct Hstop as [Hlen|H]; [left; lia | right; exact H]. }
    cbn [append splits]. rewrite Hc, Hl, map_app. cbn [map fst snd].
    eexists (_ :: _). reflexivity.
Qed.

(** A greedy [c{lo,hi}] first takes the whole run, up to [hi]. *)
Lemma hd_between (p : ascii -> bool) (lo hi : nat) (bos : bool)
  (i tail : string) :
  forallb_str p i = true ->
  (lo <= String.length i <= hi)%nat ->
  (String.length i = hi \/ tail = EmptyString
   \/ exists c t, tail = String c t /\ p c = false) ->
  hd_error (ways (between p lo hi) bos (i ++ tail)) = Some (i, [], tail).
Proof.
  intros Hi Hlen Hstop. unfold between. cbn [ways]. unfold rep_ways.
  destruct (splits_bounded_last p i tail hi Hi ltac:(lia) Hstop) as [l Hl].
  rewrite Hl, filter_app, rev_app_distr. cbn [filter fst].
  replace (lo <=? String.length i)%nat with true
    by (symmetry; apply Nat.leb_le; lia).
  reflexivity.
Qed.

Lemma hd_error_map {A B} (f : A -> B) (l : list A) (x : A) :
  hd_error l = Some x -> hd_error (map f l) = Some (f x).
Proof. destruct l; [discriminate|]. intros H. inversion H. reflexivity. Qed.

(** The optional fraction is taken when it is there. *)
Lemma hd_fraction (bos : bool) (tail : string) :
  exists r,
    hd_error (ways (Opt (Seq (Cls sep_dec) (exactly is_digit 2))) bos tail)
    = Some (fraction_at tail, [], r).
Proof.
  unfold exactly, fraction_at.
  destruct tail as [|c [|d1 [|d2 t]]]; cbn [ways].
  - eexists; reflexivity.
  - destruct (sep_dec c); cbn [flat_map map app rep_ways splits filter
      fst snd String.length Nat.leb rev hd_error]; eexists; reflexivity.
  - destruct (sep_dec c); [|eexists; reflexivity].
    unfold rep_ways. cbn [flat_map map app splits].
    destruct (is_digit d1);
      cbn [flat_map map app filter fst snd String.length Nat.leb rev
           hd_error andb];
      eexists; reflexivity.
  - destruct (sep_dec c); [|eexists; reflexivity].
    unfold rep_ways. cbn [flat_map map app splits andb].
    destruct (is_digit d1); [|cbn [flat_map map app filter fst snd
      String.length Nat.leb rev hd_error andb]; eexists; reflexivity].
    destruct (is_digit d2);
      cbn [flat_map map app filter fst snd String.length Nat.leb rev
           hd_error andb append];
      eexists; reflexivity.
Qed.

(** [(\d{1,3}(?:[.,]\d{2})?)] *)
Abbreviation amount_re :=
  (Grp 1 (Seq (between is_digit 1 3)
              (Opt (Seq (Cls sep_dec) (exactly is_digit 2))))).

(** At a digit the group takes up to three digits, and the fraction
    when it follows them. *)
Lemma hd_amount (bos : bool) (i tail : string) :
  forallb_str is_digit i = true ->
  (1 <= String.length i <= 3)%nat ->
  (String.length i = 3%nat \/ tail = EmptyString
   \/ exists c t, tail = String c t /\ is_digit c = false) ->
  exists r,
    hd_error (ways amount_re bos (i ++ tail))
    = Some ((i ++ fraction_at tail)%string,
            [(1%nat, (i ++ fraction_at tail)%string)], r).
Proof.
  intros Hi Hlen Hstop.
  destruct (hd_fraction (bos && is_empty i) tail) as [r Hf].
  pose proof (hd_between is_digit 1 3 bos i tail Hi Hlen Hstop) as Hb.
  pose proof (hd_seq _ _ bos _ _ _ _ _ _ _ Hb Hf) as Hs.
  exists r. cbn [ways] in *.
  now rewrite (hd_error_map _ _ _ Hs).
Qed.

(** Where there is no digit the group does not match. *)
Lemma ways_amount_nil (bos : bool) (u : string) :
  (u = EmptyString \/ exists c u', u = String c u' /\ is_digit c = false) ->
  ways amount_re bos u = [].
Proof.
  intros Hu. unfold between. cbn [ways]. unfold rep_ways.
  destruct Hu as [->|(c & u' & -> & Hc)]; cbn [splits]; [|rewrite Hc];
    reflexivity.
Qed.

(** An optional character before a pattern: the ways with the
    character come first. *)
Lemma ways_opt_cls_seq (p : ascii -> bool) (r : re) (bos : bool)
  (s : string) :
  ways (Seq (Opt (Cls p)) r) bos s
  = match s with
    | String c s' =>
        if p c
        then map (fun w => match w with
                           | (t, g, s2) => (String c t, g, s2)
                           end)
                 (ways r false s')
        else []
    | EmptyString => []
    end ++ ways r bos s.
Proof.
  assert (Hid : forall l : list way,
            map (fun w2 => match w2 with
                           | (t2, g2, s2) =>
                               ((EmptyString ++ t2)%string, [] ++ g2, s2)
                           end) l = l).
  { induction l as [|[[t g] s2] l IH]; [reflexivity|].
    cbn [map]. rewrite IH. reflexivity. }
  cbn [ways]. rewrite flat_map_app. cbn [flat_map is_empty].
  rewrite andb_true_r, app_nil_r, Hid. f_equal.
  destruct s as [|c s']; [reflexivity|].
  destruct (p c); [|reflexivity].
  cbn [flat_map is_empty append app]. rewrite andb_false_r, app_nil_r.
  reflexivity.
Qed.

Section Amount.

Variables i tail : string.
Hypothesis Hi : forallb_str is_digit i = true.
Hypothesis Hlen : (1 <= String.length i <= 3)%nat.
Hypothesis Hstop :
  String.length i = 3%nat \/ tail = EmptyString
  \/ exists c t, tail = String c t /\ is_digit c = false.

(** The first way of a list of ways, if any, captures the amount. *)
Abbreviation captures l :=
  (forall (t : string) (g : caps) (r : string),
     hd_error (l : list way) = Some (t, g, r) ->
     group_in 1 g = Some (i ++ fraction_at tail)%string).

Lemma captures_nil : captures [].
Proof. intros t g r H. discriminate H. Qed.

Lemma captures_app (l1 l2 : list way) :
  captures l1 -> captures l2 -> captures (l1 ++ l2).
Proof.
  intros H1 H2. destruct l1 as [|w l1]; [exact H2|].
  intros t g r H. exact (H1 t g r H).
Qed.

Lemma captures_map (c : ascii) (l : list way) :
  captures l ->
  captures (map (fun w => match w with
                          | (t, g, s2) => (String c t, g, s2)
                          end) l).
Proof.
  intros H. destruct l as [|[[t g] s2] l]; [exact captures_nil|].
  intros t' g' r' Hhd. cbn [map hd_error] in Hhd. inversion Hhd; subst.
  exact (H t g' r' eq_refl).
Qed.

Lemma amount_starts : exists c rest, (i ++ tail)%string = String c rest
                                     /\ is_digit c = true.
Proof.
  destruct i as [|c i']; [cbn [String.length] in Hlen; lia|].
  cbn [forallb_str] in Hi. apply andb_prop in Hi.
  exists c, (i' ++ tail)%string. split; [reflexivity | exact (proj1 Hi)].
Qed.

Lemma captures_amount (y : string) (bos : bool) :
  digit_free y = true -> captures (ways amount_re bos (y ++ i ++ tail)).
Proof.
  intros Hy. destruct y as [|c y].
  - cbn [append]. destruct (hd_amount bos i tail Hi Hlen Hstop) as [r Hr].
    intros t g r' H. rewrite Hr in H. inversion H; subst.
    cbn [group_in Nat.eqb]. reflexivity.
  - unfold digit_free in Hy. cbn [forallb_str] in Hy.
    apply andb_prop in Hy. destruct Hy as [Hc _].
    apply negb_true_iff in Hc.
    rewrite ways_amount_nil; [exact captures_nil|].
    right. exists c, (y ++ i ++ tail)%string. split; [reflexivity | exact Hc].
Qed.

Lemma captures_opt (p : ascii -> bool) (r : re) :
  (forall c, p c = true -> is_digit c = false) ->
  (forall y bos, digit_free y = true ->
                 captures (ways r bos (y ++ i ++ tail))) ->
  forall y bos, digit_free y = true ->
    captures (ways (Seq (Opt (Cls p)) r) bos (y ++ i ++ tail)).
Proof.
  intros Hp Hr y bos Hy. rewrite ways_opt_cls_seq.
  apply captures_app; [|exact (Hr y bos Hy)].
  destruct y as [|c y].
  - cbn [append]. destruct amount_starts as (c & rest & -> & Hc).
    destruct (p c) eqn:E; [|exact captures_nil].
    rewrite (Hp c E) in Hc. discriminate Hc.
  - cbn [append]. destruct (p c); [|exact captures_nil].
    apply captures_map, Hr.
    unfold digit_free in *. cbn [forallb_str] in Hy.
    apply andb_prop in Hy. exact (proj2 Hy).
Qed.

Lemma captures_total (y : string) (bos : bool) :
  digit_free y = true -> captures (ways total_re bos (y ++ i ++ tail)).
Proof.
  unfold total_re. cbn [seq]. revert y bos.
  apply captures_opt; [exact dollar_not_digit|].
  apply captures_opt; [exact space_not_digit|].
  exact captures_amount.
Qed.

Lemma ways_total_some (bos : bool) : ways total_re bos (i ++ tail) <> [].
Proof.
  unfold total_re. cbn [seq]. rewrite !ways_opt_cls_seq.
  destruct (hd_amount bos i tail Hi Hlen Hstop) as [r Hr].
  intros H. apply app_eq_nil in H. destruct H as [_ H].
  apply app_eq_nil in H. destruct H as [_ H].
  rewrite H in Hr. discriminate Hr.
Qed.

Lemma first_way_total (y : string) (bos : bool) (m : mobj) :
  digit_free y = true ->
  first_way total_re bos (y ++ i ++ tail) = Some m ->
  group 1 m = Some (i ++ fraction_at tail)%string.
Proof.
  intros Hy. unfold first_way.
  destruct (ways total_re bos (y ++ i ++ tail)) as [|[[t g] r] l] eqn:E;
    [discriminate|].
  intros H. inversion H; subst.
  pose proof (captures_total y bos Hy) as Hc. rewrite E in Hc.
  exact (Hc t g r eq_refl).
Qed.

(** The search stops at the first digit, or just before it. *)
Lemma search_at_total (y : string) : forall bos : bool,
  digit_free y = true ->
  exists m, search_at total_re bos (y ++ i ++ tail) = Some m
            /\ group 1 m = Some (i ++ fraction_at tail)%string.
Proof.
  induction y as [|c y IH]; intros bos Hy.
  - cbn [append].
    destruct (first_way total_re bos (i ++ tail)) as [m|] eqn:E.
    + exists m. split; [|exact (first_way_total EmptyString bos m Hy E)].
      destruct (i ++ tail)%string; cbn [search_at]; now rewrite E.
    + exfalso. apply (ways_total_some bos). unfold first_way in E.
      destruct (ways total_re bos (i ++ tail)) as [|[[t g] r] l];
        [reflexivity | discriminate E].
  - cbn [append search_at].
    destruct (first_way total_re bos (String c (y ++ i ++ tail)))
      as [m|] eqn:E.
    + exists m. split; [reflexivity|].
      exact (first_way_total (String c y) bos m Hy E).
    + apply IH. unfold digit_free in *. cbn [forallb_str] in Hy.
      apply andb_prop in Hy. exact (proj2 Hy).
Qed.

End Amount.

(** A line without a digit has no amount. *)
Lemma ways_total_nil (s : string) (bos : bool) :
  digit_free s = true -> ways total_re bos s = [].
Proof.
  intros Hs.
  assert (Hnil : forall u b, digit_free u = true -> ways amount_re b u = []).
  { intros u b Hu. apply ways_amount_nil. destruct u as [|c u]; [now left|].
    right. exists c, u. split; [reflexivity|].
    unfold digit_free in Hu. cbn [forallb_str] in Hu.
    apply andb_prop in Hu. now apply negb_true_iff. }
  assert (Htl : forall c u, digit_free (String c u) = true ->
                            digit_free u = true).
  { intros c u Hu. unfold digit_free in *. cbn [forallb_str] in Hu.
    apply andb_prop in Hu. exact (proj2 Hu). }
  unfold total_re. cbn [seq]. rewrite !ways_opt_cls_seq, (Hnil s bos Hs).
  destruct s as [|c s]; [reflexivity|].
  rewrite ways_opt_cls_seq, (Hnil s false (Htl _ _ Hs)).
  destruct s as [|c' s].
  - destruct (chr_is "$" c), (is_space c); reflexivity.
  - rewrite (Hnil s false (Htl _ _ (Htl _ _ Hs))).
    destruct (chr_is "$" c), (is_space c), (is_space c'); reflexivity.
Qed.

Lemma search_at_total_none (s : string) : forall bos : bool,
  digit_free s = true -> search_at total_re bos s = None.
Proof.
  induction s as [|c s IH]; intros bos Hs; cbn [search_at];
    unfold first_way; rewrite (ways_total_nil _ bos Hs); [reflexivity|].
  apply IH. unfold digit_free in *. cbn [forallb_str] in Hs.
  apply andb_prop in Hs. exact (proj2 Hs).
Qed.

(** *** The lookahead and the probe *)

Lemma get_next_nonempty_is (following : list string) (next : string) :
  next_is following next -> get_next_nonempty following = next.
Proof.
  intros [blanks Hb | blanks l rest Hb Hl].
  - induction Hb as [|b blanks Hb1 _ IH]; [reflexivity|].
    cbn [get_next_nonempty]. rewrite Hb1. exact IH.
  - induction Hb as [|b blanks Hb1 _ IH]; cbn [app get_next_nonempty].
    + destruct (strip l); [contradiction | reflexivity].
    + rewrite Hb1. exact IH.
Qed.

Lemma probe_total_skips (skipped later : list string) (target : string) :
  Forall (fun l => digit_free l = true) skipped ->
  probe_total (skipped ++ target :: later)
  = match search total_re target with
    | Some m => Some m
    | None => probe_total later
    end.
Proof.
  induction 1 as [|l skipped Hl _ IH]; [reflexivity|].
  cbn [app probe_total]. unfold search at 1.
  now rewrite (search_at_total_none l true Hl).
Qed.

Lemma probe_total_none (window : list string) :
  Forall (fun l => digit_free l = true) window -> probe_total window = None.
Proof.
  induction 1 as [|l window Hl _ IH]; [reflexivity|].
  cbn [probe_total]. unfold search.
  now rewrite (search_at_total_none l true Hl).
Qed.

(** The text after the digits is a fraction of the pattern, or
    nothing. *)
Lemma fraction_at_shape (tail : string) :
  fraction_at tail = EmptyString
  \/ exists c d, fraction_at tail = String c d /\ one_of ".," c = true
                 /\ forallb_str is_digit d = true
                 /\ String.length d = 2%nat.
Proof.
  unfold fraction_at.
  destruct tail as [|c [|d1 [|d2 t]]]; try (now left).
  destruct (sep_dec c) eqn:Hc; [|now left].
  destruct (is_digit d1) eqn:H1; [|now left].
  destruct (is_digit d2) eqn:H2; [|now left].
  right. exists c, (String d1 (String d2 EmptyString)).
  cbn [andb forallb_str String.length]. rewrite H1, H2. auto.
Qed.

Lemma fraction_at_digit (c : ascii) (t : string) :
  is_digit c = true -> fraction_at (String c t) = EmptyString.
Proof.
  intros Hc. unfold fraction_at.
  destruct t as [|d1 [|d2 t]]; try reflexivity.
  destruct (sep_dec c) eqn:Hs; [|reflexivity].
  destruct (sep_dec_cases c Hs) as [-> | ->]; discriminate Hc.
Qed.

(** *** One iteration on a line that names a total *)

Lemma field_step_total (line : string) (following : list string)
  (next : string) (inv : dict) :
  contains "total" (lower (strip line)) = true ->
  existsb (fun k => contains k (lower (strip line))) keywords_before_total
  = false ->
  next_is following next ->
  existsb (fun k => contains k (lower (line ++ " " ++ next))) date_keywords
  = false ->
  field_step line following inv =
  match probe_total (line :: firstn 3 following) with
  | Some m =>
      match group_float 1 m with
      | Some q => Some (dict_set "total_amount" (VNum q) inv)
      | None => None
      end
  | None => Some inv
  end.
Proof.
  intros Htotal Hline Hnext Hdate.
  unfold keywords_before_total in Hline. unfold date_keywords in Hdate.
  cbn [existsb] in Hline, Hdate.
  repeat match type of Hline with
         | (_ || _ = false) =>
             let H := fresh "Hk" in
             apply orb_false_elim in Hline; destruct Hline as [H Hline]
         end.
  repeat match type of Hdate with
         | (_ || _ = false) =>
             let H := fresh "Hd" in
             apply orb_false_elim in Hdate; destruct Hdate as [H Hdate]
         end.
  unfold field_step, bind. cbv zeta.
  rewrite (get_next_nonempty_is _ _ Hnext).
  rewrite Hk, Hk0, Hk1, Hk2, Hk3, Hk4, Hk5, Hk6, Hk7, Hd, Hd0, Hd1, Hd2,
    Htotal, orb_true_r.
  cbn [orb andb probe_total]. reflexivity.
Qed.

(** *** The loop around an iteration *)

Lemma field_loop_reaches (before rest : list string) : forall inv : dict,
  exists inv1, field_loop (before ++ rest) inv = field_loop rest inv1.
Proof.
  induction before as [|l before IH]; intros inv; [now exists inv|].
  cbn [app field_loop]. unfold bind.
  destruct (field_step_returns l (before ++ rest) inv) as [inv' ->].
  apply IH.
Qed.

Lemma dict_has_set_keeps (k k' : string) (v : value) (d : dict) :
  dict_has k d = true -> dict_has k (dict_set k' v d) = true.
Proof.
  intros H. apply dict_has_get in H. destruct H as [v0 Hv].
  apply dict_has_get. destruct (string_dec k' k) as [->|Hne].
  - exists v. apply dict_get_set_same.
  - exists v0. now rewrite dict_get_set_other.
Qed.

(** An iteration removes no key. *)
Lemma field_step_keeps_has (k line : string) (following : list string)
  (inv inv' : dict) :
  field_step line following inv = Some inv' ->
  dict_has k inv = true -> dict_has k inv' = true.
Proof.
  unfold field_step, bind. cbv zeta. intros H Hk.
  repeat match type of H with
         | context [if ?c then _ else _] => destruct c eqn:?
         | context [match ?o with Some _ => _ | None => _ end] =>
             destruct o eqn:?
         end;
    try discriminate; inversion H; subst; clear H;
    try exact Hk; now apply dict_has_set_keeps.
Qed.

Lemma field_loop_keeps_has (k : string) (lines : list string) :
  forall inv inv' : dict,
  field_loop lines inv = Some inv' ->
  dict_has k inv = true -> dict_has k inv' = true.
Proof.
  induction lines as [|line following IH]; intros inv inv' H Hk.
  - inversion H; subst. exact Hk.
  - cbn [field_loop] in H. unfold bind in H.
    destruct (field_step line following inv) as [inv1|] eqn:E;
      [|discriminate].
    exact (IH inv1 inv' H (field_step_keeps_has k _ _ _ _ E Hk)).
Qed.

(** A line that does not name the invoice number leaves it. *)
Lemma field_step_keeps_number (line : string) (following : list string)
  (inv inv' : dict) :
  contains "invoice no" (lower (strip line))
  || contains "invoice number" (lower (strip line)) = false ->
  field_step line following inv = Some inv' ->
  dict_get "invoice_number" inv' = dict_get "invoice_number" inv.
Proof.
  intros Hno. unfold field_step, bind. cbv zeta. rewrite Hno. intros H.
  repeat match type of H with
         | context [if ?c then _ else _] => destruct c eqn:?
         | context [match ?o with Some _ => _ | None => _ end] =>
             destruct o eqn:?
         end;
    try discriminate; inversion H; subst; clear H;
    try reflexivity; apply dict_get_set_other; discriminate.
Qed.

Lemma field_loop_keeps_number (lines : list string) :
  forall inv inv' : dict,
  Forall (fun l => contains "invoice no" (lower (strip l))
                   || contains "invoice number" (lower (strip l)) = false)
         lines ->
  field_loop lines inv = Some inv' ->
  dict_get "invoice_number" inv' = dict_get "invoice_number" inv.
Proof.
  induction lines as [|line following IH]; intros inv inv' Hno H.
  - now inversion H.
  - cbn [field_loop] in H. unfold bind in H.
    destruct (field_step line following inv) as [inv1|] eqn:E;
      [|discriminate].
    inversion Hno as [|? ? Hl Hrest]; subst.
    rewrite (IH inv1 inv' Hrest H).
    exact (field_step_keeps_number _ _ _ _ Hl E).
Qed.

Lemma prefix_app_l (a b s : string) :
  prefix (a ++ b) s = true -> prefix a s = true.
Proof.
  revert s. induction a as [|c a IH]; intros s H; [now destruct s|].
  destruct s as [|c' s]; cbn [append prefix] in *; [discriminate|].
  destruct (ascii_dec c c'); [now apply IH | discriminate].
Qed.

Lemma contains_app_l (a b s : string) :
  contains (a ++ b) s = true -> contains a s = true.
Proof.
  induction s as [|c s IH]; cbn [contains]; intros H;
    apply orb_prop in H; apply orb_true_iff.
  - destruct H as [H|H]; [left; now apply (prefix_app_l a b) | discriminate].
  - destruct H as [H|H]; [left; now apply (prefix_app_l a b) | right; auto].
Qed.

(** A line that does not name a total leaves the total. *)
Lemma field_step_keeps_total (line : string) (following : list string)
  (inv inv' : dict) :
  contains "total" (lower (strip line)) = false ->
  field_step line following inv = Some inv' ->
  dict_get "total_amount" inv' = dict_get "total_amount" inv.
Proof.
  intros Hno.
  assert (Hno' : contains "total amount" (lower (strip line)) = false).
  { destruct (contains "total amount" (lower (strip line))) eqn:E;
      [|reflexivity].
    change "total amount" with ("total" ++ " amount")%string in E.
    apply contains_app_l in E. congruence. }
  unfold field_step, bind. cbv zeta. rewrite Hno, Hno'. cbn [orb].
  intros H.
  repeat match type of H with
         | context [if ?c then _ else _] => destruct c eqn:?
         | context [match ?o with Some _ => _ | None => _ end] =>
             destruct o eqn:?
         end;
    try discriminate; inversion H; subst; clear H;
    try reflexivity; apply dict_get_set_other; discriminate.
Qed.

Lemma field_loop_keeps_total (lines : list string) :
  forall inv inv' : dict,
  Forall (fun l => contains "total" (lower (strip l)) = false) lines ->
  field_loop lines inv = Some inv' ->
  dict_get "total_amount" inv' = dict_get "total_amount" inv.
Proof.
  induction lines as [|line following IH]; intros inv inv' Hno H.
  - now inversion H.
  - cbn [field_loop] in H. unfold bind in H.
    destruct (field_step line following inv) as [inv1|] eqn:E;
      [|discriminate].
    inversion Hno as [|? ? Hl Hrest]; subst.
    rewrite (IH inv1 inv' Hrest H).
    exact (field_step_keeps_total _ _ _ _ Hl E).
Qed.

(** The fields of the record are those the field loop left. *)
Lemma extract_get (text k : string) :
  k <> "line_items" ->
  exists invoice,
    field_loop (splitlines text) [] = Some invoice
    /\ dict_get k (extract_invoice_data text) = dict_get k invoice.
Proof.
  intros Hk. unfold extract_invoice_data, extract_body, bind. cbv zeta.
  destruct (field_loop_returns (splitlines text) []) as [invoice H1].
  rewrite H1.
  destruct (item_loop_returns (splitlines text)
              (ItemState [] empty_item [] false)) as [st H2];
    [now left|].
  rewrite H2. exists invoice. split; [reflexivity|].
  rewrite !dict_get_set_other by congruence. reflexivity.
Qed.

(** What the loop leaves under a key that the iteration on [line]
    binds: something, and the value bound there when no later iteration
    rebinds the key. *)
Lemma extract_after_step (text k : string) (v : value)
  (before following : list string) (line : string) :
  k <> "line_items" ->
  splitlines text = before ++ line :: following ->
  (forall inv, field_step line following inv = Some (dict_set k v inv)) ->
  (exists v', dict_get k (extract_invoice_data text) = Some v')
  /\ ((forall inv inv', field_loop following inv = Some inv' ->
                        dict_get k inv' = dict_get k inv) ->
      dict_get k (extract_invoice_data text) = Some v).
Proof.
  intros Hk Hsplit Hstep.
  destruct (extract_get text k Hk) as (invoice & Hloop & ->).
  rewrite Hsplit in Hloop.
  destruct (field_loop_reaches before (line :: following) [])
    as [inv1 H1].
  rewrite H1 in Hloop. cbn [field_loop] in Hloop.
  rewrite Hstep in Hloop. unfold bind in Hloop. split.
  - apply dict_has_get.
    apply (field_loop_keeps_has k following _ _ Hloop).
    apply dict_has_set_same.
  - intros Hkeep. rewrite (Hkeep _ _ Hloop). apply dict_get_set_same.
Qed.

(** The first run of digits of a text, found. *)
Lemma first_digit_run_at (pre d post : string) :
  digit_free pre = true ->
  forallb_str is_digit d = true ->
  d <> EmptyString ->
  (post = EmptyString
   \/ exists c post', post = String c post' /\ is_digit c = false) ->
  first_digit_run (pre ++ d ++ post) = Some d.
Proof.
  intros Hpre Hd Hne Hpost. induction pre as [|c pre IH].
  - cbn [append]. destruct d as [|c d]; [contradiction|].
    destruct (take_while_stop is_digit (String c d) post Hd Hpost)
      as [Ht _].
    cbn [forallb_str] in Hd. apply andb_prop in Hd.
    cbn [append first_digit_run] in *. rewrite (proj1 Hd). now rewrite Ht.
  - unfold digit_free in Hpre. cbn [forallb_str] in Hpre.
    apply andb_prop in Hpre. destruct Hpre as [Hc Hpre].
    apply negb_true_iff in Hc.
    cbn [append first_digit_run]. rewrite Hc. exact (IH Hpre).
Qed.

(** C8: a line that names the invoice number, wherever it stands in
    the text, makes the extractor bind [invoice_number] to the first run
    of digits of the line followed by a space and the next line that is
    not blank, stripped (by the empty string when no such line follows):
    the iteration on the line binds the run whatever the record held,
    the record returned binds [invoice_number] to a run of digits, and to
    this very run when no later line names the invoice number.  So an
    alphanumeric token such as [INV-2024-0099] is never kept whole: of
    it, [2024] is. *)
Theorem invoice_number_is_digit_run (text : string)
  (before following : list string) (line next pre d post : string) :
  splitlines text = before ++ line :: following ->
  contains "invoice no" (lower (strip line))
  || contains "invoice number" (lower (strip line)) = true ->
  next_is following next ->
  (line ++ " " ++ next)%string = (pre ++ d ++ post)%string ->
  digit_free pre = true ->
  forallb_str is_digit d = true ->
  d <> EmptyString ->
  (post = EmptyString
   \/ exists c post', post = String c post' /\ is_digit c = false) ->
  (forall inv, field_step line following inv
               = Some (dict_set "invoice_number" (VStr d) inv))
  /\ (exists d', dict_get "invoice_number" (extract_invoice_data text)
                 = Some (VStr d')
                 /\ forallb_str is_digit d' = true /\ d' <> EmptyString)
  /\ (Forall (fun l => contains "invoice no" (lower (strip l))
                       || contains "invoice number" (lower (strip l))
                       = false) following ->
      dict_get "invoice_number" (extract_invoice_data text)
      = Some (VStr d))
  /\ (forall token, forallb_str is_digit token = false ->
        dict_get "invoice_number" (extract_invoice_data text)
        <> Some (VStr token)).
Proof.
  intros Hsplit Hkw Hnext Hcomb Hpre Hd Hne Hpost.
  assert (Hstep : forall inv, field_step line following inv
                    = Some (dict_set "invoice_number" (VStr d) inv)).
  { intros inv. rewrite (field_step_invoice_number _ _ _ Hkw).
    rewrite (get_next_nonempty_is _ _ Hnext), Hcomb.
    now rewrite (first_digit_run_at pre d post Hpre Hd Hne Hpost). }
  destruct (extract_after_step text "invoice_number" (VStr d)
              before following line ltac:(discriminate) Hsplit Hstep)
    as [[v Hv] Hlast].
  destruct (invoice_number_origin text v Hv)
    as (_ & _ & _ & d' & _ & _ & _ & _ & -> & Hd' & Hne' & _).
  split; [exact Hstep|]. split; [now exists d'|]. split.
  - intros Hno. apply Hlast. intros inv inv'.
    exact (field_loop_keeps_number following inv inv' Hno).
  - intros token Htoken Heq. rewrite Hv in Heq. inversion Heq; subst.
    congruence.
Qed.

(** C7: on a line that names a total and reaches the branch of the
    total (it holds none of the keywords that the branches before look
    for), wherever the line stands in the text, the amount is looked for
    in the line and then in the three lines after it, one by one, and in
    no other.  Where none of them has a digit the iteration binds
    nothing.  Otherwise the first of them with a digit gives the amount:
    an optional dollar sign and white space aside, it is read at the
    first digit, as up to three digits and, when they follow, a point or
    a comma and two digits, the comma turned into a point.  The number
    bound is below 1000; a run of four digits or more is cut to its first
    three.  The iteration binds it whatever the record held; the record
    returned binds [total_amount] to a number below 1000, and to this
    very number when no later line names a total. *)
Theorem total_amount_below_1000 (text : string)
  (before following : list string) (line next : string) :
  splitlines text = before ++ line :: following ->
  contains "total" (lower (strip line)) = true ->
  existsb (fun k => contains k (lower (strip line))) keywords_before_total
  = false ->
  next_is following next ->
  existsb (fun k => contains k (lower (line ++ " " ++ next))) date_keywords
  = false ->
  (Forall (fun l => digit_free l = true) (line :: firstn 3 following) ->
   forall inv, field_step line following inv = Some inv)
  /\ forall (skipped later : list string) (pre i tail : string),
       line :: firstn 3 following
       = skipped ++ (pre ++ i ++ tail)%string :: later ->
       Forall (fun l => digit_free l = true) skipped ->
       digit_free pre = true ->
       forallb_str is_digit i = true ->
       (1 <= String.length i <= 3)%nat ->
       (String.length i = 3%nat \/ tail = EmptyString
        \/ exists c t, tail = String c t /\ is_digit c = false) ->
       exists q,
         py_float (replace_char "," "." (i ++ fraction_at tail)) = Some q
         /\ 0 <= q /\ q < 1000
         /\ (forall c t, tail = String c t -> is_digit c = true ->
                         q = inject_Z (digits_val 0 i))
         /\ (forall inv, field_step line following inv
                         = Some (dict_set "total_amount" (VNum q) inv))
         /\ (exists q', dict_get "total_amount" (extract_invoice_data text)
                        = Some (VNum q')
                        /\ 0 <= q' /\ q' < 1000)
         /\ (Forall (fun l => contains "total" (lower (strip l)) = false)
                    following ->
             dict_get "total_amount" (extract_invoice_data text)
             = Some (VNum q)).
Proof.
  intros Hsplit Htotal Hline Hnext Hdate. split.
  - intros Hnone inv.
    rewrite (field_step_total line following next inv Htotal Hline Hnext
               Hdate).
    now rewrite (probe_total_none _ Hnone).
  - intros skipped later pre i tail Hwindow Hskip Hpre Hi Hlen Hstop.
    destruct (search_at_total i tail Hi Hlen Hstop pre true Hpre)
      as (m & Hm & Hg).
    destruct (short_decimal_value i (fraction_at tail) Hi Hlen
                (fraction_at_shape tail)) as (q & Hq & Hlo & Hhi).
    assert (Hstep : forall inv, field_step line following inv
                      = Some (dict_set "total_amount" (VNum q) inv)).
    { intros inv.
      rewrite (field_step_total line following next inv Htotal Hline Hnext
                 Hdate).
      rewrite Hwindow, (probe_total_skips skipped later _ Hskip).
      unfold search. rewrite Hm. unfold group_float, bind.
      now rewrite Hg, Hq. }
    destruct (extract_after_step text "total_amount" (VNum q)
                before following line ltac:(discriminate) Hsplit Hstep)
      as [[v Hv] Hlast].
    destruct (total_amount_origin text v Hv)
      as (b0 & l0 & f0 & s0 & m0 & i0 & fr0 & q' & _ & _ & _ & _ & _ & _
          & _ & _ & _ & -> & Hlo' & Hhi').
    exists q. split; [exact Hq|]. split; [exact Hlo|]. split; [exact Hhi|].
    split.
    { intros c t -> Hc. rewrite (fraction_at_digit c t Hc) in Hq.
      rewrite append_nil_r, (replace_comma_digits i Hi) in Hq.
      rewrite py_float_int in Hq; [now inversion Hq | exact Hi|].
      intros ->. cbn [String.length] in Hlen. lia. }
    split; [exact Hstep|]. split; [now exists q'|].
    intros Hno. apply Hlast. intros inv inv'.
    exact (field_loop_keeps_total following inv inv' Hno).
Qed.

Lemma invoice_number_is_digit_run_witness :
  dict_get "invoice_number" (extract_invoice_data Inputs.lookahead_number_text)
  = Some (VStr "2024").
Proof.
  destruct (invoice_number_is_digit_run Inputs.lookahead_number_text
              ["ACME Ltd"] [EmptyString; "  INV-2024-0099  "; "Thanks"]
              "Invoice number:" "INV-2024-0099"
              "Invoice number: INV-" "2024" "-0099")
    as (_ & _ & Hlast & _).
  - reflexivity.
  - reflexivity.
  - change (next_is ([EmptyString] ++ "  INV-2024-0099  " :: ["Thanks"])
                    (strip "  INV-2024-0099  ")).
    apply next_is_line; [repeat constructor | vm_compute; discriminate].
  - reflexivity.
  - reflexivity.
  - reflexivity.
  - discriminate.
  - right. exists "-"%char, "0099". split; reflexivity.
  - apply Hlast. repeat constructor.
Defined.

Lemma total_amount_below_1000_witness :
  dict_get "total_amount" (extract_invoice_data Inputs.lookahead_total_text)
  = Some (VNum 123).
Proof.
  destruct (total_amount_below_1000 Inputs.lookahead_total_text
              ["Summary"] [EmptyString; "$1234.56"; "Thanks"]
              "Total:" "$1234.56")
    as [_ Hfound].
  - reflexivity.
  - reflexivity.
  - reflexivity.
  - change (next_is ([EmptyString] ++ "$1234.56" :: ["Thanks"])
                    (strip "$1234.56")).
    apply next_is_line; [repeat constructor | vm_compute; discriminate].
  - reflexivity.
  - destruct (Hfound ["Total:"; EmptyString] ["Thanks"] "$" "123" "4.56")
      as (q & _ & _ & _ & Hcut & _ & _ & Hlast).
    + reflexivity.
    + repeat constructor.
    + reflexivity.
    + reflexivity.
    + cbn [String.length]. lia.
    + now left.
    + rewrite (Hcut "4"%char ".56" eq_refl eq_refl) in Hlast.
      apply Hlast. repeat constructor.
Defined.

End FieldLoopFacts.

(* ================================================================== *)
(** ** The date format of the analyzer *)
(* ================================================================== *)

Module DateFormatFacts.
Import PyStr Re Py InvoiceAnalyzer StrFacts ReFacts.

Lemma range_class_char (lo hi : nat) (c : ascii) :
  (48 <= lo)%nat -> (hi <= 57)%nat ->
  range_class lo hi c = true -> mdY_char c = true.
Proof.
  unfold range_class, mdY_char, is_digit. intros Hlo Hhi H.
  apply andb_prop in H. destruct H as [H1 H2].
  apply Nat.leb_le in H1. apply Nat.leb_le in H2.
  assert (E1 : (48 <=? code c)%nat = true) by (apply Nat.leb_le; lia).
  assert (E2 : (code c <=? 57)%nat = true) by (apply Nat.leb_le; lia).
  now rewrite E1, E2.
Qed.

Lemma digit_char (c : ascii) : is_digit c = true -> mdY_char c = true.
Proof. unfold mdY_char. now intros ->. Qed.

Lemma digits_chars (t : string) :
  forallb_str is_digit t = true -> forallb_str mdY_char t = true.
Proof.
  induction t as [|c t IH]; [reflexivity|]. cbn [forallb_str]. intros H.
  apply andb_prop in H. destruct H as [Hc Ht].
  now rewrite (digit_char c Hc), (IH Ht).
Qed.

(** A text of the pattern of ["%m/%d/%Y"] is made of digits, slashes
    and spaces. *)
Lemma mdY_parse_chars (t : string) (g : caps) :
  parses mdY_re t g -> forallb_str mdY_char t = true.
Proof.
  unfold mdY_re, exactly. cbn [seq parses]. intros H.
  repeat match goal with
         | H : _ /\ _ |- _ => destruct H
         | H : exists _, _ |- _ => destruct H
         | H : _ \/ _ |- _ => destruct H
         end; subst;
    repeat match goal with
           | H : range_class _ _ ?c = true |- _ =>
               apply range_class_char in H; [|lia|lia]
           | H : is_digit ?c = true |- _ => apply digit_char in H
           | H : forallb_str is_digit ?t = true |- _ =>
               apply digits_chars in H
           end;
    repeat (rewrite forallb_str_append || cbn [forallb_str append]);
    repeat match goal with
           | H : mdY_char _ = true |- _ => rewrite H; clear H
           | H : forallb_str mdY_char _ = true |- _ => rewrite H; clear H
           end;
    reflexivity.
Qed.

(** What [strptime] accepts for ["%m/%d/%Y"] has no other character:
    a date written with dots or hyphens, or with a month name, is a
    [ValueError]. *)
Lemma strptime_chars (s : string) (d : date) :
  strptime_mdY s = Some d -> forallb_str mdY_char s = true.
Proof.
  unfold strptime_mdY.
  destruct (match_ mdY_re s) as [m|] eqn:E; [|discriminate].
  destruct (is_empty (rest m)) eqn:Er; [|discriminate]. intros _.
  apply first_way_sound in E. destruct E as [Hs Hp].
  apply is_empty_true in Er. rewrite Er, append_nil_r in Hs. subst s.
  exact (mdY_parse_chars _ _ Hp).
Qed.

End DateFormatFacts.

(* ================================================================== *)
(** ** More on the fraud analyzer *)
(* ================================================================== *)

Module AnalyzerResultFacts.
Import PyStr Py InvoiceAnalyzer DictFacts AnalyzerFacts.

Section WithForest.

Variable fitted : Type.
Variable fit : list (Q * Q) -> outcome fitted.
Variable decision_function : fitted -> Q * Q -> Q.
Variable predict : fitted -> Q * Q -> Z.
Variable format_number : Q -> string.

Abbreviation analyze :=
  (analyze_invoice_for_fraud fitted fit decision_function predict
                             format_number).
Abbreviation line_items_step :=
  (line_item_analysis fitted fit decision_function predict format_number).
Abbreviation detect :=
  (anomaly_detection fitted fit decision_function predict).
Abbreviation warnings_of := (high_price_warnings format_number).
Abbreviation flagged_by := (flagged_row decision_function predict).
Abbreviation rows_of model items :=
  (anomalous_rows (description_column (map held_description items))
     (numeric_rows items)
     (map (decision_function model) (numeric_rows items))
     (map (predict model) (numeric_rows items))).

(** *** What the line-item block may do to the store *)

Lemma framed_still {A} (m : step A) :
  (forall st, snd (m st) = st) -> framed m.
Proof.
  intros Hm st o st' H.
  assert (E : st' = st) by (rewrite <- (Hm st), H; reflexivity).
  subst st'. exists [], []. rewrite !app_nil_r.
  split; [reflexivity|]. split; [constructor|]. split; [reflexivity|].
  split; [constructor|]. split; [reflexivity|]. intros k _. reflexivity.
Qed.

Lemma framed_bind {A B} (m : step A) (k : A -> step B) :
  framed m -> (forall a, framed (k a)) -> framed (bind m k).
Proof.
  intros Hm Hk st o st' H. unfold bind in H.
  destruct (m st) as [[a|e] st1] eqn:E.
  - destruct (Hm _ _ _ E) as (a1 & t1 & I1 & F1 & T1 & G1 & V1 & K1).
    destruct (Hk a _ _ _ H) as (a2 & t2 & I2 & F2 & T2 & G2 & V2 & K2).
    exists (a1 ++ a2), (t1 ++ t2).
    split; [now rewrite I2, I1, app_assoc|].
    split; [apply Forall_app; auto|].
    split; [now rewrite T2, T1, app_assoc|].
    split; [apply Forall_app; auto|].
    split.
    + intros Hnil. apply app_eq_nil in Hnil. destruct Hnil as [-> ->].
      rewrite (V2 eq_refl), (V1 eq_refl). reflexivity.
    + intros key Hkey. rewrite (K2 key Hkey), (K1 key Hkey). reflexivity.
  - inversion H; subst. exact (Hm _ _ _ E).
Qed.

Lemma framed_append_issue (w : string) :
  date_free w -> framed (append_issue w).
Proof.
  intros Hw st o st' H. inversion H; subst. exists [w], [].
  cbn [issues trace invoice]. rewrite app_nil_r.
  split; [reflexivity|]. split; [constructor; [exact Hw | constructor]|].
  split; [reflexivity|]. split; [constructor|].
  split; [reflexivity|]. intros k _. reflexivity.
Qed.

Lemma framed_log_fit (rows : list (Q * Q)) : framed (log (Fit rows)).
Proof.
  intros st o st' H. inversion H; subst. exists [], [Fit rows].
  cbn [issues trace invoice]. rewrite app_nil_r.
  split; [reflexivity|]. split; [constructor|].
  split; [reflexivity|]. split; [constructor; [exact I | constructor]|].
  split; [reflexivity|]. intros k _. reflexivity.
Qed.

Lemma framed_flag (rows : list scored_item) :
  framed (bind (set_invoice "anomalous_items" (VScored rows))
               (fun _ => append_issue anomaly_warning)).
Proof.
  intros st o st' H. unfold bind, set_invoice, append_issue in H.
  inversion H; subst. exists [anomaly_warning], [].
  cbn [issues trace invoice]. rewrite app_nil_r.
  split; [reflexivity|].
  split; [constructor; [apply date_free_anomaly | constructor]|].
  split; [reflexivity|]. split; [constructor|].
  split; [discriminate|].
  intros k Hk. apply dict_get_set_other. congruence.
Qed.

Lemma framed_ret {A} (a : A) : framed (ret a).
Proof. apply framed_still. reflexivity. Qed.

Lemma framed_raise {A} (e : string) : framed (@raise A e).
Proof. apply framed_still. reflexivity. Qed.

Lemma framed_price_loop (items : list line_item) :
  framed (price_loop format_number items).
Proof.
  induction items as [|item rest IH]; cbn [price_loop];
    [apply framed_ret|].
  destruct (high_price item); [|exact IH].
  destruct (description item).
  - apply framed_raise.
  - apply framed_bind; [|intros _; exact IH].
    apply framed_append_issue, date_free_high_price.
  - apply framed_bind; [|intros _; exact IH].
    apply framed_append_issue, date_free_high_price.
Qed.

Lemma framed_price_loop_strings (items : list string) :
  framed (price_loop_strings items).
Proof.
  induction items as [|item rest IH]; cbn [price_loop_strings];
    [apply framed_ret|].
  destruct (contains "unit_price" item); [apply framed_raise | exact IH].
Qed.

Lemma framed_assign_column {A} (items : list line_item) (values : list A) :
  framed (assign_column items values).
Proof.
  unfold assign_column.
  destruct (List.length values =? List.length items)%nat;
    [apply framed_ret | apply framed_raise].
Qed.

Lemma framed_anomaly_detection_on (held : list (option cell))
  (items : list line_item) :
  framed (anomaly_detection_on fitted fit decision_function predict
            held items).
Proof.
  unfold anomaly_detection_on.
  destruct (has_column unit_price items && has_column quantity items);
    [|apply framed_ret].
  destruct (numeric_rows items) as [|r rows]; [apply framed_ret|].
  apply framed_bind; [apply framed_log_fit|]. intros _.
  destruct (fit (r :: rows)) as [model|e]; [|apply framed_raise].
  apply framed_bind; [apply framed_assign_column|]. intros _.
  apply framed_bind; [apply framed_assign_column|]. intros _.
  destruct (anomalous_rows _ _ _ _); [apply framed_ret|].
  apply framed_flag.
Qed.

Lemma framed_anomaly_detection (items : list line_item) :
  framed (detect items).
Proof. apply framed_anomaly_detection_on. Qed.

Lemma framed_line_item_analysis : framed line_items_step.
Proof.
  unfold line_item_analysis.
  apply framed_bind; [apply framed_still; reflexivity|]. intros inv.
  destruct (dict_get "line_items" inv) as [v|]; [|apply framed_ret].
  destruct (truthy v); [|apply framed_ret].
  destruct v; try apply framed_raise.
  - apply framed_bind; [apply framed_price_loop|].
    intros _. apply framed_anomaly_detection.
  - apply framed_bind; [apply framed_price_loop|].
    intros _. apply framed_anomaly_detection_on.
  - apply framed_price_loop_strings.
Qed.

(** *** The blocks of the method, one by one *)

(** The date block: at most one warning, at most one date parsed, and
    nothing at all without both ends of the window. *)
Lemma date_validation_run (cs ce : option date) (st : store) :
  exists dated t,
    date_validation cs ce st
    = (Ok tt, Store (invoice st) (issues st ++ dated) (trace st ++ t))
    /\ (dated = [] \/ dated = [date_outside_warning]
        \/ dated = [date_unparseable_warning])
    /\ (t = [] \/ exists v, t = [Strptime v])
    /\ (cs = None \/ ce = None -> dated = [] /\ t = []).
Proof.
  assert (Hstill : forall m : step unit, m st = (Ok tt, st) ->
            exists dated t,
              m st = (Ok tt, Store (invoice st) (issues st ++ dated)
                                   (trace st ++ t))
              /\ (dated = [] \/ dated = [date_outside_warning]
                  \/ dated = [date_unparseable_warning])
              /\ (t = [] \/ exists v, t = [Strptime v])
              /\ (cs = None \/ ce = None -> dated = [] /\ t = [])).
  { intros m Hm. exists [], []. rewrite !app_nil_r.
    split; [rewrite Hm; now destruct st|].
    split; [now left|]. split; [now left|]. intros _. now split. }
  destruct cs as [s|]; [|apply Hstill; reflexivity].
  destruct ce as [e|]; [|apply Hstill; reflexivity].
  destruct (dict_get "invoice_date" (invoice st)) as [v|] eqn:Hv.
  - rewrite (date_validation_window st s e v Hv).
    destruct (parse_invoice_date v) as [d|].
    + destruct (date_leb s d && date_leb d e).
      * exists [], [Strptime v]. rewrite app_nil_r.
        split; [reflexivity|]. split; [now left|].
        split; [right; now exists v|]. intros [H|H]; discriminate H.
      * exists [date_outside_warning], [Strptime v].
        split; [reflexivity|]. split; [right; now left|].
        split; [right; now exists v|]. intros [H|H]; discriminate H.
    + exists [date_unparseable_warning], [Strptime v].
      split; [reflexivity|]. split; [right; now right|].
      split; [right; now exists v|]. intros [H|H]; discriminate H.
  - apply Hstill. unfold date_validation, bind, get_invoice.
    now rewrite Hv.
Qed.

(** A price loop that completes has reported every item priced above
    100, in order. *)
Lemma price_loop_ok (items : list line_item) : forall st st',
  price_loop format_number items st = (Ok tt, st') ->
  st' = Store (invoice st) (issues st ++ warnings_of items) (trace st).
Proof.
  induction items as [|item rest IH]; intros st st' H;
    cbn [price_loop high_price_warnings] in *.
  - inversion H; subst. rewrite app_nil_r. now destruct st'.
  - unfold high_price_warning.
    destruct (high_price item) as [p|]; [|exact (IH _ _ H)].
    destruct (description item) as [| |d].
    + discriminate H.
    + unfold bind, append_issue at 1 in H. apply IH in H.
      cbn [invoice issues trace] in H. now rewrite <- app_assoc in H.
    + unfold bind, append_issue at 1 in H. apply IH in H.
      cbn [invoice issues trace] in H. now rewrite <- app_assoc in H.
Qed.

(** It raises only for an item priced above 100 without the key
    [description], and then a [KeyError]. *)
Lemma price_loop_raise_inv (items : list line_item) : forall st e st',
  price_loop format_number items st = (Raise e, st') ->
  e = "'description'"
  /\ exists it, In it items /\ high_price it <> None
                /\ description it = Absent.
Proof.
  induction items as [|item rest IH]; intros st e st' H;
    cbn [price_loop] in H; [discriminate H|].
  destruct (high_price item) as [p|] eqn:Eh.
  - destruct (description item) as [| |d] eqn:Ed.
    + inversion H; subst. split; [reflexivity|].
      exists item. split; [now left|]. split; [congruence | exact Ed].
    + unfold bind, append_issue at 1 in H.
      destruct (IH _ _ _ H) as (He & it & Hin & Hit).
      split; [exact He|]. exists it. split; [now right | exact Hit].
    + unfold bind, append_issue at 1 in H.
      destruct (IH _ _ _ H) as (He & it & Hin & Hit).
      split; [exact He|]. exists it. split; [now right | exact Hit].
  - destruct (IH _ _ _ H) as (He & it & Hin & Hit).
    split; [exact He|]. exists it. split; [now right | exact Hit].
Qed.

Lemma price_loop_raises (items : list line_item) : forall st it,
  In it items -> high_price it <> None -> description it = Absent ->
  exists st', price_loop format_number items st = (Raise "'description'", st')
              /\ invoice st' = invoice st /\ trace st' = trace st.
Proof.
  induction items as [|item rest IH]; intros st it Hin Hh Hd; [destruct Hin|].
  cbn [price_loop].
  destruct (high_price item) as [p|] eqn:Eh.
  - destruct (description item) as [| |d] eqn:Ed.
    + exists st. repeat split; reflexivity.
    + destruct Hin as [<-|Hin]; [congruence|].
      unfold bind, append_issue at 1.
      match goal with
      | |- context [price_loop format_number rest ?s] =>
          destruct (IH s it Hin Hh Hd) as (st' & Hrun & Hinv & Htr)
      end.
      rewrite Hrun. exists st'. repeat split; assumption.
    + destruct Hin as [<-|Hin]; [congruence|].
      unfold bind, append_issue at 1.
      match goal with
      | |- context [price_loop format_number rest ?s] =>
          destruct (IH s it Hin Hh Hd) as (st' & Hrun & Hinv & Htr)
      end.
      rewrite Hrun. exists st'. repeat split; assumption.
  - destruct Hin as [<-|Hin]; [congruence|].
    exact (IH st it Hin Hh Hd).
Qed.

Lemma numeric_rows_length (items : list line_item) :
  (List.length (numeric_rows items) <= List.length items)%nat.
Proof.
  induction items as [|it rest IH]; cbn [numeric_rows List.length]; [lia|].
  destruct (unit_price it); try lia.
  destruct (quantity it); cbn [List.length]; lia.
Qed.

(** *** The description column *)

Lemma Forall2_map_in {A B} (P : B -> A -> Prop) (f : A -> B) (l : list A) :
  (forall x, In x l -> P (f x) x) -> Forall2 P (map f l) l.
Proof.
  induction l as [|x l IH]; intros H; cbn [map]; constructor.
  - apply H. now left.
  - apply IH. intros y Hy. apply H. now right.
Qed.

Lemma no_column_iff (items : list line_item) :
  forallb (fun h => match h with None => true | Some _ => false end)
    (map held_description items)
  = negb (has_column description items).
Proof.
  unfold has_column.
  induction items as [|it rest IH]; [reflexivity|].
  cbn [map forallb existsb]. rewrite IH. unfold held_description.
  destruct (description it); cbn [is_absent negb andb orb];
    try reflexivity.
Qed.

Lemma text_in_column (items : list line_item) (it : line_item) (s : string) :
  In it items -> description it = Val s ->
  existsb is_text (map fill_cell (map held_description items)) = true.
Proof.
  intros Hin Hs. apply existsb_exists. exists (Text s).
  split; [|reflexivity].
  apply in_map_iff. exists (Some (Text s)). split; [reflexivity|].
  apply in_map_iff. exists it. split; [|exact Hin].
  unfold held_description. now rewrite Hs.
Qed.

Lemma held_in_column (items : list line_item) (it : line_item) :
  In it items -> description it <> Absent ->
  has_column description items = true.
Proof.
  intros Hin Hd. apply existsb_exists. exists it. split; [exact Hin|].
  destruct (description it); [contradiction | reflexivity | reflexivity].
Qed.

(** Cell by cell, the column is what [in_column] says. *)
Lemma description_column_cells (items : list line_item) :
  Forall2 (in_column items)
    (description_column (map held_description items)) items.
Proof.
  unfold description_column. rewrite no_column_iff.
  destruct (has_column description items) eqn:Hcol; cbn [negb].
  - destruct (existsb is_text _ || negb (existsb is_nan _)) eqn:Hobj.
    + rewrite !map_map. apply Forall2_map_in. intros it Hin.
      unfold in_column, held_description, fill_cell. rewrite Hcol.
      destruct (description it) as [| |d].
      * split; [discriminate|]. split; [reflexivity | discriminate].
      * split; [discriminate|]. split; [discriminate | now left].
      * split; [intros s Hs; now inversion Hs|].
        split; discriminate.
    + apply Bool.orb_false_iff in Hobj. destruct Hobj as [Htext _].
      rewrite !map_map. apply Forall2_map_in. intros it Hin.
      unfold in_column. rewrite Hcol.
      split; [|split; [reflexivity | now right]].
      intros s Hs. rewrite (text_in_column items it s Hin Hs) in Htext.
      discriminate.
  - rewrite map_map. apply Forall2_map_in. intros it Hin.
    unfold in_column. rewrite Hcol.
    assert (Hd : description it = Absent).
    { destruct (description it) eqn:E; [reflexivity| |];
        rewrite (held_in_column items it Hin) in Hcol;
        congruence. }
    rewrite Hd. split; [discriminate|]. split; [reflexivity | discriminate].
Qed.

(** When no row was dropped, the rows labelled -1 carry the numbers of
    a line item of the frame, its score, and its cell of the
    description column. *)
Lemma anomalous_rows_flagged_from (model : fitted) (all : list line_item) :
  forall (items : list line_item) (cells : list (option cell)),
  Forall2 (in_column all) cells items ->
  List.length (numeric_rows items) = List.length items ->
  incl items all ->
  Forall (flagged_by model all)
    (anomalous_rows cells (numeric_rows items)
       (map (decision_function model) (numeric_rows items))
       (map (predict model) (numeric_rows items))).
Proof.
  intros items cells Hcells. induction Hcells as [|c it cells rest Hc _ IH];
    intros Hlen Hincl; [constructor|].
  pose proof (numeric_rows_length rest) as Hle.
  cbn [numeric_rows] in *.
  destruct (unit_price it) as [| |p] eqn:Ep;
    try (cbn [List.length] in Hlen; lia).
  destruct (quantity it) as [| |q] eqn:Eq;
    try (cbn [List.length] in Hlen; lia).
  cbn [List.length] in Hlen. cbn [map anomalous_rows].
  assert (Hrest : Forall (flagged_by model all)
            (anomalous_rows cells (numeric_rows rest)
               (map (decision_function model) (numeric_rows rest))
               (map (predict model) (numeric_rows rest)))).
  { apply IH; [lia|]. intros x Hx. apply Hincl. now right. }
  destruct (predict model (p, q) =? -1)%Z eqn:El; [|exact Hrest].
  constructor; [|exact Hrest].
  apply Z.eqb_eq in El.
  exists it. cbn [row_unit_price row_quantity row_description
                  anomaly_score is_anomaly].
  split; [apply Hincl; now left|].
  split; [unfold numeric_row; now rewrite Ep, Eq|].
  split; [reflexivity|]. split; [exact El|]. split; [exact El|].
  exact Hc.
Qed.

Lemma anomalous_rows_flagged (model : fitted) (items : list line_item) :
  List.length (numeric_rows items) = List.length items ->
  Forall (flagged_by model items) (rows_of model items).
Proof.
  intros Hlen.
  exact (anomalous_rows_flagged_from model items items _
           (description_column_cells items) Hlen (incl_refl _)).
Qed.

(** The rows written are those the forest labels -1, in the order of
    the frame. *)
Lemma anomalous_rows_numbers (cells : list (option cell))
  (rows : list (Q * Q)) (scores : list Q) (labels : list Z) :
  List.length cells = List.length rows ->
  List.length scores = List.length rows ->
  map (fun row => (row_unit_price row, row_quantity row))
      (anomalous_rows cells rows scores labels)
  = map fst (filter (fun rl => (snd rl =? -1)%Z) (combine rows labels)).
Proof.
  revert rows scores labels.
  induction cells as [|c cells IH]; intros rows scores labels Hc Hs.
  - destruct rows; [reflexivity | discriminate Hc].
  - destruct rows as [|[p q] rows]; [discriminate Hc|].
    destruct scores as [|s scores]; [discriminate Hs|].
    destruct labels as [|l labels]; [reflexivity|].
    cbn [anomalous_rows combine filter snd].
    cbn [List.length] in Hc, Hs.
    destruct (l =? -1)%Z; cbn [map fst row_unit_price row_quantity];
      rewrite IH by lia; reflexivity.
Qed.

Lemma labelled_rows (f : Q * Q -> Z) (rows : list (Q * Q)) :
  map fst (filter (fun rl => (snd rl =? -1)%Z) (combine rows (map f rows)))
  = filter (fun r => (f r =? -1)%Z) rows.
Proof.
  induction rows as [|r rows IH]; [reflexivity|].
  cbn [map combine filter snd].
  destruct (f r =? -1)%Z; cbn [map fst]; now rewrite IH.
Qed.

Lemma rows_of_numbers (model : fitted) (items : list line_item) :
  List.length (numeric_rows items) = List.length items ->
  map (fun row => (row_unit_price row, row_quantity row))
      (rows_of model items)
  = filter (fun r => (predict model r =? -1)%Z) (numeric_rows items).
Proof.
  intros Hlen. rewrite anomalous_rows_numbers.
  - apply labelled_rows.
  - rewrite (Forall2_length (description_column_cells items)).
    now rewrite Hlen.
  - apply length_map.
Qed.

(** Both numbers of a row are there: explaining it cannot raise. *)
Lemma explanation_of_row (row : scored_item) :
  exists s, generate_anomaly_explanation (row_item row) = Ok s.
Proof.
  unfold generate_anomaly_explanation, number_above, row_item.
  cbn [unit_price quantity].
  destruct (Qgtb (row_unit_price row) 100); [eauto|].
  destruct (Qgtb (row_quantity row) 10); eauto.
Qed.

(** The detection block when it completes. *)
Lemma anomaly_detection_ok (items : list line_item) (st st' : store) :
  detect items st = (Ok tt, st') ->
  (st' = st
   /\ (has_column unit_price items && has_column quantity items = false
       \/ numeric_rows items = []))
  \/ exists model,
       fit (numeric_rows items) = Ok model
       /\ List.length (numeric_rows items) = List.length items
       /\ ((rows_of model items = []
            /\ st' = Store (invoice st) (issues st)
                           (trace st ++ [Fit (numeric_rows items)]))
           \/ (rows_of model items <> []
               /\ st' = Store
                          (dict_set "anomalous_items"
                             (VScored (rows_of model items))
                             (invoice st))
                          (issues st ++ [anomaly_warning])
                          (trace st ++ [Fit (numeric_rows items)]))).
Proof.
  unfold anomaly_detection, anomaly_detection_on.
  destruct (has_column unit_price items && has_column quantity items) eqn:Ec.
  2:{ intros H. inversion H; subst. left. split; [reflexivity | now left]. }
  destruct (numeric_rows items) as [|r rows] eqn:En.
  { intros H. inversion H; subst. left. split; [reflexivity | now right]. }
  unfold bind at 1, log at 1.
  destruct (fit (r :: rows)) as [model|e] eqn:Ef; [|discriminate].
  unfold bind at 1, assign_column at 1. rewrite length_map.
  destruct (Nat.eqb_spec (List.length (r :: rows)) (List.length items))
    as [Hlen|Hlen]; [|discriminate].
  unfold ret at 1. unfold bind at 1, assign_column at 1. rewrite length_map.
  destruct (Nat.eqb_spec (List.length (r :: rows)) (List.length items))
    as [_|Hne]; [|contradiction].
  unfold ret at 1.
  intros H. right. exists model. split; [reflexivity|]. split; [exact Hlen|].
  destruct (anomalous_rows _ _ _ _) as [|row flagged] eqn:Ea.
  - left. split; [reflexivity|]. inversion H; subst. reflexivity.
  - right. split; [discriminate|].
    unfold bind, set_invoice, append_issue in H. inversion H; subst.
    reflexivity.
Qed.

(** It raises only when rows were dropped or the forest refuses the
    table. *)
Lemma anomaly_detection_raise_inv (items : list line_item) (st st' : store)
  (e : string) :
  detect items st = (Raise e, st') ->
  has_column unit_price items = true
  /\ has_column quantity items = true
  /\ numeric_rows items <> []
  /\ (List.length (numeric_rows items) <> List.length items
      \/ fit (numeric_rows items) = Raise e).
Proof.
  unfold anomaly_detection, anomaly_detection_on.
  destruct (has_column unit_price items) eqn:E1; [|discriminate].
  destruct (has_column quantity items) eqn:E2; [|discriminate].
  cbn [andb].
  destruct (numeric_rows items) as [|r rows] eqn:En; [discriminate|].
  unfold bind at 1, log at 1.
  destruct (fit (r :: rows)) as [model|e'] eqn:Ef.
  - unfold bind at 1, assign_column at 1. rewrite length_map.
    destruct (Nat.eqb_spec (List.length (r :: rows)) (List.length items))
      as [Hlen|Hlen].
    + unfold ret at 1. unfold bind at 1, assign_column at 1.
      rewrite length_map.
      destruct (Nat.eqb_spec (List.length (r :: rows)) (List.length items))
        as [_|Hne]; [|contradiction].
      unfold ret at 1.
      destruct (anomalous_rows _ _ _ _); [discriminate|].
      unfold bind, set_invoice, append_issue. discriminate.
    + intros _. repeat split; try discriminate. now left.
  - intros H. inversion H; subst.
    repeat split; try discriminate. now right.
Qed.

Lemma anomaly_detection_fit_raises (items : list line_item) (st : store)
  (e : string) :
  has_column unit_price items = true ->
  has_column quantity items = true ->
  numeric_rows items <> [] ->
  fit (numeric_rows items) = Raise e ->
  exists st', detect items st = (Raise e, st').
Proof.
  intros Hp Hq Hne Hfit. unfold anomaly_detection, anomaly_detection_on.
  rewrite Hp, Hq.
  cbn [andb]. destruct (numeric_rows items) as [|r rows]; [contradiction|].
  unfold bind, log. rewrite Hfit. eexists. reflexivity.
Qed.

(** The line-item block on a list of line items. *)
Lemma line_items_run (items : list line_item) (st : store) :
  dict_get "line_items" (invoice st) = Some (VItems items) ->
  line_items_step st =
  match items with
  | [] => (Ok tt, st)
  | _ :: _ =>
      match price_loop format_number items st with
      | (Ok _, st') => detect items st'
      | (Raise e, st') => (Raise e, st')
      end
  end.
Proof.
  intros Hget. unfold line_item_analysis, bind at 1, get_invoice.
  rewrite Hget. destruct items as [|it rest]; [reflexivity|].
  cbn [truthy]. reflexivity.
Qed.

(** The call on a record with the six fields: the date block, then the
    line-item block, then one of the last two returns. *)
Lemma analyze_run (inv : dict) (cs ce : option date) :
  missing_fields inv = [] ->
  exists dated t,
    (dated = [] \/ dated = [date_outside_warning]
     \/ dated = [date_unparseable_warning])
    /\ (t = [] \/ exists v, t = [Strptime v])
    /\ (cs = None \/ ce = None -> dated = [] /\ t = [])
    /\ analyze inv cs ce =
       match line_items_step (Store inv dated t) with
       | (Ok _, st2) => conclude st2
       | (Raise e, st2) => (Raise e, st2)
       end.
Proof.
  intros Hmiss.
  destruct (date_validation_run cs ce (Store inv [] []))
    as (dated & t & Hdate & Hd & Ht & Hnone).
  cbn [invoice issues trace app] in Hdate.
  exists dated, t. split; [exact Hd|]. split; [exact Ht|].
  split; [exact Hnone|].
  rewrite analyze_unfold, Hmiss.
  destruct inv as [|kv inv']; [discriminate Hmiss|].
  unfold analysis_proper, bind at 1. rewrite Hdate. unfold bind at 1.
  destruct (line_item_analysis _ _ _ _ _ _) as [[[]|e] st2]; [|reflexivity].
  unfold bind at 1, get_issues, conclude.
  destruct (issues st2) as [|w ws] eqn:E; [reflexivity|].
  unfold bind, set_invoice, get_invoice, ret. cbn [invoice issues trace].
  now rewrite E.
Qed.

Lemma conclude_keeps (st2 st : store) (o : outcome analysis) :
  conclude st2 = (o, st) ->
  issues st = issues st2
  /\ trace st = trace st2
  /\ (forall k, k <> "warnings" ->
                dict_get k (invoice st) = dict_get k (invoice st2))
  /\ exists r, o = Ok r /\ a_invoice r = Some (invoice st)
               /\ ((a_status r = "success" /\ issues st2 = []
                    /\ invoice st = invoice st2)
                   \/ (a_status r = "warning" /\ issues st2 <> []
                       /\ dict_get "warnings" (invoice st)
                          = Some (VStrs (issues st2)))).
Proof.
  unfold conclude. destruct (issues st2) as [|w ws] eqn:E; intros H;
    inversion H; subst; cbn [issues trace invoice].
  - repeat split; auto. eexists. split; [reflexivity|].
    split; [reflexivity|]. left. auto.
  - split; [reflexivity|]. split; [reflexivity|]. split.
    + intros k Hk. apply dict_get_set_other. congruence.
    + eexists. split; [reflexivity|]. split; [reflexivity|]. right.
      split; [reflexivity|]. split; [discriminate|].
      apply dict_get_set_same.
Qed.

Lemma price_loop_unpriced (items : list line_item) (st : store) :
  Forall (fun it => unit_price it = Null) items ->
  price_loop format_number items st = (Ok tt, st)
  /\ numeric_rows items = [].
Proof.
  induction 1 as [|it rest Hit _ IH]; [split; reflexivity|].
  cbn [price_loop numeric_rows]. unfold high_price. rewrite Hit. exact IH.
Qed.

(** *** What a caller can rely on *)

(** Whenever the call returns, its result is of one of three kinds: the
    error result without an invoice, for the empty record; a success
    result, which carries the caller's record unchanged and means that
    no issue was collected; a warning result, which carries the caller's
    record either unchanged (a required field is missing) or with the
    collected issues, one at least, bound to [warnings].  Every result
    other than the error one has the key [invoice]. *)
Theorem analysis_result_shape (inv : dict) (cs ce : option date)
  (r : analysis) (st : store) :
  analyze inv cs ce = (Ok r, st) ->
  (inv = [] /\ r = Analysis "error" "Invalid invoice data" None)
  \/ (inv <> [] /\ a_invoice r = Some (invoice st)
      /\ ((a_status r = "success" /\ issues st = [] /\ invoice st = inv)
          \/ (a_status r = "warning" /\ missing_fields inv <> []
              /\ invoice st = inv)
          \/ (a_status r = "warning" /\ issues st <> []
              /\ dict_get "warnings" (invoice st)
                 = Some (VStrs (issues st))))).
Proof.
  intros Hrun.
  destruct (missing_fields inv) as [|f fs] eqn:Hmiss.
  - right. split; [intros ->; discriminate Hmiss|].
    destruct (analyze_run inv cs ce Hmiss)
      as (dated & t & _ & _ & _ & Hrun').
    rewrite Hrun' in Hrun. clear Hrun'.
    destruct (line_item_analysis _ _ _ _ _ _) as [[[]|e] st2] eqn:E;
      [|discriminate].
    destruct (framed_line_item_analysis _ _ _ E)
      as (added & t' & I & _ & _ & _ & V & _).
    cbn [issues invoice] in I, V.
    destruct (conclude_keeps _ _ _ Hrun)
      as (Hiss & _ & _ & r' & Hr & Hinv & Hkind).
    inversion Hr; subst r'. split; [exact Hinv|].
    destruct Hkind as [(Hs & Hnil & Hsame)|(Hs & Hne & Hw)].
    + left. split; [exact Hs|]. split; [congruence|].
      rewrite Hsame. apply V.
      rewrite Hnil in I. symmetry in I. apply app_eq_nil in I. tauto.
    + right. right. split; [exact Hs|]. rewrite Hiss. auto.
  - rewrite analyze_unfold in Hrun.
    destruct inv as [|kv inv'].
    + left. inversion Hrun. auto.
    + right. split; [discriminate|]. rewrite Hmiss in Hrun.
      inversion Hrun; subst. cbn [a_invoice a_status invoice].
      split; [reflexivity|]. right. left.
      split; [reflexivity|]. split; [discriminate | reflexivity].
Qed.

(** Returning or raising, the call leaves every key of the caller's
    record as it was, but for the two it may bind: [anomalous_items] and
    [warnings]. *)
Theorem analyzer_writes_two_keys (inv : dict) (cs ce : option date)
  (k : string) :
  k <> "anomalous_items" -> k <> "warnings" ->
  dict_get k (invoice (snd (analyze inv cs ce))) = dict_get k inv.
Proof.
  intros Hk1 Hk2.
  destruct (missing_fields inv) as [|f fs] eqn:Hmiss.
  - destruct (analyze_run inv cs ce Hmiss) as (dated & t & _ & _ & _ & ->).
    destruct (line_item_analysis _ _ _ _ _ _) as [[[]|e] st2] eqn:E;
      destruct (framed_line_item_analysis _ _ _ E)
        as (added & t' & _ & _ & _ & _ & _ & K); cbn [invoice] in K.
    + destruct (conclude st2) as [o st] eqn:Ec. cbn [snd].
      destruct (conclude_keeps _ _ _ Ec) as (_ & _ & Hkeep & _).
      rewrite (Hkeep k Hk2). now apply K.
    + cbn [snd]. now apply K.
  - rewrite analyze_unfold. destruct inv as [|kv inv']; [reflexivity|].
    rewrite Hmiss. reflexivity.
Qed.

(** Whenever the call returns on a record with the six fields and a
    list of line items, the issues it collected are, in this order: at
    most one warning about the date; one warning for every item whose
    unit price is above 100, in the order of the items; and at most the
    warning of the forest, which comes with a list of rows bound to
    [anomalous_items]. *)
Theorem warnings_collected (inv : dict) (cs ce : option date)
  (items : list line_item) (r : analysis) (st : store) :
  missing_fields inv = [] ->
  dict_get "line_items" inv = Some (VItems items) ->
  analyze inv cs ce = (Ok r, st) ->
  exists dated tail,
    issues st = dated ++ warnings_of items ++ tail
    /\ (dated = [] \/ dated = [date_outside_warning]
        \/ dated = [date_unparseable_warning])
    /\ (tail = []
        \/ (tail = [anomaly_warning]
            /\ exists rows,
                 rows <> []
                 /\ dict_get "anomalous_items" (invoice st)
                    = Some (VScored rows))).
Proof.
  intros Hmiss Hget Hrun.
  destruct (analyze_run inv cs ce Hmiss) as (dated & t & Hd & _ & _ & Hrun').
  rewrite Hrun' in Hrun. clear Hrun'.
  rewrite (line_items_run items (Store inv dated t) Hget) in Hrun.
  exists dated.
  destruct items as [|it rest].
  { destruct (conclude_keeps _ _ _ Hrun) as (Hiss & _).
    exists []. cbn [issues high_price_warnings] in *.
    rewrite Hiss, app_nil_r. auto. }
  destruct (price_loop format_number (it :: rest) (Store inv dated t))
    as [[[]|e] st1] eqn:Eloop; [|discriminate].
  apply price_loop_ok in Eloop. cbn [invoice issues trace] in Eloop.
  destruct (detect (it :: rest) st1) as [[[]|e] st2] eqn:Edet;
    [|discriminate].
  destruct (conclude_keeps _ _ _ Hrun) as (Hiss & _ & Hkeep & _).
  apply anomaly_detection_ok in Edet.
  destruct Edet as [[-> _]|(model & _ & _ & [[_ ->]|[Hne ->]])].
  - exists []. rewrite Hiss, Eloop. cbn [issues].
    rewrite app_nil_r. auto.
  - exists []. rewrite Hiss, Eloop. cbn [issues].
    rewrite app_nil_r. auto.
  - exists [anomaly_warning]. rewrite Hiss, Eloop. cbn [issues invoice].
    rewrite <- app_assoc. split; [reflexivity|]. split; [exact Hd|].
    right. split; [reflexivity|].
    eexists. split; [exact Hne|].
    rewrite Hkeep by discriminate. cbn [invoice].
    apply dict_get_set_same.
Qed.

(** The rows a call binds to [anomalous_items] (the record had no such
    key before the call) are the rows of the frame that the forest
    labels -1, in the order of the line items: each carries the two
    numbers of a line item of the invoice, the score the forest gave
    them, the label -1, and the cell of the item in the [description]
    column, which is [nan] for an item without the key when another
    item has it.  The result is a warning, the warning of the forest is
    among the issues, and [generate_anomaly_explanation] returns on
    every row: the loop that explains the anomalies cannot raise. *)
Theorem anomalous_items_explained (inv : dict) (cs ce : option date)
  (items : list line_item) (r : analysis) (st : store) (v : value) :
  dict_get "line_items" inv = Some (VItems items) ->
  dict_get "anomalous_items" inv = None ->
  analyze inv cs ce = (Ok r, st) ->
  dict_get "anomalous_items" (invoice st) = Some v ->
  exists model rows,
    fit (numeric_rows items) = Ok model
    /\ v = VScored rows /\ rows <> []
    /\ a_status r = "warning"
    /\ In anomaly_warning (issues st)
    /\ map (fun row => (row_unit_price row, row_quantity row)) rows
       = filter (fun r => (predict model r =? -1)%Z) (numeric_rows items)
    /\ Forall (fun row =>
                 flagged_by model items row
                 /\ exists s,
                      generate_anomaly_explanation (row_item row) = Ok s)
              rows.
Proof.
  intros Hget Hfresh Hrun Hv.
  destruct (missing_fields inv) as [|f fs] eqn:Hmiss.
  2:{ rewrite analyze_unfold in Hrun.
      destruct inv as [|kv inv']; [discriminate Hget|].
      rewrite Hmiss in Hrun. inversion Hrun; subst.
      cbn [invoice] in Hv. congruence. }
  destruct (analyze_run inv cs ce Hmiss) as (dated & t & _ & _ & _ & Hrun').
  rewrite Hrun' in Hrun. clear Hrun'.
  rewrite (line_items_run items (Store inv dated t) Hget) in Hrun.
  destruct items as [|it rest].
  { destruct (conclude_keeps _ _ _ Hrun) as (_ & _ & Hkeep & _).
    rewrite Hkeep in Hv by discriminate. cbn [invoice] in Hv. congruence. }
  destruct (price_loop format_number (it :: rest) (Store inv dated t))
    as [[[]|e] st1] eqn:Eloop; [|discriminate].
  apply price_loop_ok in Eloop. cbn [invoice issues trace] in Eloop.
  destruct (detect (it :: rest) st1) as [[[]|e] st2] eqn:Edet;
    [|discriminate].
  destruct (conclude_keeps _ _ _ Hrun)
    as (Hiss & _ & Hkeep & r' & Hr & _ & Hkind).
  inversion Hr; subst r'.
  rewrite Hkeep in Hv by discriminate.
  apply anomaly_detection_ok in Edet.
  destruct Edet as [[-> _]|(model & Hfit & Hlen & [[_ ->]|[Hne ->]])].
  - rewrite Eloop in Hv. cbn [invoice] in Hv. congruence.
  - rewrite Eloop in Hv. cbn [invoice] in Hv. congruence.
  - cbn [invoice issues] in Hv, Hkind, Hiss.
    rewrite dict_get_set_same in Hv. inversion Hv; subst v.
    exists model. eexists.
    split; [exact Hfit|]. split; [reflexivity|]. split; [exact Hne|].
    split.
    { destruct Hkind as [(_ & Hnil & _)|(Hs & _)]; [|exact Hs].
      destruct (issues st1); discriminate Hnil. }
    split; [rewrite Hiss; apply in_or_app; right; now left|].
    split; [exact (rows_of_numbers model (it :: rest) Hlen)|].
    eapply Forall_impl;
      [|exact (anomalous_rows_flagged model (it :: rest) Hlen)].
    intros row Hrow. split; [exact Hrow | apply explanation_of_row].
Qed.

(** The line-item block on a list of line items raises in two cases
    and no other. *)
Lemma line_items_raise_iff (items : list line_item) (st : store) :
  dict_get "line_items" (invoice st) = Some (VItems items) ->
  (exists e st', line_items_step st = (Raise e, st'))
  <-> ((exists it, In it items /\ high_price it <> None
                   /\ description it = Absent)
       \/ (has_column unit_price items = true
           /\ has_column quantity items = true
           /\ numeric_rows items <> []
           /\ (List.length (numeric_rows items) <> List.length items
               \/ exists e, fit (numeric_rows items) = Raise e))).
Proof.
  intros Hget. rewrite (line_items_run items st Hget). split.
  - intros (e & st' & Hrun).
    destruct items as [|it rest]; [discriminate Hrun|].
    destruct (price_loop format_number (it :: rest) st)
      as [[[]|e1] st1] eqn:Eloop.
    + right.
      destruct (anomaly_detection_raise_inv _ _ _ _ Hrun)
        as (H1 & H2 & H3 & H4).
      repeat split; auto. destruct H4 as [H4|H4]; [now left|].
      right. now exists e.
    + left. exact (proj2 (price_loop_raise_inv _ _ _ _ Eloop)).
  - intros [(bad & Hin & Hh & Hd)|(H1 & H2 & H3 & H4)].
    + destruct items as [|it rest]; [destruct Hin|].
      destruct (price_loop_raises (it :: rest) st bad Hin Hh Hd)
        as (st' & -> & _).
      eauto.
    + destruct items as [|it rest]; [now contradiction H3|].
      destruct (price_loop format_number (it :: rest) st)
        as [[[]|e1] st1] eqn:Eloop; [|eauto].
      destruct H4 as [H4|[e H4]].
      * destruct (anomaly_detection_raises fitted fit decision_function
                    predict (it :: rest) st1 H1 H2 H3 H4)
          as (e & st' & -> & _).
        eauto.
      * destruct (anomaly_detection_fit_raises (it :: rest) st1 e
                    H1 H2 H3 H4) as (st' & ->).
        eauto.
Qed.

(** The last two returns never raise: the call raises exactly when the
    line-item block does. *)
Lemma block_raises (run : outcome unit * store) :
  (exists e st,
     match run with
     | (Ok _, st2) => conclude st2
     | (Raise err, st2) => (Raise err, st2)
     end = (Raise e, st))
  <-> exists e st', run = (Raise e, st').
Proof.
  destruct run as [[[]|err] st2]; split.
  - intros (e & st & Hrun).
    destruct (conclude_keeps _ _ _ Hrun) as (_ & _ & _ & r & Hr & _).
    discriminate Hr.
  - intros (e & st' & H). discriminate H.
  - intros _. eauto.
  - intros _. eauto.
Qed.

(** On a record with the six fields whose [line_items] is a list of
    line items as the extractors and the prompt of the chat model shape
    them (dicts over the keys [description], [quantity] and
    [unit_price], any of them missing, the description a string or
    [None], the two numbers numbers or [None]), the call raises in two
    cases and no other: an item priced above 100 has no key
    [description]; or the frame has both number columns and a row with
    both numbers, and either some item lacks one of the numbers (so that
    [dropna()] dropped its row) or the forest refuses the table.  Items
    that hold other objects under the two number keys (a string, say)
    are outside [line_item], and so outside this statement. *)
Theorem analyzer_raises_exactly_when (inv : dict) (cs ce : option date)
  (items : list line_item) :
  missing_fields inv = [] ->
  dict_get "line_items" inv = Some (VItems items) ->
  (exists e st, analyze inv cs ce = (Raise e, st))
  <-> ((exists it, In it items /\ high_price it <> None
                   /\ description it = Absent)
       \/ (has_column unit_price items = true
           /\ has_column quantity items = true
           /\ numeric_rows items <> []
           /\ (List.length (numeric_rows items) <> List.length items
               \/ exists e, fit (numeric_rows items) = Raise e))).
Proof.
  intros Hmiss Hget.
  destruct (analyze_run inv cs ce Hmiss) as (dated & t & _ & _ & _ & ->).
  rewrite block_raises.
  exact (line_items_raise_iff items (Store inv dated t) Hget).
Qed.

(** Without both ends of the contract window the date is never looked
    at: no date is parsed, whatever the record binds to [invoice_date],
    and no issue is about the date. *)
Theorem no_window_no_date_check (inv : dict) (cs ce : option date) :
  cs = None \/ ce = None ->
  Forall is_fit (trace (snd (analyze inv cs ce)))
  /\ Forall date_free (issues (snd (analyze inv cs ce))).
Proof.
  intros Hnone.
  destruct (missing_fields inv) as [|f fs] eqn:Hmiss.
  - destruct (analyze_run inv cs ce Hmiss)
      as (dated & t & _ & _ & Hoff & ->).
    destruct (Hoff Hnone) as [-> ->].
    destruct (line_item_analysis _ _ _ _ _ _) as [[[]|e] st2] eqn:E;
      destruct (framed_line_item_analysis _ _ _ E)
        as (added & t' & I & F & T & G & _); cbn [issues trace app] in I, T.
    + destruct (conclude st2) as [o st] eqn:Ec. cbn [snd].
      destruct (conclude_keeps _ _ _ Ec) as (-> & -> & _).
      rewrite I, T. auto.
    + cbn [snd]. rewrite I, T. auto.
  - rewrite analyze_unfold. destruct inv as [|kv inv'].
    + split; constructor.
    + rewrite Hmiss. split; constructor.
Qed.

Lemma analyze_run_window (inv : dict) (s e : date) (v : value) :
  missing_fields inv = [] ->
  dict_get "invoice_date" inv = Some v ->
  analyze inv (Some s) (Some e) =
  match line_items_step
          (Store inv
             (match parse_invoice_date v with
              | Some d =>
                  if date_leb s d && date_leb d e then []
                  else [date_outside_warning]
              | None => [date_unparseable_warning]
              end)
             [Strptime v])
  with
  | (Ok _, st2) => conclude st2
  | (Raise err, st2) => (Raise err, st2)
  end.
Proof.
  intros Hmiss Hv. rewrite analyze_unfold, Hmiss.
  destruct inv as [|kv inv']; [discriminate Hmiss|].
  unfold analysis_proper, bind at 1.
  rewrite (date_validation_window (Store (kv :: inv') [] []) s e v Hv).
  cbn [invoice issues trace app]. unfold bind at 1.
  destruct (line_item_analysis _ _ _ _ _ _) as [[[]|err] st2];
    [|reflexivity].
  unfold bind at 1, get_issues, conclude.
  destruct (issues st2) as [|w ws] eqn:E; [reflexivity|].
  unfold bind, set_invoice, get_invoice, ret. cbn [invoice issues trace].
  now rewrite E.
Qed.

(** The analyzer reads the invoice date as month/day/year with slashes
    only.  On a record with the six fields whose [invoice_date] has any
    other character (the dots and hyphens that the date pattern of the
    heuristic extractor accepts, as in [15.02.2023] or [2023-02-15]),
    a call with a contract window that returns gives a warning with the
    issue about the date format, and never the one about the contract
    period. *)
Theorem other_separators_never_parse (inv : dict) (date_text : string)
  (s e : date) (r : analysis) (st : store) :
  missing_fields inv = [] ->
  dict_get "invoice_date" inv = Some (VStr date_text) ->
  forallb_str mdY_char date_text = false ->
  analyze inv (Some s) (Some e) = (Ok r, st) ->
  a_status r = "warning"
  /\ In date_unparseable_warning (issues st)
  /\ ~ In date_outside_warning (issues st).
Proof.
  intros Hmiss Hv Hchar Hrun.
  assert (Hparse : parse_invoice_date (VStr date_text) = None).
  { cbn [parse_invoice_date].
    destruct (strptime_mdY date_text) as [d|] eqn:E; [|reflexivity].
    apply DateFormatFacts.strptime_chars in E. congruence. }
  rewrite (analyze_run_window inv s e _ Hmiss Hv), Hparse in Hrun.
  destruct (line_item_analysis _ _ _ _ _ _) as [[[]|err] st2] eqn:E;
    [|discriminate].
  destruct (framed_line_item_analysis _ _ _ E)
    as (added & t' & I & F & _).
  cbn [issues] in I.
  destruct (conclude_keeps _ _ _ Hrun)
    as (Hiss & _ & _ & r' & Hr & _ & Hkind).
  inversion Hr; subst r'. rewrite Hiss, I.
  split; [|split].
  - destruct Hkind as [(_ & Hnil & _)|(Hs & _)]; [|exact Hs].
    rewrite I in Hnil. discriminate Hnil.
  - now left.
  - intros [H|H]; [discriminate H|].
    rewrite Forall_forall in F. destruct (F _ H) as [Hne _].
    now apply Hne.
Qed.

(** The heuristic extractor and the analyzer, end to end: a text that
    has no line with [net price] gives a record without any unit price;
    when that record has the six fields, the call returns on it, the
    forest is never fitted, and the only issues are about the date. *)
Theorem unpriced_extraction_is_analysed (text : string)
  (cs ce : option date) :
  (forall l, In l (splitlines text) ->
             contains "net price" (lower (strip l)) = false) ->
  missing_fields (DocumentProcessor.extract_invoice_data text) = [] ->
  exists r st,
    analyze (DocumentProcessor.extract_invoice_data text) cs ce = (Ok r, st)
    /\ (forall rows, ~ In (Fit rows) (trace st))
    /\ (forall w, In w (issues st) ->
                  w = date_outside_warning \/ w = date_unparseable_warning).
Proof.
  intros Hno Hmiss.
  destruct (ExtractorRecordFacts.extract_unpriced text Hno)
    as (items & Hget & Hnull).
  destruct (analyze_run _ cs ce Hmiss) as (dated & t & Hd & Ht & _ & ->).
  rewrite (line_items_run items (Store _ dated t) Hget).
  assert (Hstep :
    match items with
    | [] => (Ok tt, Store (DocumentProcessor.extract_invoice_data text)
                          dated t)
    | _ :: _ =>
        match price_loop format_number items
                (Store (DocumentProcessor.extract_invoice_data text) dated t)
        with
        | (Ok _, st') => detect items st'
        | (Raise e, st') => (Raise e, st')
        end
    end = (Ok tt, Store (DocumentProcessor.extract_invoice_data text)
                        dated t)).
  { destruct items as [|it rest]; [reflexivity|].
    destruct (price_loop_unpriced (it :: rest)
                (Store (DocumentProcessor.extract_invoice_data text) dated t)
                Hnull) as [-> Hrows].
    unfold anomaly_detection, anomaly_detection_on. rewrite Hrows.
    now destruct (has_column unit_price (it :: rest)
                  && has_column quantity (it :: rest)). }
  rewrite Hstep.
  destruct (conclude (Store (DocumentProcessor.extract_invoice_data text)
                            dated t)) as [o st] eqn:Ec.
  destruct (conclude_keeps _ _ _ Ec) as (Hiss & Htr & _ & r & -> & _).
  exists r, st. split; [reflexivity|].
  cbn [issues trace] in Hiss, Htr. rewrite Hiss, Htr. split.
  - intros rows Hin. destruct Ht as [-> | [v ->]]; [destruct Hin|].
    destruct Hin as [Hin|[]]. discriminate Hin.
  - intros w Hin.
    destruct Hd as [-> | [-> | ->]]; [destruct Hin| |];
      destruct Hin as [<-|[]]; auto.
Qed.

Lemma priced_items_rows (items : list line_item) :
  Forall DocumentProcessor.priced_or_not items ->
  (forall it, In it items -> description it <> Absent)
  /\ (items <> [] -> has_column unit_price items = true
                     /\ has_column quantity items = true)
  /\ (numeric_rows items <> []
      <-> exists it, In it items /\ unit_price it <> Null)
  /\ (List.length (numeric_rows items) <> List.length items
      <-> exists it, In it items /\ unit_price it = Null).
Proof.
  induction 1 as [|it rest (d & q & Hd & Hq & _ & _ & Hp) _
                    (IH1 & _ & IH3 & IH4)].
  - split; [intros it []|]. split; [intros H; now contradiction H|].
    split; split; try (intros (it & [] & _)); intros H; now contradiction H.
  - pose proof (numeric_rows_length rest) as Hle.
    split; [intros x [<-|Hx]; [congruence | now apply IH1]|].
    split.
    { intros _. unfold has_column. cbn [existsb].
      destruct Hp as [Hp|(p & Hp & _)]; rewrite Hp, Hq; split; reflexivity. }
    cbn [numeric_rows List.length]. rewrite Hq.
    destruct Hp as [Hp|(p & Hp & _)]; rewrite Hp.
    + split.
      * rewrite IH3. split.
        { intros (x & Hx & Hne). exists x. split; [now right | exact Hne]. }
        { intros (x & [<-|Hx] & Hne); [congruence|]. now exists x. }
      * split; [|intros _; lia].
        intros _. exists it. split; [now left | exact Hp].
    + split.
      * split; [|discriminate].
        intros _. exists it. split; [now left | congruence].
      * cbn [List.length]. split.
        { intros Hlen.
          assert (Hlen' : List.length (numeric_rows rest) <> List.length rest)
            by lia.
          apply IH4 in Hlen'. destruct Hlen' as (x & Hx & Hnull).
          exists x. split; [now right | exact Hnull]. }
        { intros (x & [<-|Hx] & Hnull); [congruence|].
          assert (Hlen' : List.length (numeric_rows rest) <> List.length rest)
            by (apply IH4; now exists x).
          lia. }
Qed.

(** The heuristic extractor and the analyzer, end to end, on a record
    with the six fields: the call raises exactly when some line item
    got a net price and either some other did not (the text lists fewer
    net prices than items) or the forest refuses the table.  In every
    other case it returns. *)
Theorem extracted_record_raises_exactly_when (text : string)
  (cs ce : option date) (items : list line_item) :
  missing_fields (DocumentProcessor.extract_invoice_data text) = [] ->
  dict_get "line_items" (DocumentProcessor.extract_invoice_data text)
  = Some (VItems items) ->
  (exists e st,
     analyze (DocumentProcessor.extract_invoice_data text) cs ce
     = (Raise e, st))
  <-> ((exists it, In it items /\ unit_price it <> Null)
       /\ ((exists it, In it items /\ unit_price it = Null)
           \/ exists e, fit (numeric_rows items) = Raise e)).
Proof.
  intros Hmiss Hget.
  assert (Hshape : Forall DocumentProcessor.priced_or_not items).
  { destruct (ExtractorRecordFacts.extract_items_priced text)
      as (items' & Hget' & Hshape).
    rewrite Hget in Hget'. inversion Hget'; subst. exact Hshape. }
  destruct (priced_items_rows items Hshape) as (Hdesc & Hcols & Hrows & Hlen).
  destruct (analyze_run _ cs ce Hmiss) as (dated & t & _ & _ & _ & ->).
  rewrite block_raises.
  rewrite (line_items_raise_iff items (Store _ dated t) Hget).
  split.
  - intros [(bad & Hin & _ & Habs)|(_ & _ & H3 & H4)].
    + now destruct (Hdesc bad Hin).
    + split; [now apply Hrows|].
      destruct H4 as [H4|H4]; [left; now apply Hlen | now right].
  - intros [Hpriced Hrest]. right.
    assert (Hne : items <> []).
    { destruct Hpriced as (it & Hin & _). intros ->. destruct Hin. }
    destruct (Hcols Hne) as [Hc1 Hc2].
    split; [exact Hc1|]. split; [exact Hc2|].
    split; [now apply Hrows|].
    destruct Hrest as [Hnull|Hfit]; [left; now apply Hlen | now right].
Qed.

Lemma full_items_rows (items : list line_item) :
  Forall DocumentProcessor.full_item items ->
  List.length (numeric_rows items) = List.length items
  /\ forall it, In it items -> description it <> Absent.
Proof.
  induction 1 as [|it rest (d & q & p & -> & _) _ [IH1 IH2]].
  - split; [reflexivity | intros it []].
  - cbn [numeric_rows unit_price quantity List.length].
    split; [now rewrite IH1|].
    intros it [<-|Hin]; [discriminate | now apply IH2].
Qed.

(** The regex fallback and the analyzer, end to end: every line item
    of a fallback record has both numbers and a description, so that no
    row is dropped before the forest and no key is missed; when the
    record has the six fields and the forest accepts the table, the call
    on it returns. *)
Theorem fallback_record_is_analysed (json_str : string) (record : dict)
  (items : list line_item) (model : fitted) (cs ce : option date) :
  DocumentProcessor._extract_with_regex json_str = Some record ->
  missing_fields record = [] ->
  dict_get "line_items" record = Some (VItems items) ->
  fit (numeric_rows items) = Ok model ->
  List.length (numeric_rows items) = List.length items
  /\ exists r st, analyze record cs ce = (Ok r, st).
Proof.
  intros Hrec Hmiss Hget Hfit.
  assert (Hfull : Forall DocumentProcessor.full_item items).
  { destruct (ExtractorFacts.extract_with_regex_returns json_str)
      as (record' & items' & Hrec' & _ & Hloc).
    rewrite Hrec in Hrec'. inversion Hrec'; subst record'.
    pose proof (ProcessorResultFacts.located_shape _ _ _ (Hloc _ _ Hget))
      as Hs.
    inversion Hs; subst. assumption. }
  destruct (full_items_rows items Hfull) as [Hlen Hdesc].
  split; [exact Hlen|].
  destruct (analyze_run record cs ce Hmiss) as (dated & t & _ & _ & _ & ->).
  rewrite (line_items_run items (Store record dated t) Hget).
  assert (Hend : forall st2, exists r st, conclude st2 = (Ok r, st)).
  { intros st2. destruct (conclude st2) as [o st] eqn:Ec.
    destruct (conclude_keeps _ _ _ Ec) as (_ & _ & _ & r & -> & _).
    eauto. }
  destruct items as [|it rest]; [apply Hend|].
  destruct (price_loop format_number (it :: rest) (Store record dated t))
    as [[[]|e] st1] eqn:Eloop.
  - destruct (detect (it :: rest) st1) as [[[]|e] st2] eqn:Edet;
      [apply Hend|].
    destruct (anomaly_detection_raise_inv _ _ _ _ Edet)
      as (_ & _ & _ & [Hne|Hr]); [contradiction | congruence].
  - destruct (price_loop_raise_inv _ _ _ _ Eloop)
      as (_ & bad & Hin & _ & Habs).
    now destruct (Hdesc bad Hin).
Qed.

(** The page that shows the analysis checks more than the analyzer
    does: every field the analyzer would report missing is one the page
    has already reported (it also reports empty values); so when the
    page reports none, the analyzer goes on to the analysis proper and
    its answer is neither the error result nor the missing-field one. *)
Theorem ui_reports_what_the_analyzer_reports (invoice_data : dict) :
  incl (missing_fields invoice_data)
       (FraudDetectorUI.missing_fields invoice_data)
  /\ (FraudDetectorUI.missing_fields invoice_data = [] ->
      forall cs ce r st,
        analyze invoice_data cs ce = (Ok r, st) ->
        a_message r = "Analysis completed with warnings"
        \/ a_message r = "No issues detected").
Proof.
  assert (Hincl : incl (missing_fields invoice_data)
                       (FraudDetectorUI.missing_fields invoice_data)).
  { intros f Hf. unfold missing_fields in Hf.
    unfold FraudDetectorUI.missing_fields.
    apply filter_In in Hf. destruct Hf as [Hreq Hno].
    apply filter_In. split; [exact Hreq|].
    unfold FraudDetectorUI.missing_or_falsy.
    destruct (dict_get f invoice_data) as [v|] eqn:Ev; [|reflexivity].
    assert (Hhas : dict_has f invoice_data = true)
      by (apply dict_has_get; eauto).
    rewrite Hhas in Hno. discriminate Hno. }
  split; [exact Hincl|].
  intros Hui cs ce r st Hrun.
  assert (Hmiss : missing_fields invoice_data = []).
  { destruct (missing_fields invoice_data) as [|f fs] eqn:E; [reflexivity|].
    specialize (Hincl f (or_introl eq_refl)). rewrite Hui in Hincl.
    destruct Hincl. }
  rewrite analyze_unfold, Hmiss in Hrun.
  destruct invoice_data as [|kv inv']; [discriminate Hui|].
  exact (analysis_proper_messages _ _ _ _ _ _ _ _ _ _ Hrun).
Qed.

End WithForest.

Lemma analysis_result_shape_witness :
  exists r st,
    analyze_invoice_for_fraud unit Inputs.fit_any Inputs.score_zero
      Inputs.label_by_price Inputs.format_plain
      Inputs.invoice_with_priced_items None None = (Ok r, st)
    /\ ((Inputs.invoice_with_priced_items = []
         /\ r = Analysis "error" "Invalid invoice data" None)
        \/ (Inputs.invoice_with_priced_items <> []
            /\ a_invoice r = Some (invoice st)
            /\ ((a_status r = "success" /\ issues st = []
                 /\ invoice st = Inputs.invoice_with_priced_items)
                \/ (a_status r = "warning"
                    /\ missing_fields Inputs.invoice_with_priced_items <> []
                    /\ invoice st = Inputs.invoice_with_priced_items)
                \/ (a_status r = "warning" /\ issues st <> []
                    /\ dict_get "warnings" (invoice st)
                       = Some (VStrs (issues st)))))).
Proof.
  eexists. eexists. split; [vm_compute; reflexivity|].
  apply (analysis_result_shape unit Inputs.fit_any Inputs.score_zero
           Inputs.label_by_price Inputs.format_plain
           Inputs.invoice_with_priced_items None None).
  reflexivity.
Defined.

Lemma analyzer_writes_two_keys_witness :
  dict_get "line_items"
    (invoice (snd (analyze_invoice_for_fraud unit Inputs.fit_any
                     Inputs.score_zero Inputs.label_by_price
                     Inputs.format_plain Inputs.invoice_with_priced_items
                     None None)))
  = dict_get "line_items" Inputs.invoice_with_priced_items.
Proof.
  apply (analyzer_writes_two_keys unit Inputs.fit_any Inputs.score_zero
           Inputs.label_by_price Inputs.format_plain
           Inputs.invoice_with_priced_items None None "line_items");
    discriminate.
Defined.

Lemma warnings_collected_witness :
  exists r st,
    analyze_invoice_for_fraud unit Inputs.fit_any Inputs.score_zero
      Inputs.label_by_price Inputs.format_plain
      Inputs.invoice_with_priced_items None None = (Ok r, st)
    /\ exists dated tail,
         issues st
         = dated ++ high_price_warnings Inputs.format_plain
                      Inputs.priced_items ++ tail
         /\ (dated = [] \/ dated = [date_outside_warning]
             \/ dated = [date_unparseable_warning])
         /\ (tail = []
             \/ (tail = [anomaly_warning]
                 /\ exists rows,
                      rows <> []
                      /\ dict_get "anomalous_items" (invoice st)
                         = Some (VScored rows))).
Proof.
  eexists. eexists. split; [vm_compute; reflexivity|].
  eapply (warnings_collected unit Inputs.fit_any Inputs.score_zero
           Inputs.label_by_price Inputs.format_plain
           Inputs.invoice_with_priced_items None None Inputs.priced_items);
    reflexivity.
Defined.

Lemma anomalous_items_explained_witness :
  exists r st v,
    analyze_invoice_for_fraud unit Inputs.fit_any Inputs.score_zero
      Inputs.label_by_quantity Inputs.format_plain
      Inputs.invoice_with_bulk_item None None = (Ok r, st)
    /\ dict_get "anomalous_items" (invoice st) = Some v
    /\ exists model rows,
         Inputs.fit_any (numeric_rows Inputs.bulk_items) = Ok model
         /\ v = VScored rows /\ rows <> []
         /\ a_status r = "warning"
         /\ In anomaly_warning (issues st)
         /\ map (fun row => (row_unit_price row, row_quantity row)) rows
            = filter (fun r => (Inputs.label_by_quantity model r =? -1)%Z)
                (numeric_rows Inputs.bulk_items)
         /\ Forall (fun row =>
                      flagged_row Inputs.score_zero Inputs.label_by_quantity
                                  model Inputs.bulk_items row
                      /\ exists s,
                           generate_anomaly_explanation (row_item row) = Ok s)
                   rows.
Proof.
  eexists. eexists. eexists. split; [vm_compute; reflexivity|].
  split; [vm_compute; reflexivity|].
  eapply (anomalous_items_explained unit Inputs.fit_any Inputs.score_zero
           Inputs.label_by_quantity Inputs.format_plain
           Inputs.invoice_with_bulk_item None None Inputs.bulk_items);
    reflexivity.
Defined.

(** The bulk order of the sample, whose dict has no [description], is
    written back with [description] bound to [nan]. *)
Example bulk_item_row :
  dict_get "anomalous_items"
    (invoice (snd (analyze_invoice_for_fraud unit Inputs.fit_any
                     Inputs.score_zero Inputs.label_by_quantity
                     Inputs.format_plain Inputs.invoice_with_bulk_item
                     None None)))
  = Some (VScored [Scored (Some NaN) 40 12 0 (-1)]).
Proof. reflexivity. Qed.

Lemma analyzer_raises_exactly_when_witness :
  (exists e st,
     analyze_invoice_for_fraud unit Inputs.fit_any Inputs.score_zero
       Inputs.label_by_price Inputs.format_plain
       Inputs.invoice_with_nameless_item None None = (Raise e, st))
  <-> ((exists it, In it Inputs.nameless_items
                   /\ high_price it <> None /\ description it = Absent)
       \/ (has_column unit_price Inputs.nameless_items = true
           /\ has_column quantity Inputs.nameless_items = true
           /\ numeric_rows Inputs.nameless_items <> []
           /\ (List.length (numeric_rows Inputs.nameless_items)
               <> List.length Inputs.nameless_items
               \/ exists e,
                    Inputs.fit_any (numeric_rows Inputs.nameless_items)
                    = Raise e))).
Proof.
  apply (analyzer_raises_exactly_when unit Inputs.fit_any Inputs.score_zero
           Inputs.label_by_price Inputs.format_plain
           Inputs.invoice_with_nameless_item None None Inputs.nameless_items);
    reflexivity.
Defined.

(** The item without [description] of the sample does make the call
    raise. *)
Example nameless_item_raises :
  fst (analyze_invoice_for_fraud unit Inputs.fit_any Inputs.score_zero
         Inputs.label_by_price Inputs.format_plain
         Inputs.invoice_with_nameless_item None None)
  = Raise "'description'".
Proof. reflexivity. Qed.

Lemma no_window_no_date_check_witness :
  Forall is_fit
    (trace (snd (analyze_invoice_for_fraud unit Inputs.fit_any
                   Inputs.score_zero Inputs.label_by_price
                   Inputs.format_plain Inputs.invoice_with_priced_items
                   (Some Inputs.contract_start_2023) None)))
  /\ Forall date_free
       (issues (snd (analyze_invoice_for_fraud unit Inputs.fit_any
                       Inputs.score_zero Inputs.label_by_price
                       Inputs.format_plain Inputs.invoice_with_priced_items
                       (Some Inputs.contract_start_2023) None))).
Proof.
  apply (no_window_no_date_check unit Inputs.fit_any Inputs.score_zero
           Inputs.label_by_price Inputs.format_plain
           Inputs.invoice_with_priced_items
           (Some Inputs.contract_start_2023) None).
  right. reflexivity.
Defined.

Lemma unpriced_extraction_is_analysed_witness :
  exists r st,
    analyze_invoice_for_fraud unit Inputs.fit_any Inputs.score_zero
      Inputs.label_by_price Inputs.format_plain
      (DocumentProcessor.extract_invoice_data Inputs.unpriced_invoice_text)
      (Some Inputs.contract_start_2023) (Some Inputs.contract_end_2023)
    = (Ok r, st)
    /\ (forall rows, ~ In (Fit rows) (trace st))
    /\ (forall w, In w (issues st) ->
                  w = date_outside_warning \/ w = date_unparseable_warning).
Proof.
  apply (unpriced_extraction_is_analysed unit Inputs.fit_any
           Inputs.score_zero Inputs.label_by_price Inputs.format_plain
           Inputs.unpriced_invoice_text).
  - intros l Hl. vm_compute in Hl.
    repeat (destruct Hl as [<-|Hl]; [reflexivity|]). destruct Hl.
  - reflexivity.
Defined.

Lemma date_findings_when_returning_witness :
  exists r st,
    analyze_invoice_for_fraud unit Inputs.fit_any Inputs.score_zero
      Inputs.label_by_price Inputs.format_plain
      (Inputs.six_fields "02/15/2024")
      (Some Inputs.contract_start_2023) (Some Inputs.contract_end_2023)
    = (Ok r, st)
    /\ (In date_outside_warning (issues st) <->
        exists d, parse_invoice_date (VStr "02/15/2024") = Some d
                  /\ date_leb Inputs.contract_start_2023 d
                     && date_leb d Inputs.contract_end_2023 = false)
    /\ (In date_unparseable_warning (issues st) <->
        parse_invoice_date (VStr "02/15/2024") = None)
    /\ (issues st <> [] ->
        a_status r = "warning"
        /\ a_invoice r = Some (invoice st)
        /\ dict_get "warnings" (invoice st) = Some (VStrs (issues st))).
Proof.
  eexists. eexists. split; [vm_compute; reflexivity|].
  apply (date_findings_when_returning unit Inputs.fit_any Inputs.score_zero
           Inputs.label_by_price Inputs.format_plain
           (Inputs.six_fields "02/15/2024")
           Inputs.contract_start_2023 Inputs.contract_end_2023
           (VStr "02/15/2024"));
    reflexivity.
Defined.

Lemma fallback_record_is_analysed_witness :
  exists r st,
    analyze_invoice_for_fraud unit Inputs.fit_any Inputs.score_zero
      Inputs.label_by_price Inputs.format_plain
      (match DocumentProcessor._extract_with_regex Inputs.broken_json_reply
       with
       | Some record => record
       | None => []
       end) None None
    = (Ok r, st).
Proof.
  refine (proj2 (fallback_record_is_analysed unit Inputs.fit_any
                   Inputs.score_zero Inputs.label_by_price
                   Inputs.format_plain Inputs.broken_json_reply _
                   [Item (Val "Wine rack") (Val 4) (Val 12);
                    Item (Val "Wine glasses") (Val 1)
                         (Val (Qmake 2808 100))]
                   tt None None _ _ _ _));
    reflexivity.
Defined.

Lemma other_separators_never_parse_witness :
  exists r st,
    analyze_invoice_for_fraud unit Inputs.fit_any Inputs.score_zero
      Inputs.label_by_price Inputs.format_plain
      (Inputs.six_fields "2023-02-15")
      (Some Inputs.contract_start_2023) (Some Inputs.contract_end_2023)
    = (Ok r, st)
    /\ a_status r = "warning"
    /\ In date_unparseable_warning (issues st)
    /\ ~ In date_outside_warning (issues st).
Proof.
  eexists. eexists. split; [vm_compute; reflexivity|].
  eapply (other_separators_never_parse unit Inputs.fit_any Inputs.score_zero
            Inputs.label_by_price Inputs.format_plain
            (Inputs.six_fields "2023-02-15") "2023-02-15"
            Inputs.contract_start_2023 Inputs.contract_end_2023);
    reflexivity.
Defined.

Lemma extracted_record_raises_exactly_when_witness :
  (exists e st,
     analyze_invoice_for_fraud unit Inputs.fit_any Inputs.score_zero
       Inputs.label_by_price Inputs.format_plain
       (DocumentProcessor.extract_invoice_data Inputs.sample_invoice_text)
       None None
     = (Raise e, st))
  <-> ((exists it, In it Inputs.sample_invoice_items
                   /\ unit_price it <> Null)
       /\ ((exists it, In it Inputs.sample_invoice_items
                       /\ unit_price it = Null)
           \/ exists e,
                Inputs.fit_any (numeric_rows Inputs.sample_invoice_items)
                = Raise e)).
Proof.
  apply (extracted_record_raises_exactly_when unit Inputs.fit_any
           Inputs.score_zero Inputs.label_by_price Inputs.format_plain
           Inputs.sample_invoice_text None None Inputs.sample_invoice_items);
    reflexivity.
Defined.

Lemma ui_reports_what_the_analyzer_reports_witness :
  incl (missing_fields Inputs.falsy_fields)
       (FraudDetectorUI.missing_fields Inputs.falsy_fields).
Proof.
  exact (proj1 (ui_reports_what_the_analyzer_reports unit Inputs.fit_any
                  Inputs.score_zero Inputs.label_by_price
                  Inputs.format_plain Inputs.falsy_fields)).
Defined.

(** The page and the analyzer differ on a record whose six keys are
    bound to empty values: the page reports all six, the analyzer
    none. *)
Example ui_and_analyzer_differ :
  FraudDetectorUI.missing_fields Inputs.falsy_fields = required_fields
  /\ missing_fields Inputs.falsy_fields = [].
Proof. split; reflexivity. Qed.

End AnalyzerResultFacts.
